(** * The CycloneDX schema validator of [complete_cyclonedx_validation.py]

    A shallow embedding of the validator
    [validate_complete_cyclonedx_schema(data, version)] and of the helper
    validators it calls, followed by the properties of the validation
    engine that the design document states about it.

    The Python code works on the tree produced by [json.load]: dictionaries,
    lists, strings, integers, booleans and [None].  The code is dynamically
    typed and most of its operations ([in], subscripting, [.get],
    iteration, [re.match], string methods) raise an exception when they meet
    a value of the wrong type, so every operation is modelled with the
    outcome it has on every kind of value.

    The validators come twice.  First as functions of the document tree,
    which is what their diagnostics depend on; most properties are stated
    on these.  Then, in the module [Store], as programs over a store of
    objects, where a list or a dictionary is an address and [append] and
    [add] change an object in place; the property that validation leaves
    the document as it is needs this form.

    Scope of the model:
    - numbers are integers (a float literal has no counterpart here);
    - a character is an [ascii], i.e. a code point below 256;
    - [print] calls are dropped: they only write to the terminal;
    - the interpreter's recursion limit is not modelled;
    - a diagnostic is a constructor of [issue], one per message template of
      the source, carrying the values the f-string interpolates. *)

From Stdlib Require Import ZArith Ascii String List Bool Lia.
From stdpp Require Import base strings gmap list pretty.

Open Scope string_scope.
Open Scope list_scope.

Set Warnings "-clear-no-such-hyp".

(** ** Python values *)

(** The values [json.load] builds.  A dictionary keeps its entries in
    insertion order; in a parsed document the keys are pairwise distinct,
    and a lookup returns the first binding of the key. *)
#[warnings="-register-all"]
Inductive value : Type :=
| VNone
| VBool (b : bool)
| VInt (n : Z)
| VStr (s : string)
| VList (items : list value)
| VDict (entries : list (string * value)).

(** Exceptions that escape the validator.  [FuelExhausted] is not a Python
    exception: it is the outcome of the recursion budget of
    [validate_component_structure_fuel] running out, which the budget chosen
    by [validate_component_structure] excludes
    (lemmas [validate_component_structure_unfold],
    [validate_component_structure_not_exhausted] and
    [validate_complete_cyclonedx_schema_not_exhausted]). *)
Inductive exn : Type := TypeError | AttributeError | KeyError | FuelExhausted.

Inductive result (A : Type) : Type :=
| Ok (a : A)
| Raise (e : exn).
Arguments Ok {A} a.
Arguments Raise {A} e.

Definition result_bind {A B} (r : result A) (k : A → result B) : result B :=
  match r with
  | Ok a => k a
  | Raise e => Raise e
  end.

(** [v == s] for a string constant [s]. *)
Definition is_str (s : string) (v : value) : bool :=
  match v with
  | VStr t => String.eqb t s
  | _ => false
  end.

(** [v in strs] for a list of string constants: never raises. *)
Definition in_strs (v : value) (strs : list string) : bool :=
  existsb (λ s, is_str s v) strs.

Fixpoint dict_lookup (k : string) (entries : list (string * value)) : option value :=
  match entries with
  | [] => None
  | (k', v) :: rest => if String.eqb k k' then Some v else dict_lookup k rest
  end.

(** [needle in hay] on two strings: substring test. *)
Fixpoint str_contains (needle hay : string) : bool :=
  String.prefix needle hay ||
  match hay with
  | EmptyString => false
  | String _ rest => str_contains needle rest
  end.

Fixpoint str_chars (s : string) : list ascii :=
  match s with
  | EmptyString => []
  | String c rest => c :: str_chars rest
  end.

Definition char_str (c : ascii) : value := VStr (String c EmptyString).

(** [k in x] for a string constant [k]: key membership on a dictionary,
    element membership on a list, substring test on a string, [TypeError]
    on the values that are not iterable. *)
Definition py_contains (k : string) (x : value) : result bool :=
  match x with
  | VDict entries => Ok (if dict_lookup k entries is Some _ then true else false)
  | VList items => Ok (existsb (is_str k) items)
  | VStr s => Ok (str_contains k s)
  | VNone | VBool _ | VInt _ => Raise TypeError
  end.

Definition py_not_contains (k : string) (x : value) : result bool :=
  result_bind (py_contains k x) (λ b, Ok (negb b)).

(** [x[k]] for a string constant [k]: lists and strings refuse a string
    index. *)
Definition py_getitem (x : value) (k : string) : result value :=
  match x with
  | VDict entries =>
      match dict_lookup k entries with
      | Some v => Ok v
      | None => Raise KeyError
      end
  | _ => Raise TypeError
  end.

(** [x.get(k, default)]: only dictionaries have the method. *)
Definition py_get (x : value) (k : string) (default : value) : result value :=
  match x with
  | VDict entries =>
      match dict_lookup k entries with
      | Some v => Ok v
      | None => Ok default
      end
  | _ => Raise AttributeError
  end.

(** The items a [for] loop over [x] visits: the elements of a list, the keys
    of a dictionary, the characters of a string. *)
Definition py_iter (x : value) : result (list value) :=
  match x with
  | VList items => Ok items
  | VDict entries => Ok (map (λ e, VStr e.1) entries)
  | VStr s => Ok (map char_str (str_chars s))
  | VNone | VBool _ | VInt _ => Raise TypeError
  end.

Definition is_dict (x : value) : bool :=
  match x with VDict _ => true | _ => false end.
Definition is_list (x : value) : bool :=
  match x with VList _ => true | _ => false end.
Definition is_string (x : value) : bool :=
  match x with VStr _ => true | _ => false end.

(** [s.replace(old, new)] on the characters of [s], for a one-character
    [old]. *)
Fixpoint str_replace_char (old : ascii) (new : string) (s : string) : string :=
  match s with
  | EmptyString => EmptyString
  | String c rest =>
      if Ascii.eqb c old then new +:+ str_replace_char old new rest
      else String c (str_replace_char old new rest)
  end.

(** [x.replace('Z', '+00:00')]: [AttributeError] unless [x] is a string. *)
Definition py_replace_Z (x : value) : result string :=
  match x with
  | VStr s => Ok (str_replace_char "Z"%char "+00:00" s)
  | _ => Raise AttributeError
  end.

(** [x.startswith(p)]. *)
Definition py_startswith (p : string) (x : value) : result bool :=
  match x with
  | VStr s => Ok (String.prefix p s)
  | _ => Raise AttributeError
  end.

(** *** Set elements

    [bom_refs] is a Python [set].  Its elements are hashable values, compared
    with [==]: [True] and [1] are the same element, [False] and [0] too.
    Lists and dictionaries are unhashable. *)
Inductive hkey : Type := KNone | KInt (n : Z) | KStr (s : string).

#[global] Instance hkey_eq_dec : EqDecision hkey.
Proof. solve_decision. Defined.

Definition hkey_encode (k : hkey) : unit + (Z + string) :=
  match k with
  | KNone => inl ()
  | KInt n => inr (inl n)
  | KStr s => inr (inr s)
  end.

Definition hkey_decode (x : unit + (Z + string)) : hkey :=
  match x with
  | inl _ => KNone
  | inr (inl n) => KInt n
  | inr (inr s) => KStr s
  end.

#[global] Instance hkey_countable : Countable hkey.
Proof.
  refine (inj_countable' hkey_encode hkey_decode _).
  by intros [].
Defined.

Definition py_hash (v : value) : result hkey :=
  match v with
  | VNone => Ok KNone
  | VBool b => Ok (KInt (if b then 1 else 0))
  | VInt n => Ok (KInt n)
  | VStr s => Ok (KStr s)
  | VList _ | VDict _ => Raise TypeError
  end.

(** ** Regular expressions

    The patterns of the source are sequences of character classes, each
    repeated a fixed number of times or once or more, between [^] and [$].
    [re.match] succeeds when some way of splitting the string fits; [$]
    matches at the end of the string and just before a final newline. *)
Inductive quant : Type := Exactly (n : nat) | OneOrMore.

Definition regex : Type := list ((ascii → bool) * quant).

Definition at_end (s : list ascii) : bool :=
  match s with
  | [] => true
  | [c] => Ascii.eqb c "010"%char
  | _ => false
  end.

Fixpoint re_items (items : regex) (s : list ascii) : bool :=
  match items with
  | [] => at_end s
  | (cls, Exactly n) :: rest =>
      (n <=? length s)%nat && forallb cls (take n s) && re_items rest (drop n s)
  | (cls, OneOrMore) :: rest =>
      existsb (λ k, forallb cls (take k s) && re_items rest (drop k s))
              (seq 1 (length s))
  end.

(** [re.match(pattern, x)] is not [None]; [TypeError] unless [x] is a
    string. *)
Definition re_match (pattern : regex) (x : value) : result bool :=
  match x with
  | VStr s => Ok (re_items pattern (str_chars s))
  | _ => Raise TypeError
  end.

Definition char_in (lo hi : ascii) (c : ascii) : bool :=
  (nat_of_ascii lo <=? nat_of_ascii c)%nat && (nat_of_ascii c <=? nat_of_ascii hi)%nat.

Definition is_digit (c : ascii) : bool := char_in "0" "9" c.

(** [[a-fA-F0-9]] *)
Definition is_hex (c : ascii) : bool :=
  char_in "a" "f" c || char_in "A" "F" c || is_digit c.

(** A literal character. *)
Definition lit (c : ascii) : (ascii → bool) * quant := (Ascii.eqb c, Exactly 1).

(** A literal character under [re.IGNORECASE]. *)
Definition to_lower (c : ascii) : ascii :=
  if char_in "A" "Z" c then ascii_of_nat (nat_of_ascii c + 32) else c.
Definition lit_nocase (c : ascii) : (ascii → bool) * quant :=
  (λ d, Ascii.eqb (to_lower d) (to_lower c), Exactly 1).

(** [^[a-fA-F0-9]{n}$] *)
Definition hex_pattern (n : nat) : regex := [(is_hex, Exactly n)].

(** [^urn:uuid:[0-9a-f]{8}-[0-9a-f]{4}-[0-9a-f]{4}-[0-9a-f]{4}-[0-9a-f]{12}$]
    with [re.IGNORECASE]. *)
Definition uuid_pattern : regex :=
  map lit_nocase (str_chars "urn:uuid:") ++
  [(is_hex, Exactly 8); lit "-"; (is_hex, Exactly 4); lit "-";
   (is_hex, Exactly 4); lit "-"; (is_hex, Exactly 4); lit "-";
   (is_hex, Exactly 12)].

(** [^[-+a-z0-9.]+/[-+a-z0-9.]+$] *)
Definition is_mime_char (c : ascii) : bool :=
  Ascii.eqb c "-" || Ascii.eqb c "+" || char_in "a" "z" c || is_digit c || Ascii.eqb c ".".
Definition mime_pattern : regex :=
  [(is_mime_char, OneOrMore); lit "/"; (is_mime_char, OneOrMore)].

(** [^[^@]+@[^@]+\.[^@]+$] *)
Definition not_at (c : ascii) : bool := negb (Ascii.eqb c "@").
Definition email_pattern : regex :=
  [(not_at, OneOrMore); lit "@"; (not_at, OneOrMore); lit "."; (not_at, OneOrMore)].

(** ** The standard-library functions the validator calls

    [datetime.fromisoformat] and [urllib.parse.urlparse] belong to the Python
    distribution, not to the validator, and the strings they accept differ
    between Python releases.  The validator is parametrised by their
    outcome. *)
Class PythonLib : Type := {
  (** [datetime.fromisoformat(s)] returns ([true]) or raises [ValueError]
      ([false]). *)
  fromisoformat_ok : string → bool;
  (** [urlparse(s)] returns a result whose [scheme] and [netloc] are both
      non-empty. *)
  urlparse_ok : string → bool
}.

(** ** Diagnostics

    The validator returns a list of message strings.  Each constructor
    stands for one message template of the source and carries what the
    f-string interpolates: a path or prefix as the string the source builds,
    a loop index as a number, a document value as the value. *)
Inductive issue : Type :=
| MissingRequiredField (field : string)
    (* Missing required field: {field} *)
| InvalidBomFormat (v : value)
    (* Invalid bomFormat: {data.get('bomFormat')} *)
| MissingSchema (version : string)
    (* Missing $schema field (required in {version}+) *)
| IncorrectSchema (version : string)
    (* Incorrect $schema for {version} *)
| SchemaNotAllowed (version : string)
    (* $schema should not be present in {version} *)
| InvalidSerialNumber
    (* Invalid UUID format for serialNumber *)
| InvalidTimestamp
    (* Invalid ISO 8601 timestamp format *)
| ToolsNotComponents (version : string)
    (* Tools should use components structure in {version}+ *)
| ToolsNotArray (version : string)
    (* Tools should be array in {version} *)
| ToolMissingFields (i : nat)
    (* Tool {i} missing required fields *)
| LifecyclesNotAvailable (version : string)
    (* Lifecycles not available in {version} *)
| LifecycleMissingPhase (i : nat)
    (* Lifecycle {i} missing phase *)
| InvalidLifecyclePhase (v : value)
    (* Invalid lifecycle phase: {lifecycle['phase']} *)
| DuplicateBomRef (v : value)
    (* Duplicate bom-ref: {component['bom-ref']} *)
| DuplicateServiceBomRef (v : value)
    (* Duplicate service bom-ref: {service['bom-ref']} *)
| DependencyMissingRef (i : nat)
    (* Dependency {i} missing required 'ref' field *)
| DependencyRefNotFound (i : nat) (v : value)
    (* Dependency {i} ref '{dep['ref']}' not found in bom-refs *)
| DependsOnNotFound (i j : nat) (v : value)
    (* Dependency {i}.dependsOn[{j}] '{dep_ref}' not found *)
| CompositionMissingAggregate (i : nat)
    (* Composition {i} missing required 'aggregate' field *)
| InvalidAggregate (v : value)
    (* Invalid aggregate type: {comp['aggregate']} *)
| VulnerabilitiesNotAvailable (version : string)
    (* Vulnerabilities not available in {version} *)
| MissingType (path : string)
    (* {path} missing required 'type' field *)
| InvalidType (path : string) (v : value)
    (* {path} invalid type: {...['type']} *)
| MissingName (path : string)
    (* {path} missing required 'name' field *)
| MissingVersion13 (path : string)
    (* {path} missing required 'version' field in CycloneDX 1.3 *)
| SupplierNotString (path : string)
    (* {path} supplier should be string in 1.3 *)
| SupplierNotObject (path version : string)
    (* {path} supplier should be object in {version}+ *)
| InvalidScope (path : string) (v : value)
    (* {path} invalid scope: {component['scope']} *)
| InvalidPurl (path : string)
    (* {path} invalid PURL format *)
| InvalidCpe (path : string)
    (* {path} invalid CPE format *)
| InvalidMimeType (path : string)
    (* {path} invalid MIME type format *)
| SwidMissingFields (path : string)
    (* {path}.swid missing required fields (tagId, name) *)
| EvidenceNotAvailable (path version : string)
    (* {path} evidence field not available in {version} *)
| InvalidUrl (path : string)
    (* {path} invalid URL format *)
| InvalidFlow (path : string)
    (* {path} invalid or missing flow *)
| MissingClassification (path : string)
    (* {path} missing classification *)
| HashMissingFields (path : string)
    (* {path} missing required fields (alg, content) *)
| InvalidAlgorithm (path : string) (alg : value)
    (* {path} invalid algorithm: {alg} *)
| InvalidHashContent (path : string) (alg : value)
    (* {path} invalid {alg} hash content format *)
| ExternalReferenceMissingFields (path : string)
    (* {path} missing required fields (url, type) *)
| LicenseNeither (path : string)
    (* {path} must have either 'license' or 'expression' *)
| LicenseBoth (path : string)
    (* {path} cannot have both 'license' and 'expression' *)
| LicenseNoIdOrName (path : string)
    (* {path}.license must have either 'id' or 'name' *)
| ExpressionMaybeInvalid (path : string)
    (* {path}.expression may be invalid SPDX format *)
| UrlNotArray (path : string)
    (* {path}.url should be array *)
| InvalidEmail (path : string)
    (* {path} invalid email format *)
| PropertyMissingName (path : string)
    (* {path} missing 'name' field *)
| PropertyMissingValue (path : string)
    (* {path} missing 'value' field *)
| CommitMissingUid (path : string)
    (* {path} missing 'uid' field *)
| InvalidCommitTimestamp (path : string)
    (* {path} invalid timestamp *)
| InvalidPatchType (path : string)
    (* {path} invalid patch type *)
| FrameMissingModule (path : string)
    (* {path} missing required 'module' field in 1.5 *).

(** [f"{path}.{name}[{i}]"] and the like. *)
Definition indexed (prefix : string) (i : nat) : string :=
  prefix +:+ "[" +:+ pretty i +:+ "]".

(** ** Statements

    A function body is a computation over the function's mutable local
    variables that either completes or raises; the state at the moment of
    the exception is kept.  Every validator owns a list [issues]; the
    top-level one also owns the set [bom_refs] and holds the document. *)
Definition M (St A : Type) : Type := St → result A * St.

Definition ret {St A} (a : A) : M St A := λ s, (Ok a, s).

Definition bind {St A B} (m : M St A) (k : A → M St B) : M St B :=
  λ s, match m s with
       | (Ok a, s') => k a s'
       | (Raise e, s') => (Raise e, s')
       end.

(** An expression: it reads no variable of the frame and writes none. *)
Definition lift {St A} (r : result A) : M St A := λ s, (r, s).

Definition gets {St A} (f : St → A) : M St A := λ s, (Ok (f s), s).

Definition modify {St} (f : St → St) : M St unit := λ s, (Ok (), f s).

Declare Scope stmt_scope.
Delimit Scope stmt_scope with stmt.
Notation "'do' x <- m ; k" := (bind m (λ x, k))
  (at level 10, x name, m at level 100, k at level 200,
   format "'[v' 'do'  x  <-  m ; '/' k ']'") : stmt_scope.
Notation "'do' x <~ r ; k" := (bind (lift r) (λ x, k))
  (at level 10, x name, r at level 100, k at level 200,
   format "'[v' 'do'  x  <~  r ; '/' k ']'") : stmt_scope.
Notation "m ;; k" := (bind m (λ _, k))
  (at level 100, k at level 200, right associativity,
   format "'[v' m ;; '/' k ']'") : stmt_scope.
Open Scope stmt_scope.

Definition skip {St} : M St unit := ret ().

(** [if b: m] *)
Definition when {St} (b : bool) (m : M St unit) : M St unit :=
  if b then m else skip.

(** [a or b] and [a and b] on expressions that may raise: the right operand
    is evaluated only when the left one does not decide. *)
Definition py_or (a b : result bool) : result bool :=
  result_bind a (λ x, if x then Ok true else b).
Definition py_and (a b : result bool) : result bool :=
  result_bind a (λ x, if x then b else Ok false).

(** [for i, x in enumerate(items)], counting from [i]. *)
Fixpoint for_from {St} (i : nat) (items : list value) (body : nat → value → M St unit) : M St unit :=
  match items with
  | [] => skip
  | x :: rest => body i x ;; for_from (S i) rest body
  end.

(** [for i, x in enumerate(xs): body] *)
Definition for_enumerate {St} (xs : value) (body : nat → value → M St unit) : M St unit :=
  do items <~ py_iter xs;
  for_from 0 items body.

(** The local variables of a function: its [issues] list and the rest. *)
Record frame (L : Type) : Type := Frame { issues : list issue; locals : L }.
Arguments Frame {L} issues locals.
Arguments issues {L} f.
Arguments locals {L} f.

(** [issues.append(x)] *)
Definition append {L} (x : issue) : M (frame L) unit :=
  modify (λ f, Frame (issues f ++ [x]) (locals f)).

(** [issues.extend(call)], where [call] is a call of another validator. *)
Definition extend {L} (call : result (list issue)) : M (frame L) unit :=
  do l <~ call;
  modify (λ f, Frame (issues f ++ l) (locals f)).

(** A function body of the shape [issues = []; ...; return issues]. *)
Definition returning_issues (body : M (frame unit) unit) : result (list issue) :=
  match body (Frame [] ()) with
  | (Ok _, f) => Ok (issues f)
  | (Raise e, _) => Raise e
  end.

(** [for x in items: body] over a list written in the source. *)
Fixpoint for_each {St A} (items : list A) (body : A → M St unit) : M St unit :=
  match items with
  | [] => skip
  | x :: rest => body x ;; for_each rest body
  end.

(** [any(op in x for op in ops)] *)
Fixpoint py_any_contains (ops : list string) (x : value) : result bool :=
  match ops with
  | [] => Ok false
  | op :: rest => py_or (py_contains op x) (py_any_contains rest x)
  end.

(** ** The validators *)

Section Validators.
Context {lib : PythonLib}.

(** [is_valid_url]: the bare [except] turns every exception of [urlparse]
    into [False], and [urlparse] of a value that is not a string either
    raises or returns empty parts. *)
Definition is_valid_url (url : value) : bool :=
  match url with
  | VStr s => urlparse_ok s
  | _ => false
  end.

(** The statement
    [try: datetime.fromisoformat(x.replace('Z', '+00:00'))] /
    [except ValueError: <handler>]: the result tells whether the handler
    runs.  An exception of [x.replace] is not a [ValueError] and escapes. *)
Definition fromisoformat_raises (x : value) : result bool :=
  result_bind (py_replace_Z x) (λ s, Ok (negb (fromisoformat_ok s))).

Definition validate_organizational_contact (contact : value) (path : string) : result (list issue) :=
  returning_issues (
    do has_email <~ py_contains "email" contact;
    when has_email (
      do email <~ py_getitem contact "email";
      do matched <~ re_match email_pattern email;
      when (negb matched) (append (InvalidEmail path)))).

Definition validate_organizational_entity (entity : value) (path : string) : result (list issue) :=
  returning_issues (
    (do no_name <~ py_not_contains "name" entity;
     when no_name (append (MissingName path))) ;;
    (do has_url <~ py_contains "url" entity;
     when has_url (
       do urls <~ py_getitem entity "url";
       if negb (is_list urls) then append (UrlNotArray path)
       else
         for_enumerate urls (λ i url,
           when (negb (is_valid_url url))
                (append (InvalidUrl (indexed (path +:+ ".url") i)))))) ;;
    (do has_contact <~ py_contains "contact" entity;
     when has_contact (
       do contacts <~ py_getitem entity "contact";
       for_enumerate contacts (λ i contact,
         extend (validate_organizational_contact contact
                   (indexed (path +:+ ".contact") i)))))).

Definition validate_properties_array (properties : value) (path : string) : result (list issue) :=
  returning_issues (
    for_enumerate properties (λ i prop,
      (do no_name <~ py_not_contains "name" prop;
       when no_name (append (PropertyMissingName (indexed path i)))) ;;
      (do no_value <~ py_not_contains "value" prop;
       when no_value (append (PropertyMissingValue (indexed path i)))))).

Definition valid_algorithms : list string :=
  ["MD5"; "SHA-1"; "SHA-256"; "SHA-384"; "SHA-512";
   "SHA3-256"; "SHA3-384"; "SHA3-512";
   "BLAKE2b-256"; "BLAKE2b-384"; "BLAKE2b-512"; "BLAKE3"].

(** The dictionary [patterns] of [validate_hash_object]. *)
Definition patterns : list (string * regex) :=
  [("MD5", hex_pattern 32);
   ("SHA-1", hex_pattern 40);
   ("SHA-256", hex_pattern 64);
   ("SHA-384", hex_pattern 96);
   ("SHA-512", hex_pattern 128);
   ("SHA3-256", hex_pattern 64);
   ("SHA3-384", hex_pattern 96);
   ("SHA3-512", hex_pattern 128);
   ("BLAKE2b-256", hex_pattern 64);
   ("BLAKE2b-384", hex_pattern 96);
   ("BLAKE2b-512", hex_pattern 128);
   ("BLAKE3", hex_pattern 64)].

Fixpoint assoc_lookup {A} (k : string) (l : list (string * A)) : option A :=
  match l with
  | [] => None
  | (k', a) :: rest => if String.eqb k k' then Some a else assoc_lookup k rest
  end.

(** [patterns[alg]] *)
Definition patterns_getitem (alg : value) : result regex :=
  match alg with
  | VStr s =>
      match assoc_lookup s patterns with
      | Some p => Ok p
      | None => Raise KeyError
      end
  | VList _ | VDict _ => Raise TypeError
  | VNone | VBool _ | VInt _ => Raise KeyError
  end.

Definition validate_hash_object (hash_obj : value) (path : string) : result (list issue) :=
  returning_issues (
    do missing <~ py_or (py_not_contains "alg" hash_obj)
                        (py_not_contains "content" hash_obj);
    if missing then append (HashMissingFields path)
    else
      do alg <~ py_getitem hash_obj "alg";
      do content <~ py_getitem hash_obj "content";
      if negb (in_strs alg valid_algorithms) then append (InvalidAlgorithm path alg)
      else
        do pattern <~ patterns_getitem alg;
        do matched <~ re_match pattern content;
        when (negb matched) (append (InvalidHashContent path alg))).

(** The list [valid_types] of [validate_external_reference]. *)
Definition valid_reference_types : list string :=
  ["vcs"; "issue-tracker"; "website"; "advisories"; "bom";
   "mailing-list"; "social"; "chat"; "documentation"; "support";
   "distribution"; "license"; "build-meta"; "build-system";
   "release-notes"; "other"].

Definition validate_external_reference (ref : value) (path : string) : result (list issue) :=
  returning_issues (
    do missing <~ py_or (py_not_contains "url" ref) (py_not_contains "type" ref);
    if missing then append (ExternalReferenceMissingFields path)
    else
      (do type <~ py_getitem ref "type";
       when (negb (in_strs type valid_reference_types))
            (append (InvalidType path type))) ;;
      (do url <~ py_getitem ref "url";
       when (negb (is_valid_url url)) (append (InvalidUrl path))) ;;
      (do has_hashes <~ py_contains "hashes" ref;
       when has_hashes (
         do hashes <~ py_getitem ref "hashes";
         for_enumerate hashes (λ i hash_obj,
           extend (validate_hash_object hash_obj
                     (indexed (path +:+ ".hashes") i)))))).

Definition valid_operators : list string := ["AND"; "OR"; "WITH"].

Definition validate_license_choice (license_choice : value) (path : string) : result (list issue) :=
  returning_issues (
    do has_license <~ py_contains "license" license_choice;
    do has_expression <~ py_contains "expression" license_choice;
    (if negb has_license && negb has_expression
     then append (LicenseNeither path)
     else if has_license && has_expression
     then append (LicenseBoth path)
     else skip) ;;
    when has_license (
      do license_obj <~ py_getitem license_choice "license";
      do has_id <~ py_contains "id" license_obj;
      do has_name <~ py_contains "name" license_obj;
      when (negb has_id && negb has_name) (append (LicenseNoIdOrName path))) ;;
    when has_expression (
      do expr <~ py_getitem license_choice "expression";
      do likely_valid <~ py_or (py_any_contains valid_operators expr)
                               (py_not_contains " " expr);
      if likely_valid then skip
      else append (ExpressionMaybeInvalid path))).

Definition valid_patch_types : list string :=
  ["unofficial"; "monkey"; "backport"; "cherry-pick"].

Definition validate_pedigree (pedigree : value) (path : string) : result (list issue) :=
  returning_issues (
    (do has_commits <~ py_contains "commits" pedigree;
     when has_commits (
       do commits <~ py_getitem pedigree "commits";
       for_enumerate commits (λ i commit,
         (do no_uid <~ py_not_contains "uid" commit;
          when no_uid
               (append (CommitMissingUid (indexed (path +:+ ".commits") i)))) ;;
         for_each ["author"; "committer"] (λ field,
           do has_field <~ py_contains field commit;
           when has_field (
             do action <~ py_getitem commit field;
             do has_timestamp <~ py_contains "timestamp" action;
             when has_timestamp (
               do timestamp <~ py_getitem action "timestamp";
               do invalid <~ fromisoformat_raises timestamp;
               when invalid
                    (append (InvalidCommitTimestamp
                               (indexed (path +:+ ".commits") i +:+ "." +:+ field))))))))) ;;
    (do has_patches <~ py_contains "patches" pedigree;
     when has_patches (
       do patches <~ py_getitem pedigree "patches";
       for_enumerate patches (λ i patch,
         do no_type <~ py_not_contains "type" patch;
         if no_type then append (MissingType (indexed (path +:+ ".patches") i))
         else
           do type <~ py_getitem patch "type";
           when (negb (in_strs type valid_patch_types))
                (append (InvalidPatchType (indexed (path +:+ ".patches") i))))))).

Definition validate_evidence (evidence : value) (path version : string) : result (list issue) :=
  returning_issues (
    do has_callstack <~ py_contains "callstack" evidence;
    when has_callstack (
      do callstack <~ py_getitem evidence "callstack";
      do frames <~ py_get callstack "frames" (VList []);
      for_enumerate frames (λ i frame,
        when (String.eqb version "1.5") (
          do no_module <~ py_not_contains "module" frame;
          when no_module
               (append (FrameMissingModule
                          (indexed (path +:+ ".callstack.frames") i))))))).

Definition valid_flows : list string :=
  ["inbound"; "outbound"; "bi-directional"; "unknown"].

Definition validate_service_structure (service : value) (path : string) : result (list issue) :=
  returning_issues (
    (do no_name <~ py_not_contains "name" service;
     when no_name (append (MissingName path))) ;;
    (do has_endpoints <~ py_contains "endpoints" service;
     when has_endpoints (
       do endpoints <~ py_getitem service "endpoints";
       for_enumerate endpoints (λ i endpoint,
         when (negb (is_valid_url endpoint))
              (append (InvalidUrl (indexed (path +:+ ".endpoints") i)))))) ;;
    (do has_data <~ py_contains "data" service;
     when has_data (
       do data_items <~ py_getitem service "data";
       for_enumerate data_items (λ i data_item,
         (do bad_flow <~ py_or (py_not_contains "flow" data_item)
                               (result_bind (py_getitem data_item "flow")
                                  (λ flow, Ok (negb (in_strs flow valid_flows))));
          when bad_flow (append (InvalidFlow (indexed (path +:+ ".data") i)))) ;;
         (do no_classification <~ py_not_contains "classification" data_item;
          when no_classification
               (append (MissingClassification (indexed (path +:+ ".data") i))))))) ;;
    (do has_provider <~ py_contains "provider" service;
     when has_provider (
       do provider <~ py_getitem service "provider";
       extend (validate_organizational_entity provider (path +:+ ".provider"))))).

(** The list [valid_types] of [validate_component_structure]. *)
Definition valid_types : list string :=
  ["application"; "framework"; "library"; "container";
   "operating-system"; "device"; "firmware"; "file"].

Definition valid_scopes : list string := ["required"; "optional"; "excluded"].

(** The body of [validate_component_structure]; [self] stands for the
    function itself, which the body calls on the nested components. *)
Definition validate_component_structure_body (self : value → string → string → result (list issue)) (component : value) (path version : string) : result (list issue) :=
  returning_issues (
    (* Required fields *)
    (do no_type <~ py_not_contains "type" component;
     if no_type then append (MissingType path)
     else
       do type <~ py_getitem component "type";
       when (negb (in_strs type valid_types)) (append (InvalidType path type))) ;;
    (do no_name <~ py_not_contains "name" component;
     when no_name (append (MissingName path))) ;;
    (* Version field (required in 1.3, optional in 1.4+) *)
    (do no_version <~ py_and (Ok (String.eqb version "1.3"))
                             (py_not_contains "version" component);
     when no_version (append (MissingVersion13 path))) ;;
    (* Supplier validation *)
    (do has_supplier <~ py_contains "supplier" component;
     when has_supplier (
       if String.eqb version "1.3" then
         do supplier <~ py_getitem component "supplier";
         when (negb (is_string supplier)) (append (SupplierNotString path))
       else if String.leb "1.4" version then
         do supplier <~ py_getitem component "supplier";
         if negb (is_dict supplier) then append (SupplierNotObject path version)
         else
           do supplier <~ py_getitem component "supplier";
           extend (validate_organizational_entity supplier (path +:+ ".supplier"))
       else skip)) ;;
    (* Scope validation *)
    (do has_scope <~ py_contains "scope" component;
     when has_scope (
       do scope <~ py_getitem component "scope";
       when (negb (in_strs scope valid_scopes)) (append (InvalidScope path scope)))) ;;
    (* Hash validation *)
    (do has_hashes <~ py_contains "hashes" component;
     when has_hashes (
       do hashes <~ py_getitem component "hashes";
       for_enumerate hashes (λ i hash_obj,
         extend (validate_hash_object hash_obj (indexed (path +:+ ".hashes") i))))) ;;
    (* License validation *)
    (do has_licenses <~ py_contains "licenses" component;
     when has_licenses (
       do licenses <~ py_getitem component "licenses";
       for_enumerate licenses (λ i license_choice,
         extend (validate_license_choice license_choice
                   (indexed (path +:+ ".licenses") i))))) ;;
    (* PURL validation *)
    (do has_purl <~ py_contains "purl" component;
     when has_purl (
       do purl <~ py_getitem component "purl";
       do ok <~ py_startswith "pkg:" purl;
       when (negb ok) (append (InvalidPurl path)))) ;;
    (* CPE validation *)
    (do has_cpe <~ py_contains "cpe" component;
     when has_cpe (
       do cpe <~ py_getitem component "cpe";
       do ok <~ py_startswith "cpe:" cpe;
       when (negb ok) (append (InvalidCpe path)))) ;;
    (* MIME type validation *)
    (do has_mime <~ py_contains "mime-type" component;
     when has_mime (
       do mime <~ py_getitem component "mime-type";
       do matched <~ re_match mime_pattern mime;
       when (negb matched) (append (InvalidMimeType path)))) ;;
    (* SWID validation *)
    (do has_swid <~ py_contains "swid" component;
     when has_swid (
       do swid <~ py_getitem component "swid";
       do missing <~ py_or (py_not_contains "tagId" swid) (py_not_contains "name" swid);
       when missing (append (SwidMissingFields path)))) ;;
    (* External references *)
    (do has_refs <~ py_contains "externalReferences" component;
     when has_refs (
       do refs <~ py_getitem component "externalReferences";
       for_enumerate refs (λ i ref,
         extend (validate_external_reference ref
                   (indexed (path +:+ ".externalReferences") i))))) ;;
    (* Pedigree validation *)
    (do has_pedigree <~ py_contains "pedigree" component;
     when has_pedigree (
       do pedigree <~ py_getitem component "pedigree";
       extend (validate_pedigree pedigree (path +:+ ".pedigree")))) ;;
    (* Evidence validation (1.5+) *)
    (do has_evidence <~ py_contains "evidence" component;
     when has_evidence (
       if String.ltb version "1.5" then append (EvidenceNotAvailable path version)
       else
         do evidence <~ py_getitem component "evidence";
         extend (validate_evidence evidence (path +:+ ".evidence") version))) ;;
    (* Properties validation *)
    (do has_properties <~ py_contains "properties" component;
     when has_properties (
       do properties <~ py_getitem component "properties";
       extend (validate_properties_array properties (path +:+ ".properties")))) ;;
    (* Nested components *)
    (do has_components <~ py_contains "components" component;
     when has_components (
       do components <~ py_getitem component "components";
       for_enumerate components (λ i nested,
         extend (self nested (indexed (path +:+ ".components") i) version))))).

(** The recursive function, with a bound [fuel] on the depth of the calls. *)
Fixpoint validate_component_structure_fuel (fuel : nat) (component : value) (path version : string) : result (list issue) :=
  match fuel with
  | O => Raise FuelExhausted
  | S fuel' =>
      validate_component_structure_body (validate_component_structure_fuel fuel')
        component path version
  end.

(** The nesting depth of lists and dictionaries in a value. *)
Fixpoint vdepth (v : value) : nat :=
  match v with
  | VList items => S (foldr (λ x d, Nat.max (vdepth x) d) 0%nat items)
  | VDict entries => S (foldr (λ e d, Nat.max (vdepth e.2) d) 0%nat entries)
  | _ => 0%nat
  end.

(** [validate_component_structure(component, path, version)]: the budget
    covers the deepest chain of nested components the value can hold. *)
Definition validate_component_structure (component : value) (path version : string) : result (list issue) :=
  validate_component_structure_fuel (S (vdepth component)) component path version.

(** *** The top-level validator

    Its mutable locals are [issues] and the set [bom_refs]; [data] is the
    document it was given.  The body follows the numbered parts of the
    source. *)
Record top_locals : Type := TopLocals { data : value; bom_refs : gset hkey }.

Definition top : Type := frame top_locals.

Definition read_data : M top value := gets (λ f, data (locals f)).

(** [x in bom_refs]: hashes [x] first. *)
Definition bom_refs_contains (x : value) : M top bool :=
  do k <~ py_hash x;
  gets (λ f, bool_decide (k ∈ bom_refs (locals f))).

(** [bom_refs.add(x)] *)
Definition bom_refs_add (x : value) : M top unit :=
  do k <~ py_hash x;
  modify (λ f, Frame (issues f)
                     (TopLocals (data (locals f)) ({[k]} ∪ bom_refs (locals f)))).

(** [all(k in x for k in keys)] *)
Fixpoint py_all_contains (keys : list string) (x : value) : result bool :=
  match keys with
  | [] => Ok true
  | k :: rest => py_and (py_contains k x) (py_all_contains rest x)
  end.

(** [f"http://cyclonedx.org/schema/bom-{version}.schema.json"] *)
Definition schema_uri (version : string) : string :=
  "http://cyclonedx.org/schema/bom-" +:+ version +:+ ".schema.json".

(** 1. DOCUMENT LEVEL VALIDATIONS *)
Definition document_level_validations (version : string) : M top unit :=
  do data <- read_data;
  for_each ["bomFormat"; "specVersion"; "version"] (λ field,
    do missing <~ py_not_contains field data;
    when missing (append (MissingRequiredField field))) ;;
  (* bomFormat validation *)
  (do bom_format <~ py_get data "bomFormat" VNone;
   when (negb (is_str "CycloneDX" bom_format)) (append (InvalidBomFormat bom_format))) ;;
  (* Version-specific schema validation *)
  (if String.leb "1.4" version then
     do no_schema <~ py_not_contains "$schema" data;
     if no_schema then append (MissingSchema version)
     else
       do schema <~ py_getitem data "$schema";
       when (negb (is_str (schema_uri version) schema))
            (append (IncorrectSchema version))
   else
     do has_schema <~ py_contains "$schema" data;
     when has_schema (append (SchemaNotAllowed version))) ;;
  (* Serial number validation (UUID format) *)
  (do has_serial <~ py_contains "serialNumber" data;
   when has_serial (
     do serial <~ py_getitem data "serialNumber";
     do matched <~ re_match uuid_pattern serial;
     when (negb matched) (append InvalidSerialNumber))).

Definition valid_phases : list string :=
  ["design"; "pre-build"; "build"; "post-build"; "operations"; "discovery";
   "decommission"].

(** 2. METADATA VALIDATION *)
Definition metadata_validation (version : string) : M top unit :=
  do data <- read_data;
  do metadata <~ py_get data "metadata" (VDict []);
  (* Timestamp validation *)
  (do has_timestamp <~ py_contains "timestamp" metadata;
   when has_timestamp (
     do timestamp <~ py_getitem metadata "timestamp";
     do invalid <~ fromisoformat_raises timestamp;
     when invalid (append InvalidTimestamp))) ;;
  (* Tools validation *)
  (do has_tools <~ py_contains "tools" metadata;
   when has_tools (
     do tools <~ py_getitem metadata "tools";
     if String.leb "1.5" version then
       do bad <~ py_or (Ok (negb (is_dict tools))) (py_not_contains "components" tools);
       if bad then append (ToolsNotComponents version)
       else
         do tool_components <~ py_get tools "components" (VList []);
         for_enumerate tool_components (λ i tool,
           extend (validate_component_structure tool
                     (indexed "tools.components" i) version))
     else
       if negb (is_list tools) then append (ToolsNotArray version)
       else
         for_enumerate tools (λ i tool,
           do complete <~ py_all_contains ["vendor"; "name"; "version"] tool;
           when (negb complete) (append (ToolMissingFields i))))) ;;
  (* Authors validation *)
  (do has_authors <~ py_contains "authors" metadata;
   when has_authors (
     do authors <~ py_getitem metadata "authors";
     for_enumerate authors (λ i author,
       extend (validate_organizational_contact author
                 (indexed "metadata.authors" i))))) ;;
  (* Manufacturer/Supplier validation *)
  for_each ["manufacture"; "supplier"] (λ entity_type,
    do has_entity <~ py_contains entity_type metadata;
    when has_entity (
      do entity <~ py_getitem metadata entity_type;
      extend (validate_organizational_entity entity ("metadata." +:+ entity_type)))) ;;
  (* Component validation (metadata component) *)
  (do has_component <~ py_contains "component" metadata;
   when has_component (
     do component <~ py_getitem metadata "component";
     extend (validate_component_structure component "metadata.component" version))) ;;
  (* Licenses validation *)
  (do has_licenses <~ py_contains "licenses" metadata;
   when has_licenses (
     do licenses <~ py_getitem metadata "licenses";
     for_enumerate licenses (λ i license_choice,
       extend (validate_license_choice license_choice
                 (indexed "metadata.licenses" i))))) ;;
  (* Properties validation *)
  (do has_properties <~ py_contains "properties" metadata;
   when has_properties (
     do properties <~ py_getitem metadata "properties";
     extend (validate_properties_array properties "metadata.properties"))) ;;
  (* Lifecycles validation (1.5+) *)
  (do has_lifecycles <~ py_contains "lifecycles" metadata;
   when has_lifecycles (
     if String.ltb version "1.5" then append (LifecyclesNotAvailable version)
     else
       do lifecycles <~ py_getitem metadata "lifecycles";
       for_enumerate lifecycles (λ i lifecycle,
         do no_phase <~ py_not_contains "phase" lifecycle;
         if no_phase then append (LifecycleMissingPhase i)
         else
           do phase <~ py_getitem lifecycle "phase";
           when (negb (in_strs phase valid_phases))
                (append (InvalidLifecyclePhase phase))))).

(** 3. COMPONENTS VALIDATION, up to the collection of the top-level
    [bom-ref] values. *)
Definition components_validation (version : string) : M top unit :=
  do data <- read_data;
  do has_components <~ py_contains "components" data;
  when has_components (
    do components <~ py_getitem data "components";
    for_enumerate components (λ i component,
      extend (validate_component_structure component
                (indexed "components" i) version) ;;
      (* Collect bom-refs for uniqueness check *)
      do has_ref <~ py_contains "bom-ref" component;
      when has_ref (
        do ref <~ py_getitem component "bom-ref";
        do seen <- bom_refs_contains ref;
        if seen then append (DuplicateBomRef ref)
        else bom_refs_add ref))).

(** Add metadata component bom-ref *)
Definition metadata_component_bom_ref : M top unit :=
  do data <- read_data;
  do has_component <~ py_and (py_contains "metadata" data)
                             (result_bind (py_getitem data "metadata")
                                          (py_contains "component"));
  when has_component (
    do metadata <~ py_getitem data "metadata";
    do component <~ py_getitem metadata "component";
    do has_ref <~ py_contains "bom-ref" component;
    when has_ref (
      do ref <~ py_getitem component "bom-ref";
      bom_refs_add ref)).

(** 4. SERVICES VALIDATION *)
Definition services_validation : M top unit :=
  do data <- read_data;
  do has_services <~ py_contains "services" data;
  when has_services (
    do services <~ py_getitem data "services";
    for_enumerate services (λ i service,
      extend (validate_service_structure service (indexed "services" i)) ;;
      do has_ref <~ py_contains "bom-ref" service;
      when has_ref (
        do ref <~ py_getitem service "bom-ref";
        do seen <- bom_refs_contains ref;
        if seen then append (DuplicateServiceBomRef ref)
        else bom_refs_add ref))).

(** 5. DEPENDENCIES VALIDATION *)
Definition dependencies_validation : M top unit :=
  do data <- read_data;
  do has_dependencies <~ py_contains "dependencies" data;
  when has_dependencies (
    do dependencies <~ py_getitem data "dependencies";
    for_enumerate dependencies (λ i dep,
      (do no_ref <~ py_not_contains "ref" dep;
       if no_ref then append (DependencyMissingRef i)
       else
         do ref <~ py_getitem dep "ref";
         do found <- bom_refs_contains ref;
         when (negb found) (append (DependencyRefNotFound i ref))) ;;
      (do has_depends_on <~ py_contains "dependsOn" dep;
       when has_depends_on (
         do depends_on <~ py_getitem dep "dependsOn";
         for_enumerate depends_on (λ j dep_ref,
           do found <- bom_refs_contains dep_ref;
           when (negb found) (append (DependsOnNotFound i j dep_ref))))))).

Definition valid_aggregates : list string :=
  ["complete"; "incomplete"; "incomplete_first_party_only";
   "incomplete_third_party_only"; "unknown"; "not_specified"].

(** 6. COMPOSITIONS VALIDATION *)
Definition compositions_validation : M top unit :=
  do data <- read_data;
  do has_compositions <~ py_contains "compositions" data;
  when has_compositions (
    do compositions <~ py_getitem data "compositions";
    for_enumerate compositions (λ i comp,
      do no_aggregate <~ py_not_contains "aggregate" comp;
      if no_aggregate then append (CompositionMissingAggregate i)
      else
        do aggregate <~ py_getitem comp "aggregate";
        when (negb (in_strs aggregate valid_aggregates))
             (append (InvalidAggregate aggregate)))).

(** 7. VULNERABILITIES VALIDATION (1.4+) *)
Definition vulnerabilities_validation (version : string) : M top unit :=
  do data <- read_data;
  do has_vulnerabilities <~ py_contains "vulnerabilities" data;
  when has_vulnerabilities (
    when (String.ltb version "1.4") (append (VulnerabilitiesNotAvailable version))).

(** 8. EXTERNAL REFERENCES VALIDATION *)
Definition external_references_validation : M top unit :=
  do data <- read_data;
  do has_refs <~ py_contains "externalReferences" data;
  when has_refs (
    do refs <~ py_getitem data "externalReferences";
    for_enumerate refs (λ i ref,
      extend (validate_external_reference ref (indexed "externalReferences" i)))).

(** The body of [validate_complete_cyclonedx_schema]. *)
Definition validation_body (version : string) : M top unit :=
  document_level_validations version ;;
  metadata_validation version ;;
  components_validation version ;;
  metadata_component_bom_ref ;;
  services_validation ;;
  dependencies_validation ;;
  compositions_validation ;;
  vulnerabilities_validation version ;;
  external_references_validation.

(** The run of the validator on a document: its outcome and the final
    values of its variables. *)
Definition run_validation (document : value) (version : string) : result unit * top :=
  validation_body version (Frame [] (TopLocals document ∅)).

(** [validate_complete_cyclonedx_schema(data, version)] returns [issues]. *)
Definition validate_complete_cyclonedx_schema (document : value) (version : string) : result (list issue) :=
  match run_validation document version with
  | (Ok _, f) => Ok (issues f)
  | (Raise e, _) => Raise e
  end.

End Validators.

(** ** A reference instance of the standard-library functions

    [Reference.fromisoformat] follows the grammar the Python documentation
    gives for [datetime.fromisoformat] in Python 3.7 to 3.10,
    [YYYY-MM-DD[*HH[:MM[:SS[.fff[fff]]]][+HH:MM[:SS[.ffffff]]]]], together
    with the range checks of the [datetime] constructor.
    [Reference.urlparse_scheme_netloc] keeps the two parts of [urlparse] the
    validator looks at: a scheme before the first colon and a network
    location after [//]. *)
Module Reference.

(** Exactly [n] decimal digits, as a number. *)
Fixpoint digits (n acc : nat) (s : list ascii) : option (nat * list ascii) :=
  match n with
  | O => Some (acc, s)
  | S n' =>
      match s with
      | c :: rest =>
          if is_digit c then digits n' (10 * acc + (nat_of_ascii c - 48)) rest
          else None
      | [] => None
      end
  end.

Definition is_leap (y : nat) : bool :=
  (y mod 4 =? 0)%nat && (negb (y mod 100 =? 0)%nat || (y mod 400 =? 0)%nat).

Definition days_in_month (y m : nat) : nat :=
  match m with
  | 2 => if is_leap y then 29 else 28
  | 4 | 6 | 9 | 11 => 30
  | _ => 31
  end%nat.

Definition valid_date (y m d : nat) : bool :=
  (1 <=? y)%nat && (1 <=? m)%nat && (m <=? 12)%nat &&
  (1 <=? d)%nat && (d <=? days_in_month y m)%nat.

(** [YYYY-MM-DD], the first ten characters. *)
Definition parse_date (s : list ascii) : option (list ascii) :=
  match digits 4 0 s with
  | Some (y, c1 :: s1) =>
      if Ascii.eqb c1 "-" then
        match digits 2 0 s1 with
        | Some (m, c2 :: s2) =>
            if Ascii.eqb c2 "-" then
              match digits 2 0 s2 with
              | Some (d, rest) => if valid_date y m d then Some rest else None
              | None => None
              end
            else None
        | _ => None
        end
      else None
  | _ => None
  end.

(** The fraction after the seconds: three or six digits. *)
Definition parse_fraction (s : list ascii) : bool :=
  match digits 3 0 s with
  | Some (_, []) => true
  | Some (_, rest) => if digits 3 0 rest is Some (_, []) then true else false
  | None => false
  end.

(** [HH[:MM[:SS[.fff[fff]]]]]: hours, minutes, seconds. *)
Definition parse_hh_mm_ss_ff (s : list ascii) : option (nat * nat * nat) :=
  match digits 2 0 s with
  | Some (h, []) => Some (h, 0, 0)%nat
  | Some (h, c1 :: s1) =>
      if Ascii.eqb c1 ":" then
        match digits 2 0 s1 with
        | Some (m, []) => Some (h, m, 0)%nat
        | Some (m, c2 :: s2) =>
            if Ascii.eqb c2 ":" then
              match digits 2 0 s2 with
              | Some (sec, []) => Some (h, m, sec)
              | Some (sec, c3 :: s3) =>
                  if Ascii.eqb c3 "." && parse_fraction s3 then Some (h, m, sec)
                  else None
              | None => None
              end
            else None
        | None => None
        end
      else None
  | None => None
  end.

(** The text before and after the first occurrence of [c]. *)
Fixpoint split_at (c : ascii) (s : list ascii) : option (list ascii * list ascii) :=
  match s with
  | [] => None
  | d :: rest =>
      if Ascii.eqb d c then Some ([], rest)
      else match split_at c rest with
           | Some (before, after) => Some (d :: before, after)
           | None => None
           end
  end.

Definition valid_time (t : nat * nat * nat) : bool :=
  let '(h, m, s) := t in (h <? 24)%nat && (m <? 60)%nat && (s <? 60)%nat.

(** A UTC offset is strictly shorter than a day. *)
Definition valid_offset (t : nat * nat * nat) : bool :=
  let '(h, m, s) := t in (h * 3600 + m * 60 + s <? 24 * 3600)%nat.

Definition parse_time (s : list ascii) : bool :=
  let parts := match split_at "-" s with
               | Some p => Some p
               | None => split_at "+" s
               end in
  match parts with
  | None => if parse_hh_mm_ss_ff s is Some t then valid_time t else false
  | Some (timestr, tzstr) =>
      match parse_hh_mm_ss_ff timestr with
      | Some t =>
          valid_time t &&
          (bool_decide (length tzstr ∈ [5; 8; 15]%nat)) &&
          (if parse_hh_mm_ss_ff tzstr is Some o then valid_offset o else false)
      | None => false
      end
  end.

Definition fromisoformat (date_string : string) : bool :=
  match parse_date (str_chars date_string) with
  | Some [] => true
  | Some (_ :: tstr) => if tstr is [] then true else parse_time tstr
  | None => false
  end.

Definition is_letter (c : ascii) : bool := char_in "a" "z" c || char_in "A" "Z" c.

Definition is_scheme_char (c : ascii) : bool :=
  is_letter c || is_digit c || Ascii.eqb c "+" || Ascii.eqb c "-" || Ascii.eqb c ".".

Definition is_netloc_end (c : ascii) : bool :=
  Ascii.eqb c "/" || Ascii.eqb c "?" || Ascii.eqb c "#".

Definition urlparse_scheme_netloc (url : string) : bool :=
  match split_at ":" (str_chars url) with
  | Some (c :: scheme, "/" :: "/" :: c' :: _) =>
      is_letter c && forallb is_scheme_char scheme && negb (is_netloc_end c')
  | _ => false
  end%char.

Definition lib : PythonLib :=
  {| fromisoformat_ok := fromisoformat; urlparse_ok := urlparse_scheme_netloc |}.

End Reference.

(** ** The validators over the interpreter's store

    In Python a list or a dictionary is an object: a variable holds its
    address, two variables can hold the same address, and a method such as
    [append] changes the object for everyone who holds it.  The definitions
    above take the document as a tree and cannot tell whether the validator
    writes into it.  The module below renders the same functions over a
    store of objects: the document is a set of objects of the store, the
    list [issues] of every validator and the set [bom_refs] are objects of
    the same store, created by the validator and changed in place.

    Strings, numbers, booleans and [None] are immutable and are held by
    value.  The lists of constants written in the source ([required],
    [valid_types], ...) are never changed and are not placed in the
    store. *)
Module Store.

Inductive ref_value : Type :=
| RNone
| RBool (b : bool)
| RInt (n : Z)
| RStr (s : string)
| RRef (a : nat).

(** The objects: the lists and dictionaries of a document, the lists of
    diagnostics and the sets of identifiers of the validator. *)
Inductive object : Type :=
| OList (items : list ref_value)
| ODict (entries : list (string * ref_value))
| OIssues (l : list issue)
| OSet (elements : gset hkey).

(** The store: an address is a position, a new object goes to the end. *)
Abbreviation store := (list object).

Definition is_str (s : string) (v : ref_value) : bool :=
  match v with
  | RStr t => String.eqb t s
  | _ => false
  end.

Definition in_strs (v : ref_value) (strs : list string) : bool :=
  existsb (λ s, is_str s v) strs.

Definition char_str (c : ascii) : ref_value := RStr (String c EmptyString).

(** An expression that reads the store. *)
Definition reads {A} (f : store → result A) : M store A := λ h, (f h, h).

(** [k in x].  No diagnostic equals one of the constants the source looks
    for, so a list of diagnostics holds none of them. *)
Definition py_contains (k : string) (x : ref_value) : M store bool :=
  reads (λ h,
    match x with
    | RStr s => Ok (str_contains k s)
    | RRef a =>
        match h !! a with
        | Some (ODict entries) =>
            Ok (if assoc_lookup k entries is Some _ then true else false)
        | Some (OList items) => Ok (existsb (is_str k) items)
        | Some (OIssues _) => Ok false
        | Some (OSet elements) => Ok (bool_decide (KStr k ∈ elements))
        | None => Raise TypeError
        end
    | RNone | RBool _ | RInt _ => Raise TypeError
    end).

Definition py_not_contains (k : string) (x : ref_value) : M store bool :=
  do b <- py_contains k x;
  ret (negb b).

(** [x[k]] *)
Definition py_getitem (x : ref_value) (k : string) : M store ref_value :=
  reads (λ h,
    match x with
    | RRef a =>
        match h !! a with
        | Some (ODict entries) =>
            match assoc_lookup k entries with
            | Some v => Ok v
            | None => Raise KeyError
            end
        | _ => Raise TypeError
        end
    | _ => Raise TypeError
    end).

(** [x.get(k, default)] *)
Definition py_get (x : ref_value) (k : string) (default : ref_value) : M store ref_value :=
  reads (λ h,
    match x with
    | RRef a =>
        match h !! a with
        | Some (ODict entries) =>
            match assoc_lookup k entries with
            | Some v => Ok v
            | None => Ok default
            end
        | _ => Raise AttributeError
        end
    | _ => Raise AttributeError
    end).

(** [x.get(k, [])] and [x.get(k, {})]: the method is looked up on [x],
    then the default is created, then the method is called. *)
Definition py_get_new (x : ref_value) (k : string) (default : object) : M store ref_value :=
  λ h, match x with
       | RRef a =>
           match h !! a with
           | Some (ODict entries) =>
               (match assoc_lookup k entries with
                | Some v => Ok v
                | None => Ok (RRef (length h))
                end, h ++ [default])
           | _ => (Raise AttributeError, h)
           end
       | _ => (Raise AttributeError, h)
       end.

(** The items a [for] loop over [x] visits.  The validator iterates over
    values of the document only; the items of its own lists and sets are
    not values of this model. *)
Definition py_iter (x : ref_value) : M store (list ref_value) :=
  reads (λ h,
    match x with
    | RStr s => Ok (map char_str (str_chars s))
    | RRef a =>
        match h !! a with
        | Some (OList items) => Ok items
        | Some (ODict entries) => Ok (map (λ e, RStr e.1) entries)
        | _ => Raise TypeError
        end
    | RNone | RBool _ | RInt _ => Raise TypeError
    end).

(** [isinstance(x, dict)], [isinstance(x, list)], [isinstance(x, str)] *)
Definition is_dict (x : ref_value) : M store bool :=
  reads (λ h,
    Ok match x with
       | RRef a => if h !! a is Some (ODict _) then true else false
       | _ => false
       end).

Definition is_list (x : ref_value) : M store bool :=
  reads (λ h,
    Ok match x with
       | RRef a =>
           match h !! a with
           | Some (OList _) | Some (OIssues _) => true
           | _ => false
           end
       | _ => false
       end).

Definition is_string (x : ref_value) : bool :=
  match x with RStr _ => true | _ => false end.

Definition py_replace_Z (x : ref_value) : result string :=
  match x with
  | RStr s => Ok (str_replace_char "Z"%char "+00:00" s)
  | _ => Raise AttributeError
  end.

Definition py_startswith (p : string) (x : ref_value) : result bool :=
  match x with
  | RStr s => Ok (String.prefix p s)
  | _ => Raise AttributeError
  end.

Definition py_hash (v : ref_value) : result hkey :=
  match v with
  | RNone => Ok KNone
  | RBool b => Ok (KInt (if b then 1 else 0))
  | RInt n => Ok (KInt n)
  | RStr s => Ok (KStr s)
  | RRef _ => Raise TypeError
  end.

Definition re_match (pattern : regex) (x : ref_value) : result bool :=
  match x with
  | RStr s => Ok (re_items pattern (str_chars s))
  | _ => Raise TypeError
  end.

(** The tree that the object graph below [v] holds, as far as [n] levels
    down. *)
Fixpoint tree_fuel (n : nat) (h : store) (v : ref_value) : value :=
  match v with
  | RNone => VNone
  | RBool b => VBool b
  | RInt k => VInt k
  | RStr s => VStr s
  | RRef a =>
      match n with
      | O => VNone
      | S n' =>
          match h !! a with
          | Some (OList items) => VList (map (tree_fuel n' h) items)
          | Some (ODict entries) =>
              VDict (map (λ e, (e.1, tree_fuel n' h e.2)) entries)
          | _ => VNone
          end
      end
  end.

(** The tree below [v]: a chain of objects nested in one another without a
    cycle is not longer than the store. *)
Definition tree (h : store) (v : ref_value) : value :=
  tree_fuel (length h) h v.

(** What an f-string interpolates for [{x}]: the text of [x] at that
    moment, which stands for the tree below [x]. *)
Definition shown (x : ref_value) : M store value :=
  reads (λ h, Ok (tree h x)).

(** [a or b], [a and b] *)
Definition py_or (a b : M store bool) : M store bool :=
  do x <- a;
  if x then ret true else b.

Definition py_and (a b : M store bool) : M store bool :=
  do x <- a;
  if x then b else ret false.

(** [any(op in x for op in ops)], [all(k in x for k in keys)] *)
Fixpoint py_any_contains (ops : list string) (x : ref_value) : M store bool :=
  match ops with
  | [] => ret false
  | op :: rest => py_or (py_contains op x) (py_any_contains rest x)
  end.

Fixpoint py_all_contains (keys : list string) (x : ref_value) : M store bool :=
  match keys with
  | [] => ret true
  | k :: rest => py_and (py_contains k x) (py_all_contains rest x)
  end.

Fixpoint for_from (i : nat) (items : list ref_value) (body : nat → ref_value → M store unit) : M store unit :=
  match items with
  | [] => skip
  | x :: rest => body i x ;; for_from (S i) rest body
  end.

Definition for_enumerate (xs : ref_value) (body : nat → ref_value → M store unit) : M store unit :=
  do items <- py_iter xs;
  for_from 0 items body.

(** *** Objects the validator creates and changes *)

(** A new object: [[]], [{}], [set()]. *)
Definition alloc (o : object) : M store nat :=
  λ h, (Ok (length h), h ++ [o]).

(** [issues.append(x)], on the list at the address [issues]. *)
Definition append (issues : nat) (x : issue) : M store unit :=
  λ h, match h !! issues with
       | Some (OIssues l) => (Ok (), <[issues := OIssues (l ++ [x])]> h)
       | _ => (Raise AttributeError, h)
       end.

(** [issues.extend(call)]: the call returns the address of its own list,
    whose items are added to the list at [issues]. *)
Definition extend (issues : nat) (call : M store nat) : M store unit :=
  do returned <- call;
  λ h, match h !! returned, h !! issues with
       | Some (OIssues more), Some (OIssues l) =>
           (Ok (), <[issues := OIssues (l ++ more)]> h)
       | Some (OIssues _), _ => (Raise AttributeError, h)
       | _, _ => (Raise TypeError, h)
       end.

(** [x in bom_refs], on the set at the address [bom_refs]. *)
Definition bom_refs_contains (bom_refs : nat) (x : ref_value) : M store bool :=
  do k <~ py_hash x;
  reads (λ h,
    match h !! bom_refs with
    | Some (OSet elements) => Ok (bool_decide (k ∈ elements))
    | _ => Raise TypeError
    end).

(** [bom_refs.add(x)] *)
Definition bom_refs_add (bom_refs : nat) (x : ref_value) : M store unit :=
  do k <~ py_hash x;
  λ h, match h !! bom_refs with
       | Some (OSet elements) => (Ok (), <[bom_refs := OSet ({[k]} ∪ elements)]> h)
       | _ => (Raise AttributeError, h)
       end.

Section Validators.
Context {lib : PythonLib}.

Definition is_valid_url (url : ref_value) : bool :=
  match url with
  | RStr s => urlparse_ok s
  | _ => false
  end.

Definition fromisoformat_raises (x : ref_value) : result bool :=
  result_bind (py_replace_Z x) (λ s, Ok (negb (fromisoformat_ok s))).

Definition validate_organizational_contact (contact : ref_value) (path : string) : M store nat :=
  do issues <- alloc (OIssues []);
  (do has_email <- py_contains "email" contact;
   when has_email (
     do email <- py_getitem contact "email";
     do matched <~ re_match email_pattern email;
     when (negb matched) (append issues (InvalidEmail path)))) ;;
  ret issues.

Definition validate_organizational_entity (entity : ref_value) (path : string) : M store nat :=
  do issues <- alloc (OIssues []);
  (do no_name <- py_not_contains "name" entity;
   when no_name (append issues (MissingName path))) ;;
  (do has_url <- py_contains "url" entity;
   when has_url (
     do urls <- py_getitem entity "url";
     do is_array <- is_list urls;
     if negb is_array then append issues (UrlNotArray path)
     else
       for_enumerate urls (λ i url,
         when (negb (is_valid_url url))
              (append issues (InvalidUrl (indexed (path +:+ ".url") i)))))) ;;
  (do has_contact <- py_contains "contact" entity;
   when has_contact (
     do contacts <- py_getitem entity "contact";
     for_enumerate contacts (λ i contact,
       extend issues (validate_organizational_contact contact
                        (indexed (path +:+ ".contact") i))))) ;;
  ret issues.

Definition validate_properties_array (properties : ref_value) (path : string) : M store nat :=
  do issues <- alloc (OIssues []);
  for_enumerate properties (λ i prop,
    (do no_name <- py_not_contains "name" prop;
     when no_name (append issues (PropertyMissingName (indexed path i)))) ;;
    (do no_value <- py_not_contains "value" prop;
     when no_value (append issues (PropertyMissingValue (indexed path i))))) ;;
  ret issues.

(** [patterns[alg]]: the dictionary [patterns] is a constant of the
    source. *)
Definition patterns_getitem (alg : ref_value) : result regex :=
  match alg with
  | RStr s =>
      match assoc_lookup s patterns with
      | Some p => Ok p
      | None => Raise KeyError
      end
  | RRef _ => Raise TypeError
  | RNone | RBool _ | RInt _ => Raise KeyError
  end.

Definition validate_hash_object (hash_obj : ref_value) (path : string) : M store nat :=
  do issues <- alloc (OIssues []);
  (do missing <- py_or (py_not_contains "alg" hash_obj)
                       (py_not_contains "content" hash_obj);
   if missing then append issues (HashMissingFields path)
   else
     do alg <- py_getitem hash_obj "alg";
     do content <- py_getitem hash_obj "content";
     if negb (in_strs alg valid_algorithms) then
       do text <- shown alg;
       append issues (InvalidAlgorithm path text)
     else
       do pattern <~ patterns_getitem alg;
       do matched <~ re_match pattern content;
       when (negb matched) (
         do text <- shown alg;
         append issues (InvalidHashContent path text))) ;;
  ret issues.

Definition validate_external_reference (ref : ref_value) (path : string) : M store nat :=
  do issues <- alloc (OIssues []);
  (do missing <- py_or (py_not_contains "url" ref) (py_not_contains "type" ref);
   if missing then append issues (ExternalReferenceMissingFields path)
   else
     (do type <- py_getitem ref "type";
      when (negb (in_strs type valid_reference_types)) (
        do text <- shown type;
        append issues (InvalidType path text))) ;;
     (do url <- py_getitem ref "url";
      when (negb (is_valid_url url)) (append issues (InvalidUrl path))) ;;
     (do has_hashes <- py_contains "hashes" ref;
      when has_hashes (
        do hashes <- py_getitem ref "hashes";
        for_enumerate hashes (λ i hash_obj,
          extend issues (validate_hash_object hash_obj
                           (indexed (path +:+ ".hashes") i)))))) ;;
  ret issues.

Definition validate_license_choice (license_choice : ref_value) (path : string) : M store nat :=
  do issues <- alloc (OIssues []);
  (do has_license <- py_contains "license" license_choice;
   do has_expression <- py_contains "expression" license_choice;
   (if negb has_license && negb has_expression
    then append issues (LicenseNeither path)
    else if has_license && has_expression
    then append issues (LicenseBoth path)
    else skip) ;;
   when has_license (
     do license_obj <- py_getitem license_choice "license";
     do has_id <- py_contains "id" license_obj;
     do has_name <- py_contains "name" license_obj;
     when (negb has_id && negb has_name) (append issues (LicenseNoIdOrName path))) ;;
   when has_expression (
     do expr <- py_getitem license_choice "expression";
     do likely_valid <- py_or (py_any_contains valid_operators expr)
                              (py_not_contains " " expr);
     if likely_valid then skip
     else append issues (ExpressionMaybeInvalid path))) ;;
  ret issues.

Definition validate_pedigree (pedigree : ref_value) (path : string) : M store nat :=
  do issues <- alloc (OIssues []);
  (do has_commits <- py_contains "commits" pedigree;
   when has_commits (
     do commits <- py_getitem pedigree "commits";
     for_enumerate commits (λ i commit,
       (do no_uid <- py_not_contains "uid" commit;
        when no_uid
             (append issues (CommitMissingUid (indexed (path +:+ ".commits") i)))) ;;
       for_each ["author"; "committer"] (λ field,
         do has_field <- py_contains field commit;
         when has_field (
           do action <- py_getitem commit field;
           do has_timestamp <- py_contains "timestamp" action;
           when has_timestamp (
             do timestamp <- py_getitem action "timestamp";
             do invalid <~ fromisoformat_raises timestamp;
             when invalid
                  (append issues
                     (InvalidCommitTimestamp
                        (indexed (path +:+ ".commits") i +:+ "." +:+ field))))))))) ;;
  (do has_patches <- py_contains "patches" pedigree;
   when has_patches (
     do patches <- py_getitem pedigree "patches";
     for_enumerate patches (λ i patch,
       do no_type <- py_not_contains "type" patch;
       if no_type then append issues (MissingType (indexed (path +:+ ".patches") i))
       else
         do type <- py_getitem patch "type";
         when (negb (in_strs type valid_patch_types))
              (append issues (InvalidPatchType (indexed (path +:+ ".patches") i)))))) ;;
  ret issues.

Definition validate_evidence (evidence : ref_value) (path version : string) : M store nat :=
  do issues <- alloc (OIssues []);
  (do has_callstack <- py_contains "callstack" evidence;
   when has_callstack (
     do callstack <- py_getitem evidence "callstack";
     do frames <- py_get_new callstack "frames" (OList []);
     for_enumerate frames (λ i frame,
       when (String.eqb version "1.5") (
         do no_module <- py_not_contains "module" frame;
         when no_module
              (append issues (FrameMissingModule
                                (indexed (path +:+ ".callstack.frames") i))))))) ;;
  ret issues.

Definition validate_service_structure (service : ref_value) (path : string) : M store nat :=
  do issues <- alloc (OIssues []);
  (do no_name <- py_not_contains "name" service;
   when no_name (append issues (MissingName path))) ;;
  (do has_endpoints <- py_contains "endpoints" service;
   when has_endpoints (
     do endpoints <- py_getitem service "endpoints";
     for_enumerate endpoints (λ i endpoint,
       when (negb (is_valid_url endpoint))
            (append issues (InvalidUrl (indexed (path +:+ ".endpoints") i)))))) ;;
  (do has_data <- py_contains "data" service;
   when has_data (
     do data_items <- py_getitem service "data";
     for_enumerate data_items (λ i data_item,
       (do bad_flow <- py_or (py_not_contains "flow" data_item)
                             (do flow <- py_getitem data_item "flow";
                              ret (negb (in_strs flow valid_flows)));
        when bad_flow (append issues (InvalidFlow (indexed (path +:+ ".data") i)))) ;;
       (do no_classification <- py_not_contains "classification" data_item;
        when no_classification
             (append issues (MissingClassification (indexed (path +:+ ".data") i))))))) ;;
  (do has_provider <- py_contains "provider" service;
   when has_provider (
     do provider <- py_getitem service "provider";
     extend issues (validate_organizational_entity provider (path +:+ ".provider")))) ;;
  ret issues.

(** The body of [validate_component_structure]; [self] stands for the
    function itself. *)
Definition validate_component_structure_body (self : ref_value → string → string → M store nat) (component : ref_value) (path version : string) : M store nat :=
  do issues <- alloc (OIssues []);
  (do no_type <- py_not_contains "type" component;
   if no_type then append issues (MissingType path)
   else
     do type <- py_getitem component "type";
     when (negb (in_strs type valid_types)) (
       do text <- shown type;
       append issues (InvalidType path text))) ;;
  (do no_name <- py_not_contains "name" component;
   when no_name (append issues (MissingName path))) ;;
  (do no_version <- py_and (ret (String.eqb version "1.3"))
                           (py_not_contains "version" component);
   when no_version (append issues (MissingVersion13 path))) ;;
  (do has_supplier <- py_contains "supplier" component;
   when has_supplier (
     if String.eqb version "1.3" then
       do supplier <- py_getitem component "supplier";
       when (negb (is_string supplier)) (append issues (SupplierNotString path))
     else if String.leb "1.4" version then
       do supplier <- py_getitem component "supplier";
       do is_object <- is_dict supplier;
       if negb is_object then append issues (SupplierNotObject path version)
       else
         do supplier <- py_getitem component "supplier";
         extend issues (validate_organizational_entity supplier (path +:+ ".supplier"))
     else skip)) ;;
  (do has_scope <- py_contains "scope" component;
   when has_scope (
     do scope <- py_getitem component "scope";
     when (negb (in_strs scope valid_scopes)) (
       do text <- shown scope;
       append issues (InvalidScope path text)))) ;;
  (do has_hashes <- py_contains "hashes" component;
   when has_hashes (
     do hashes <- py_getitem component "hashes";
     for_enumerate hashes (λ i hash_obj,
       extend issues (validate_hash_object hash_obj (indexed (path +:+ ".hashes") i))))) ;;
  (do has_licenses <- py_contains "licenses" component;
   when has_licenses (
     do licenses <- py_getitem component "licenses";
     for_enumerate licenses (λ i license_choice,
       extend issues (validate_license_choice license_choice
                        (indexed (path +:+ ".licenses") i))))) ;;
  (do has_purl <- py_contains "purl" component;
   when has_purl (
     do purl <- py_getitem component "purl";
     do ok <~ py_startswith "pkg:" purl;
     when (negb ok) (append issues (InvalidPurl path)))) ;;
  (do has_cpe <- py_contains "cpe" component;
   when has_cpe (
     do cpe <- py_getitem component "cpe";
     do ok <~ py_startswith "cpe:" cpe;
     when (negb ok) (append issues (InvalidCpe path)))) ;;
  (do has_mime <- py_contains "mime-type" component;
   when has_mime (
     do mime <- py_getitem component "mime-type";
     do matched <~ re_match mime_pattern mime;
     when (negb matched) (append issues (InvalidMimeType path)))) ;;
  (do has_swid <- py_contains "swid" component;
   when has_swid (
     do swid <- py_getitem component "swid";
     do missing <- py_or (py_not_contains "tagId" swid) (py_not_contains "name" swid);
     when missing (append issues (SwidMissingFields path)))) ;;
  (do has_refs <- py_contains "externalReferences" component;
   when has_refs (
     do refs <- py_getitem component "externalReferences";
     for_enumerate refs (λ i ref,
       extend issues (validate_external_reference ref
                        (indexed (path +:+ ".externalReferences") i))))) ;;
  (do has_pedigree <- py_contains "pedigree" component;
   when has_pedigree (
     do pedigree <- py_getitem component "pedigree";
     extend issues (validate_pedigree pedigree (path +:+ ".pedigree")))) ;;
  (do has_evidence <- py_contains "evidence" component;
   when has_evidence (
     if String.ltb version "1.5" then append issues (EvidenceNotAvailable path version)
     else
       do evidence <- py_getitem component "evidence";
       extend issues (validate_evidence evidence (path +:+ ".evidence") version))) ;;
  (do has_properties <- py_contains "properties" component;
   when has_properties (
     do properties <- py_getitem component "properties";
     extend issues (validate_properties_array properties (path +:+ ".properties")))) ;;
  (do has_components <- py_contains "components" component;
   when has_components (
     do components <- py_getitem component "components";
     for_enumerate components (λ i nested,
       extend issues (self nested (indexed (path +:+ ".components") i) version)))) ;;
  ret issues.

Fixpoint validate_component_structure_fuel (fuel : nat) (component : ref_value) (path version : string) : M store nat :=
  match fuel with
  | O => lift (Raise FuelExhausted)
  | S fuel' =>
      validate_component_structure_body (validate_component_structure_fuel fuel')
        component path version
  end.

(** [validate_component_structure(component, path, version)]: the budget
    covers every chain of nested components without a cycle. *)
Definition validate_component_structure (component : ref_value) (path version : string) : M store nat :=
  λ h, validate_component_structure_fuel (S (length h)) component path version h.

(** 1. DOCUMENT LEVEL VALIDATIONS *)
Definition document_level_validations (data : ref_value) (issues : nat) (version : string) : M store unit :=
  for_each ["bomFormat"; "specVersion"; "version"] (λ field,
    do missing <- py_not_contains field data;
    when missing (append issues (MissingRequiredField field))) ;;
  (do bom_format <- py_get data "bomFormat" RNone;
   when (negb (is_str "CycloneDX" bom_format)) (
     do text <- shown bom_format;
     append issues (InvalidBomFormat text))) ;;
  (if String.leb "1.4" version then
     do no_schema <- py_not_contains "$schema" data;
     if no_schema then append issues (MissingSchema version)
     else
       do schema <- py_getitem data "$schema";
       when (negb (is_str (schema_uri version) schema))
            (append issues (IncorrectSchema version))
   else
     do has_schema <- py_contains "$schema" data;
     when has_schema (append issues (SchemaNotAllowed version))) ;;
  (do has_serial <- py_contains "serialNumber" data;
   when has_serial (
     do serial <- py_getitem data "serialNumber";
     do matched <~ re_match uuid_pattern serial;
     when (negb matched) (append issues InvalidSerialNumber))).

(** 2. METADATA VALIDATION *)
Definition metadata_validation (data : ref_value) (issues : nat) (version : string) : M store unit :=
  do metadata <- py_get_new data "metadata" (ODict []);
  (do has_timestamp <- py_contains "timestamp" metadata;
   when has_timestamp (
     do timestamp <- py_getitem metadata "timestamp";
     do invalid <~ fromisoformat_raises timestamp;
     when invalid (append issues InvalidTimestamp))) ;;
  (do has_tools <- py_contains "tools" metadata;
   when has_tools (
     do tools <- py_getitem metadata "tools";
     if String.leb "1.5" version then
       do bad <- py_or (do is_object <- is_dict tools; ret (negb is_object))
                       (py_not_contains "components" tools);
       if bad then append issues (ToolsNotComponents version)
       else
         do tool_components <- py_get_new tools "components" (OList []);
         for_enumerate tool_components (λ i tool,
           extend issues (validate_component_structure tool
                            (indexed "tools.components" i) version))
     else
       do is_array <- is_list tools;
       if negb is_array then append issues (ToolsNotArray version)
       else
         for_enumerate tools (λ i tool,
           do complete <- py_all_contains ["vendor"; "name"; "version"] tool;
           when (negb complete) (append issues (ToolMissingFields i))))) ;;
  (do has_authors <- py_contains "authors" metadata;
   when has_authors (
     do authors <- py_getitem metadata "authors";
     for_enumerate authors (λ i author,
       extend issues (validate_organizational_contact author
                        (indexed "metadata.authors" i))))) ;;
  for_each ["manufacture"; "supplier"] (λ entity_type,
    do has_entity <- py_contains entity_type metadata;
    when has_entity (
      do entity <- py_getitem metadata entity_type;
      extend issues (validate_organizational_entity entity ("metadata." +:+ entity_type)))) ;;
  (do has_component <- py_contains "component" metadata;
   when has_component (
     do component <- py_getitem metadata "component";
     extend issues (validate_component_structure component "metadata.component" version))) ;;
  (do has_licenses <- py_contains "licenses" metadata;
   when has_licenses (
     do licenses <- py_getitem metadata "licenses";
     for_enumerate licenses (λ i license_choice,
       extend issues (validate_license_choice license_choice
                        (indexed "metadata.licenses" i))))) ;;
  (do has_properties <- py_contains "properties" metadata;
   when has_properties (
     do properties <- py_getitem metadata "properties";
     extend issues (validate_properties_array properties "metadata.properties"))) ;;
  (do has_lifecycles <- py_contains "lifecycles" metadata;
   when has_lifecycles (
     if String.ltb version "1.5" then append issues (LifecyclesNotAvailable version)
     else
       do lifecycles <- py_getitem metadata "lifecycles";
       for_enumerate lifecycles (λ i lifecycle,
         do no_phase <- py_not_contains "phase" lifecycle;
         if no_phase then append issues (LifecycleMissingPhase i)
         else
           do phase <- py_getitem lifecycle "phase";
           when (negb (in_strs phase valid_phases)) (
             do text <- shown phase;
             append issues (InvalidLifecyclePhase text))))).

(** 3. COMPONENTS VALIDATION *)
Definition components_validation (data : ref_value) (issues bom_refs : nat) (version : string) : M store unit :=
  do has_components <- py_contains "components" data;
  when has_components (
    do components <- py_getitem data "components";
    for_enumerate components (λ i component,
      extend issues (validate_component_structure component
                       (indexed "components" i) version) ;;
      do has_ref <- py_contains "bom-ref" component;
      when has_ref (
        do ref <- py_getitem component "bom-ref";
        do seen <- bom_refs_contains bom_refs ref;
        if seen then
          do text <- shown ref;
          append issues (DuplicateBomRef text)
        else bom_refs_add bom_refs ref))).

Definition metadata_component_bom_ref (data : ref_value) (bom_refs : nat) : M store unit :=
  do has_component <- py_and (py_contains "metadata" data)
                             (do metadata <- py_getitem data "metadata";
                              py_contains "component" metadata);
  when has_component (
    do metadata <- py_getitem data "metadata";
    do component <- py_getitem metadata "component";
    do has_ref <- py_contains "bom-ref" component;
    when has_ref (
      do ref <- py_getitem component "bom-ref";
      bom_refs_add bom_refs ref)).

(** 4. SERVICES VALIDATION *)
Definition services_validation (data : ref_value) (issues bom_refs : nat) : M store unit :=
  do has_services <- py_contains "services" data;
  when has_services (
    do services <- py_getitem data "services";
    for_enumerate services (λ i service,
      extend issues (validate_service_structure service (indexed "services" i)) ;;
      do has_ref <- py_contains "bom-ref" service;
      when has_ref (
        do ref <- py_getitem service "bom-ref";
        do seen <- bom_refs_contains bom_refs ref;
        if seen then
          do text <- shown ref;
          append issues (DuplicateServiceBomRef text)
        else bom_refs_add bom_refs ref))).

(** 5. DEPENDENCIES VALIDATION *)
Definition dependencies_validation (data : ref_value) (issues bom_refs : nat) : M store unit :=
  do has_dependencies <- py_contains "dependencies" data;
  when has_dependencies (
    do dependencies <- py_getitem data "dependencies";
    for_enumerate dependencies (λ i dep,
      (do no_ref <- py_not_contains "ref" dep;
       if no_ref then append issues (DependencyMissingRef i)
       else
         do ref <- py_getitem dep "ref";
         do found <- bom_refs_contains bom_refs ref;
         when (negb found) (
           do text <- shown ref;
           append issues (DependencyRefNotFound i text))) ;;
      (do has_depends_on <- py_contains "dependsOn" dep;
       when has_depends_on (
         do depends_on <- py_getitem dep "dependsOn";
         for_enumerate depends_on (λ j dep_ref,
           do found <- bom_refs_contains bom_refs dep_ref;
           when (negb found) (
             do text <- shown dep_ref;
             append issues (DependsOnNotFound i j text))))))).

(** 6. COMPOSITIONS VALIDATION *)
Definition compositions_validation (data : ref_value) (issues : nat) : M store unit :=
  do has_compositions <- py_contains "compositions" data;
  when has_compositions (
    do compositions <- py_getitem data "compositions";
    for_enumerate compositions (λ i comp,
      do no_aggregate <- py_not_contains "aggregate" comp;
      if no_aggregate then append issues (CompositionMissingAggregate i)
      else
        do aggregate <- py_getitem comp "aggregate";
        when (negb (in_strs aggregate valid_aggregates)) (
          do text <- shown aggregate;
          append issues (InvalidAggregate text)))).

(** 7. VULNERABILITIES VALIDATION (1.4+) *)
Definition vulnerabilities_validation (data : ref_value) (issues : nat) (version : string) : M store unit :=
  do has_vulnerabilities <- py_contains "vulnerabilities" data;
  when has_vulnerabilities (
    when (String.ltb version "1.4") (append issues (VulnerabilitiesNotAvailable version))).

(** 8. EXTERNAL REFERENCES VALIDATION *)
Definition external_references_validation (data : ref_value) (issues : nat) : M store unit :=
  do has_refs <- py_contains "externalReferences" data;
  when has_refs (
    do refs <- py_getitem data "externalReferences";
    for_enumerate refs (λ i ref,
      extend issues (validate_external_reference ref (indexed "externalReferences" i)))).

(** [validate_complete_cyclonedx_schema(data, version)]: it creates its
    list [issues] and its set [bom_refs] and returns the address of
    [issues]. *)
Definition validate_complete_cyclonedx_schema (data : ref_value) (version : string) : M store nat :=
  do issues <- alloc (OIssues []);
  document_level_validations data issues version ;;
  metadata_validation data issues version ;;
  (do bom_refs <- alloc (OSet ∅);
   components_validation data issues bom_refs version ;;
   metadata_component_bom_ref data bom_refs ;;
   services_validation data issues bom_refs ;;
   dependencies_validation data issues bom_refs) ;;
  compositions_validation data issues ;;
  vulnerabilities_validation data issues version ;;
  external_references_validation data issues ;;
  ret issues.

End Validators.

(** *** Documents in the store *)

(** [f] on every item of a list, in order. *)
Definition for_all {A B} (f : A → M store B) : list A → M store (list B) :=
  fix go (l : list A) : M store (list B) :=
    match l with
    | [] => ret []
    | x :: rest =>
        do r <- f x;
        do rs <- go rest;
        ret (r :: rs)
    end.

(** [json.load] builds the objects of a document from the leaves up: the
    items of a list or of a dictionary first, then the object itself. *)
Fixpoint load (v : value) : M store ref_value :=
  match v with
  | VNone => ret RNone
  | VBool b => ret (RBool b)
  | VInt n => ret (RInt n)
  | VStr s => ret (RStr s)
  | VList items =>
      do loaded <- for_all load items;
      do a <- alloc (OList loaded);
      ret (RRef a)
  | VDict entries =>
      do loaded <- for_all (λ e, do r <- load e.2; ret (e.1, r)) entries;
      do a <- alloc (ODict loaded);
      ret (RRef a)
  end.

(** The diagnostics a call returned: the list at the address it returned. *)
Definition returned_issues (outcome : result nat * store) : result (list issue) :=
  match outcome with
  | (Ok a, h) =>
      match h !! a with
      | Some (OIssues l) => Ok l
      | _ => Raise TypeError
      end
  | (Raise e, _) => Raise e
  end.

(** Every object of [h0] is in [h], at the same address and with the same
    content. *)
Definition kept (h0 h : store) : Prop :=
  ∀ a o, h0 !! a = Some o → h !! a = Some o.

(** A document loaded into an empty store: the store and the value that
    [json.load] returns. *)
Definition loaded (document : value) : store := (load document []).2.

Definition loaded_root (document : value) : ref_value :=
  match (load document []).1 with
  | Ok r => r
  | Raise _ => RNone
  end.

(** The validator run on a document loaded into an empty store. *)
Definition validate_loaded {lib : PythonLib} (document : value) (version : string) : result (list issue) :=
  returned_issues
    (validate_complete_cyclonedx_schema (loaded_root document) version (loaded document)).

End Store.

(** ** Vocabulary of the design document *)

(** The table of expected hex-digit lengths, as the design document lists
    it. *)
Definition hash_lengths : list (string * nat) :=
  [("MD5", 32); ("SHA-1", 40); ("SHA-256", 64); ("SHA-384", 96);
   ("SHA-512", 128); ("SHA3-256", 64); ("SHA3-384", 96); ("SHA3-512", 128);
   ("BLAKE2b-256", 64); ("BLAKE2b-384", 96); ("BLAKE2b-512", 128);
   ("BLAKE3", 64)]%nat.

(** The number of hexadecimal digits in a string; for a string of
    hexadecimal digits, its length. *)
Definition hex_digit_length (s : string) : nat :=
  length (filter (λ c, is_hex c = true) (str_chars s)).

(** The versions [run_complete_validation] validates. *)
Definition supported_versions : list string := ["1.3"; "1.4"; "1.5"; "1.6"].

(** [entity["bom-ref"]], when the entity is a dictionary with that key. *)
Definition bom_ref_of (entity : value) : option value :=
  match py_getitem entity "bom-ref" with
  | Ok r => Some r
  | Raise _ => None
  end.

(** The set element a hashable value stands for. *)
Definition key_of (r : value) : option hkey :=
  match py_hash r with
  | Ok k => Some k
  | Raise _ => None
  end.

(** The identifiers a list of entities declares. *)
Definition ref_keys (entities : list value) : gset hkey :=
  list_to_set (omap (λ e, bom_ref_of e ≫= key_of) entities).

(** The items of [container[k]]: the top-level components, the services,
    the dependencies of a document, the [dependsOn] entries of a
    dependency. *)
Definition items_of (container : value) (k : string) : list value :=
  match py_getitem container k with
  | Ok xs => match py_iter xs with Ok items => items | Raise _ => [] end
  | Raise _ => []
  end.

(** [document["metadata"]["component"]], the primary component. *)
Definition metadata_component (document : value) : list value :=
  match py_getitem document "metadata" with
  | Ok metadata =>
      match py_getitem metadata "component" with
      | Ok c => [c]
      | Raise _ => []
      end
  | Raise _ => []
  end.

(** The identifiers declared by the top-level components, the primary
    component and the services of a document. *)
Definition declared_refs (document : value) : gset hkey :=
  ref_keys (items_of document "components") ∪
  ref_keys (metadata_component document) ∪
  ref_keys (items_of document "services").

(** The top-level component that carries [r] repeats the identifier of an
    earlier top-level component. *)
Definition repeated_component (document : value) (r : value) : Prop :=
  ∃ i j ci cj k, (i < j)%nat ∧
    items_of document "components" !! i = Some ci ∧
    items_of document "components" !! j = Some cj ∧
    bom_ref_of ci ≫= key_of = Some k ∧
    bom_ref_of cj = Some r ∧ key_of r = Some k.

(** The service that carries [r] repeats the identifier of a top-level
    component, of the primary component or of an earlier service. *)
Definition repeated_service (document : value) (r : value) : Prop :=
  ∃ j sj k,
    items_of document "services" !! j = Some sj ∧
    bom_ref_of sj = Some r ∧ key_of r = Some k ∧
    k ∈ ref_keys (items_of document "components") ∪
        ref_keys (metadata_component document) ∪
        ref_keys (take j (items_of document "services")).

(** ** Judgements on statements *)

(** The exceptions an expression can raise are among [E]. *)
Definition raises_only {A} (E : exn → Prop) (r : result A) : Prop :=
  ∀ e, r = Raise e → E e.

(** From a state in [I], the statement ends in a state in [I], whether it
    completes or raises, and raises only exceptions in [E]. *)
Definition runs {St A} (I : St → Prop) (E : exn → Prop) (m : M St A) : Prop :=
  ∀ s, I s → I (m s).2 ∧ raises_only E (m s).1.

Definition any_exn : exn → Prop := λ _, True.

Definition not_exhausted : exn → Prop := λ e, e ≠ FuelExhausted.

(** Every diagnostic a call returns satisfies [P]. *)
Definition emits (P : issue → Prop) (call : result (list issue)) : Prop :=
  ∀ l, call = Ok l → Forall P l.

(** Two statements with the same effect. *)
Definition same_effect {St A} (m1 m2 : M St A) : Prop := ∀ s, m1 s = m2 s.

(** ** Vocabulary of the proofs *)

(** The diagnostics of the helper validators, as opposed to those only the
    top-level validator produces. *)
Definition helper_issue (x : issue) : bool :=
  match x with
  | MissingType _ | InvalidType _ _ | MissingName _ | MissingVersion13 _
  | SupplierNotString _ | SupplierNotObject _ _ | InvalidScope _ _
  | InvalidPurl _ | InvalidCpe _ | InvalidMimeType _ | SwidMissingFields _
  | EvidenceNotAvailable _ _ | InvalidUrl _ | InvalidFlow _
  | MissingClassification _ | HashMissingFields _ | InvalidAlgorithm _ _
  | InvalidHashContent _ _ | ExternalReferenceMissingFields _
  | LicenseNeither _ | LicenseBoth _ | LicenseNoIdOrName _
  | ExpressionMaybeInvalid _ | UrlNotArray _ | InvalidEmail _
  | PropertyMissingName _ | PropertyMissingValue _ | CommitMissingUid _
  | InvalidCommitTimestamp _ | InvalidPatchType _ | FrameMissingModule _ => true
  | _ => false
  end.

(** The body of the two loops that collect identifiers: the top-level
    components with [DuplicateBomRef] and [validate_component_structure], the
    services with [DuplicateServiceBomRef] and [validate_service_structure]. *)
Definition collecting_body (validate : nat → value → result (list issue)) (duplicate : value → issue) (i : nat) (entity : value) : M top unit :=
  extend (validate i entity) ;;
  do has_ref <~ py_contains "bom-ref" entity;
  when has_ref (
    do ref <~ py_getitem entity "bom-ref";
    do seen <- bom_refs_contains ref;
    if seen then append (duplicate ref)
    else bom_refs_add ref).

(** A property of the top-level frame that new diagnostics do not break ... *)
Definition grows (I : top → Prop) : Prop :=
  ∀ f l, I f → I (Frame (issues f ++ l) (locals f)).

(** ... and that new elements of [bom_refs] do not break either. *)
Definition stable (I : top → Prop) : Prop :=
  grows I ∧
  ∀ f k, I f →
    I (Frame (issues f) (TopLocals (data (locals f)) ({[k]} ∪ bom_refs (locals f)))).

(** The diagnostics whose conditions the properties below pin down. *)
Definition specified (x : issue) : bool :=
  match x with
  | MissingSchema _ | IncorrectSchema _ | SchemaNotAllowed _
  | InvalidTimestamp | DuplicateBomRef _ | DuplicateServiceBomRef _
  | DependencyRefNotFound _ _ | DependsOnNotFound _ _ _ => true
  | _ => false
  end.

(** A dependency diagnostic is justified when the reference is not in the
    set [B]. *)
Definition undeclared_in (B : gset hkey) (x : issue) : Prop :=
  match x with
  | DependencyRefNotFound _ r | DependsOnNotFound _ _ r =>
      ∀ k, py_hash r = Ok k → k ∉ B
  | _ => True
  end.

(** A duplicate-identifier diagnostic is justified when the entity that
    carries the identifier repeats it. *)
Definition duplicate_justified (document : value) (x : issue) : Prop :=
  match x with
  | DuplicateBomRef r => repeated_component document r
  | DuplicateServiceBomRef r => repeated_service document r
  | _ => True
  end.

(** A diagnostic about [$schema] is justified by the comparison of the
    version with 1.4 and by what the document holds under [$schema]. *)
Definition schema_rule (document : value) (version : string) (x : issue) : Prop :=
  match x with
  | MissingSchema v =>
      v = version ∧ String.leb "1.4" version = true ∧
      py_contains "$schema" document = Ok false
  | IncorrectSchema v =>
      v = version ∧ String.leb "1.4" version = true ∧
      ∃ schema, py_getitem document "$schema" = Ok schema ∧
                is_str (schema_uri version) schema = false
  | SchemaNotAllowed v =>
      v = version ∧ String.leb "1.4" version = false ∧
      py_contains "$schema" document = Ok true
  | _ => True
  end.

(** A timestamp diagnostic is justified when [ok] is false. *)
Definition timestamp_rejected (ok : bool) (x : issue) : Prop :=
  match x with
  | InvalidTimestamp => ok = false
  | _ => True
  end.

(** The frame of the top-level validator when it starts. *)
Definition initial (document : value) : top := Frame [] (TopLocals document ∅).

(** ** Documents *)

(** [{bomFormat:"CycloneDX", specVersion:"1.3", version:1,
      metadata:{component:{type:"application",name:"app"}},
      components:[{type:"library","bom-ref":"lib1","name":"L"}]}] *)
Definition scenario_1_3 : value :=
  VDict [("bomFormat", VStr "CycloneDX");
         ("specVersion", VStr "1.3");
         ("version", VInt 1);
         ("metadata", VDict [("component",
            VDict [("type", VStr "application"); ("name", VStr "app")])]);
         ("components", VList [
            VDict [("type", VStr "library"); ("bom-ref", VStr "lib1");
                   ("name", VStr "L")]])].

(** A 1.6 document whose only top-level component holds two nested
    components with the same [bom-ref]. *)
Definition nested_a : value :=
  VDict [("type", VStr "library"); ("bom-ref", VStr "dup"); ("name", VStr "A")].
Definition nested_b : value :=
  VDict [("type", VStr "library"); ("bom-ref", VStr "dup"); ("name", VStr "B")].
Definition parent_of_duplicates : value :=
  VDict [("type", VStr "library"); ("bom-ref", VStr "parent"); ("name", VStr "P");
         ("components", VList [nested_a; nested_b])].
Definition nested_duplicates : value :=
  VDict [("bomFormat", VStr "CycloneDX");
         ("specVersion", VStr "1.6");
         ("version", VInt 1);
         ("$schema", VStr "http://cyclonedx.org/schema/bom-1.6.schema.json");
         ("components", VList [parent_of_duplicates])].

(** A 1.6 document whose dependency names the [bom-ref] of a nested
    component. *)
Definition nested_child : value :=
  VDict [("type", VStr "library"); ("bom-ref", VStr "child"); ("name", VStr "C")].
Definition parent_of_child : value :=
  VDict [("type", VStr "library"); ("bom-ref", VStr "parent"); ("name", VStr "P");
         ("components", VList [nested_child])].
Definition nested_reference : value :=
  VDict [("bomFormat", VStr "CycloneDX");
         ("specVersion", VStr "1.6");
         ("version", VInt 1);
         ("$schema", VStr "http://cyclonedx.org/schema/bom-1.6.schema.json");
         ("components", VList [parent_of_child]);
         ("dependencies", VList [
            VDict [("ref", VStr "parent");
                   ("dependsOn", VList [VStr "child"])]])].

(** A document that declares the version 1.7. *)
Definition unsupported_version : value :=
  VDict [("bomFormat", VStr "CycloneDX");
         ("specVersion", VStr "1.7");
         ("version", VInt 1);
         ("$schema", VStr "http://cyclonedx.org/schema/bom-1.7.schema.json")].

(** The smallest document that declares a version: the three required
    fields, and the schema address of that version when the version is at
    least 1.4 in string order. *)
Definition minimal_document (version : string) : value :=
  VDict ([("bomFormat", VStr "CycloneDX");
          ("specVersion", VStr version);
          ("version", VInt 1)] ++
         if String.leb "1.4" version
         then [("$schema", VStr (schema_uri version))]
         else []).

(** A 1.3 document with the given metadata timestamp. *)
Definition with_timestamp (timestamp : value) : value :=
  VDict [("bomFormat", VStr "CycloneDX");
         ("specVersion", VStr "1.3");
         ("version", VInt 1);
         ("metadata", VDict [("timestamp", timestamp)])].

(** A 1.6 document with two top-level components of the same [bom-ref]. *)
Definition top_level_duplicates : value :=
  VDict [("bomFormat", VStr "CycloneDX");
         ("specVersion", VStr "1.6");
         ("version", VInt 1);
         ("$schema", VStr "http://cyclonedx.org/schema/bom-1.6.schema.json");
         ("components", VList [nested_a; nested_b])].

(** A 1.6 document whose dependency comes before the service it names, and
    names an identifier that nothing declares. *)
Definition forward_dependency : value :=
  VDict [("ref", VStr "app"); ("dependsOn", VList [VStr "api"; VStr "missing"])].
Definition forward_reference : value :=
  VDict [("bomFormat", VStr "CycloneDX");
         ("specVersion", VStr "1.6");
         ("version", VInt 1);
         ("$schema", VStr "http://cyclonedx.org/schema/bom-1.6.schema.json");
         ("dependencies", VList [forward_dependency]);
         ("components", VList [
            VDict [("type", VStr "application"); ("bom-ref", VStr "app");
                   ("name", VStr "A")]]);
         ("services", VList [
            VDict [("bom-ref", VStr "api"); ("name", VStr "S")]])].

(** A 1.3 document whose only component has the given [purl]. *)
Definition with_purl (purl : value) : value :=
  VDict [("bomFormat", VStr "CycloneDX");
         ("specVersion", VStr "1.3");
         ("version", VInt 1);
         ("components", VList [
            VDict [("type", VStr "library"); ("name", VStr "L");
                   ("version", VStr "1.0.0"); ("purl", purl)]])].

(** A 1.3 document whose tool list holds the given entry. *)
Definition with_tool (tool : value) : value :=
  VDict [("bomFormat", VStr "CycloneDX");
         ("specVersion", VStr "1.3");
         ("version", VInt 1);
         ("metadata", VDict [("tools", VList [tool])])].

(** A 1.6 document that exercises every validator and gives no cause for a
    diagnostic. *)
Definition sha256_of_sample : string :=
  "9f86d081884c7d659a2feaa0c55ad015a3bf4f1b2b0b822cd15d6c15b0f00a08".

Definition sample_1_6 : value :=
  VDict [
    ("bomFormat", VStr "CycloneDX");
    ("specVersion", VStr "1.6");
    ("version", VInt 1);
    ("$schema", VStr "http://cyclonedx.org/schema/bom-1.6.schema.json");
    ("serialNumber", VStr "urn:uuid:3E671687-395b-41f5-a30f-a58921a69b79");
    ("metadata", VDict [
       ("timestamp", VStr "2024-01-20T10:00:00Z");
       ("component", VDict [
          ("type", VStr "application"); ("bom-ref", VStr "main-application");
          ("name", VStr "test-application"); ("scope", VStr "required")]);
       ("authors", VList [
          VDict [("name", VStr "John Doe"); ("email", VStr "john.doe@example.com")]]);
       ("manufacture", VDict [
          ("name", VStr "Example Manufacturing Corp");
          ("url", VList [VStr "https://manufacturing.example.com"]);
          ("contact", VList [
             VDict [("email", VStr "contact@manufacturing.example.com")]])]);
       ("licenses", VList [
          VDict [("license", VDict [("id", VStr "Apache-2.0")])];
          VDict [("expression", VStr "Apache-2.0 AND MIT")]]);
       ("properties", VList [
          VDict [("name", VStr "build.system"); ("value", VStr "gradle")]]);
       ("tools", VDict [("components", VList [
          VDict [("type", VStr "application"); ("name", VStr "generator");
                 ("supplier", VDict [("name", VStr "Heimdall Project")]);
                 ("hashes", VList [
                    VDict [("alg", VStr "SHA-256");
                           ("content", VStr sha256_of_sample)]])]])]);
       ("lifecycles", VList [VDict [("phase", VStr "build")]])]);
    ("components", VList [
       VDict [
         ("type", VStr "library"); ("bom-ref", VStr "lib-a"); ("name", VStr "a");
         ("purl", VStr "pkg:generic/a@1.0.0");
         ("cpe", VStr "cpe:2.3:a:example:a:1.0.0:*:*:*:*:*:*:*");
         ("mime-type", VStr "application/x-sharedlib");
         ("swid", VDict [("tagId", VStr "swid-a"); ("name", VStr "a")]);
         ("externalReferences", VList [
            VDict [("type", VStr "vcs"); ("url", VStr "https://example.com/a.git")]]);
         ("pedigree", VDict [
            ("commits", VList [
               VDict [("uid", VStr "abc123");
                      ("author", VDict [("timestamp", VStr "2024-01-19T08:00:00+01:00")])]]);
            ("patches", VList [VDict [("type", VStr "backport")]])]);
         ("evidence", VDict [("callstack", VDict [
            ("frames", VList [VDict [("function", VStr "main")]])])]);
         ("components", VList [
            VDict [("type", VStr "file"); ("bom-ref", VStr "lib-a-file");
                   ("name", VStr "a.so")]])]]);
    ("services", VList [
       VDict [("bom-ref", VStr "svc"); ("name", VStr "api");
              ("endpoints", VList [VStr "https://api.example.com/v1"]);
              ("data", VList [
                 VDict [("flow", VStr "inbound"); ("classification", VStr "public")]]);
              ("provider", VDict [("name", VStr "Example")])]]);
    ("dependencies", VList [
       VDict [("ref", VStr "main-application");
              ("dependsOn", VList [VStr "lib-a"; VStr "svc"])]]);
    ("compositions", VList [VDict [("aggregate", VStr "complete")]]);
    ("vulnerabilities", VList []);
    ("externalReferences", VList [
       VDict [("type", VStr "website"); ("url", VStr "https://example.com")]])].

(** A timestamp without a time zone designator, and its time part. *)
Definition naive_timestamp : string := "2024-01-15T10:30:00".
Definition naive_time_part : string := "T10:30:00".

(** ** Vocabulary of the further properties *)

(** The path a diagnostic of a helper validator carries. *)
Definition issue_path (x : issue) : option string :=
  match x with
  | MissingType p | InvalidType p _ | MissingName p | MissingVersion13 p
  | SupplierNotString p | SupplierNotObject p _ | InvalidScope p _
  | InvalidPurl p | InvalidCpe p | InvalidMimeType p | SwidMissingFields p
  | EvidenceNotAvailable p _ | InvalidUrl p | InvalidFlow p
  | MissingClassification p | HashMissingFields p | InvalidAlgorithm p _
  | InvalidHashContent p _ | ExternalReferenceMissingFields p
  | LicenseNeither p | LicenseBoth p | LicenseNoIdOrName p
  | ExpressionMaybeInvalid p | UrlNotArray p | InvalidEmail p
  | PropertyMissingName p | PropertyMissingValue p | CommitMissingUid p
  | InvalidCommitTimestamp p | InvalidPatchType p | FrameMissingModule p => Some p
  | _ => None
  end.

(** The diagnostic carries a path that starts with [path]. *)
Definition located (path : string) (x : issue) : bool :=
  match issue_path x with
  | Some p => String.prefix path p
  | None => false
  end.

(** * Properties *)

(** ** Rules for the judgements *)

Lemma raises_only_any {A} (r : result A) : raises_only any_exn r.
Proof. by intros e _. Qed.

Lemma raises_only_Ok {A} E (a : A) : raises_only E (Ok a).
Proof. by intros e. Qed.

Lemma raises_only_result_bind {A B} E (r : result A) (k : A → result B) :
  raises_only E r → (∀ a, r = Ok a → raises_only E (k a)) →
  raises_only E (result_bind r k).
Proof.
  intros Hr Hk e He. destruct r as [a|e']; cbn in He.
  - by eapply Hk.
  - injection He as ->. by apply Hr.
Qed.

Lemma raises_only_py_or E (a b : result bool) :
  raises_only E a → raises_only E b → raises_only E (py_or a b).
Proof.
  intros Ha Hb. apply raises_only_result_bind; [done|].
  intros [] _; [apply raises_only_Ok | done].
Qed.

Lemma raises_only_py_and E (a b : result bool) :
  raises_only E a → raises_only E b → raises_only E (py_and a b).
Proof.
  intros Ha Hb. apply raises_only_result_bind; [done|].
  intros [] _; [done | apply raises_only_Ok].
Qed.

(** The expressions of the model raise Python exceptions only. *)
Ltac primitive_raises :=
  intros e; unfold not_exhausted;
  repeat (case_match; simplify_eq; cbn in * ); try discriminate;
  intros [= <-]; discriminate.

Lemma py_contains_raises k x : raises_only not_exhausted (py_contains k x).
Proof. unfold py_contains. primitive_raises. Qed.

Lemma py_not_contains_raises k x : raises_only not_exhausted (py_not_contains k x).
Proof.
  apply raises_only_result_bind; [apply py_contains_raises|].
  intros; apply raises_only_Ok.
Qed.

Lemma py_getitem_raises x k : raises_only not_exhausted (py_getitem x k).
Proof. unfold py_getitem. primitive_raises. Qed.

Lemma py_get_raises x k d : raises_only not_exhausted (py_get x k d).
Proof. unfold py_get. primitive_raises. Qed.

Lemma py_iter_raises x : raises_only not_exhausted (py_iter x).
Proof. unfold py_iter. primitive_raises. Qed.

Lemma py_hash_raises x : raises_only not_exhausted (py_hash x).
Proof. unfold py_hash. primitive_raises. Qed.

Lemma py_replace_Z_raises x : raises_only not_exhausted (py_replace_Z x).
Proof. unfold py_replace_Z. primitive_raises. Qed.

Lemma py_startswith_raises p x : raises_only not_exhausted (py_startswith p x).
Proof. unfold py_startswith. primitive_raises. Qed.

Lemma re_match_raises p x : raises_only not_exhausted (re_match p x).
Proof. unfold re_match. primitive_raises. Qed.

Lemma py_any_contains_raises ops x : raises_only not_exhausted (py_any_contains ops x).
Proof.
  induction ops as [|op ops IH]; cbn; [apply raises_only_Ok|].
  apply raises_only_py_or; [apply py_contains_raises | done].
Qed.

Lemma py_all_contains_raises keys x : raises_only not_exhausted (py_all_contains keys x).
Proof.
  induction keys as [|k keys IH]; cbn; [apply raises_only_Ok|].
  apply raises_only_py_and; [apply py_contains_raises | done].
Qed.

Create HintDb raises.
#[local] Hint Resolve raises_only_any raises_only_Ok raises_only_py_or raises_only_py_and
  py_contains_raises py_not_contains_raises py_getitem_raises py_get_raises
  py_iter_raises py_hash_raises py_replace_Z_raises py_startswith_raises
  re_match_raises py_any_contains_raises py_all_contains_raises : raises.
#[local] Hint Extern 2 (raises_only _ (result_bind _ _)) =>
  apply raises_only_result_bind; [|intros ? ?] : raises.

Section RunsRules.
Context {St : Type} (I : St → Prop) (E : exn → Prop).

Lemma runs_ret {A} (a : A) : runs I E (ret a).
Proof. intros s Hs. split; [done | by intros e]. Qed.

Lemma runs_skip : runs I E skip.
Proof. apply runs_ret. Qed.

Lemma runs_gets {A} (f : St → A) : runs I E (gets f).
Proof. intros s Hs. split; [done | by intros e]. Qed.

Lemma runs_lift {A} (r : result A) : raises_only E r → runs I E (lift r).
Proof. intros Hr s Hs. by split. Qed.

Lemma runs_modify (f : St → St) : (∀ s, I s → I (f s)) → runs I E (modify f).
Proof. intros Hf s Hs. split; [by apply Hf | by intros e]. Qed.

Lemma runs_bind {A B} (m : M St A) (k : A → M St B) :
  runs I E m → (∀ a, runs I E (k a)) → runs I E (bind m k).
Proof.
  intros Hm Hk s Hs. unfold bind. destruct (Hm s Hs) as [Hs1 He].
  destruct (m s) as [[a|e] s1]; cbn in *; [by apply Hk | split; [done|]].
  intros e' [= <-]. by apply He.
Qed.

Lemma runs_bind_lift {A B} (r : result A) (k : A → M St B) :
  raises_only E r → (∀ a, r = Ok a → runs I E (k a)) → runs I E (bind (lift r) k).
Proof.
  intros Hr Hk s Hs. unfold bind, lift.
  destruct r as [a|e]; [by apply Hk | split; [done|]].
  intros e' [= <-]. by apply Hr.
Qed.

Lemma runs_bind_gets {A B} (f : St → A) (k : A → M St B) :
  (∀ s, I s → runs I E (k (f s))) → runs I E (bind (gets f) k).
Proof. intros Hk s Hs. unfold bind, gets. by apply Hk. Qed.

Lemma runs_when (b : bool) (m : M St unit) :
  (b = true → runs I E m) → runs I E (when b m).
Proof. destruct b; [auto | intros _; apply runs_skip]. Qed.

Lemma runs_for_from (body : nat → value → M St unit) items i :
  (∀ j x, items !! j = Some x → runs I E (body (i + j)%nat x)) →
  runs I E (for_from i items body).
Proof.
  revert i. induction items as [|x items IH]; intros i Hbody; [apply runs_skip|].
  cbn [for_from]. apply runs_bind.
  - specialize (Hbody 0%nat x eq_refl). by rewrite Nat.add_0_r in Hbody.
  - intros _. apply IH. intros j y Hj.
    replace (S i + j)%nat with (i + S j)%nat by lia. by apply Hbody.
Qed.

Lemma runs_for_enumerate (body : nat → value → M St unit) xs :
  raises_only E (py_iter xs) →
  (∀ items j x, py_iter xs = Ok items → items !! j = Some x → runs I E (body j x)) →
  runs I E (for_enumerate xs body).
Proof.
  intros Hxs Hbody. unfold for_enumerate. apply runs_bind_lift; [done|].
  intros items Hitems. apply runs_for_from. intros j x Hj. by eapply Hbody.
Qed.

Lemma runs_for_each {A} (body : A → M St unit) items :
  (∀ x, In x items → runs I E (body x)) → runs I E (for_each items body).
Proof.
  induction items as [|x items IH]; intros Hbody; [apply runs_skip|].
  cbn [for_each]. apply runs_bind; [apply Hbody; by left|].
  intros _. apply IH. intros y Hy. apply Hbody. by right.
Qed.

End RunsRules.

Lemma runs_append {L} (I : frame L → Prop) E x :
  (∀ f, I f → I (Frame (issues f ++ [x]) (locals f))) → runs I E (append x).
Proof. intros Hx. by apply runs_modify. Qed.

Lemma runs_extend {L} (I : frame L → Prop) E call :
  raises_only E call →
  (∀ l f, call = Ok l → I f → I (Frame (issues f ++ l) (locals f))) →
  runs I E (extend call).
Proof.
  intros He Hl. unfold extend. apply runs_bind_lift; [done|].
  intros l Hcall. apply runs_modify. intros f Hf. by apply Hl.
Qed.

(** One step through a statement; the side conditions on expressions are
    left to the hints. *)
Ltac runs_step :=
  lazymatch goal with
  | |- runs _ _ (bind (lift _) _) =>
      apply runs_bind_lift; [solve [eauto 6 with raises] | intros ? ?]
  | |- runs _ _ (bind (gets _) _) => apply runs_bind_gets; intros ? ?
  | |- runs _ _ (bind _ _) => apply runs_bind; [|intros ?]
  | |- runs _ _ (when _ _) => apply runs_when; intros ?
  | |- runs _ _ (for_enumerate _ _) =>
      apply runs_for_enumerate; [solve [eauto with raises] | intros ? ? ? ? ?]
  | |- runs _ _ (for_each _ _) => apply runs_for_each; intros ? ?
  | |- runs _ _ skip => apply runs_skip
  | |- runs _ _ (ret _) => apply runs_ret
  | |- runs _ _ (gets _) => apply runs_gets
  | |- runs _ _ (if ?b then _ else _) => destruct b eqn:?
  | |- runs _ _ (append _) => apply runs_append
  | |- runs _ _ (extend _) => apply runs_extend
  end.

Lemma returning_issues_Ok body l :
  returning_issues body = Ok l →
  ∃ f, body (Frame [] ()) = (Ok (), f) ∧ issues f = l.
Proof.
  unfold returning_issues. destruct (body (Frame [] ())) as [[[]|e] f]; [|done].
  intros [= <-]. by exists f.
Qed.

Lemma returning_issues_runs P E body :
  runs (λ f, Forall P (issues f)) E body →
  emits P (returning_issues body) ∧ raises_only E (returning_issues body).
Proof.
  intros Hbody. destruct (Hbody (Frame [] ()) (Forall_nil_2 _)) as [Hf He].
  unfold emits, raises_only, returning_issues.
  destruct (body (Frame [] ())) as [[[]|e] f]; split; try done.
  - by intros l [= <-].
  - intros e' [= <-]. by apply He.
Qed.

(** ** Hashes and license choices *)

Lemma at_end_no_hex s : at_end s = true → filter (λ c, is_hex c = true) s = [].
Proof.
  destruct s as [|c [|d s]]; simpl; try done.
  intros Hc. apply Ascii.eqb_eq in Hc. subst c. reflexivity.
Qed.

Lemma forallb_filter_all {A} (f : A → bool) l :
  forallb f l = true → filter (λ c, f c = true) l = l.
Proof.
  induction l as [|a l IH]; simpl; [done|].
  intros [Ha Hl]%andb_true_iff. rewrite filter_cons_True by done. by rewrite IH.
Qed.

(** A string that [^[a-fA-F0-9]{n}$] matches has [n] hexadecimal digits. *)
Lemma hex_pattern_length n s :
  re_items (hex_pattern n) s = true → length (filter (λ c, is_hex c = true) s) = n.
Proof.
  unfold hex_pattern. simpl.
  intros [[Hn Hall]%andb_true_iff Hend]%andb_true_iff.
  apply Nat.leb_le in Hn.
  rewrite <- (take_drop n s), filter_app, length_app.
  rewrite (at_end_no_hex _ Hend), (forallb_filter_all _ _ Hall). simpl.
  rewrite length_take. lia.
Qed.

(** For a string of hexadecimal digits, the hex-digit length is the
    length. *)
Lemma hex_digit_length_hex_string c :
  forallb is_hex (str_chars c) = true → hex_digit_length c = length (str_chars c).
Proof. intros Hc. unfold hex_digit_length. by rewrite forallb_filter_all. Qed.

(** The dictionary [patterns] of the code agrees with the table of the
    design document. *)
Lemma patterns_table name n :
  In (name, n) hash_lengths →
  in_strs (VStr name) valid_algorithms = true ∧
  patterns_getitem (VStr name) = Ok (hex_pattern n).
Proof.
  unfold hash_lengths. simpl.
  intros H. repeat (destruct H as [H|H]; [inversion H; subst; split; reflexivity|]). done.
Qed.

Lemma hash_fields_present entries alg content :
  dict_lookup "alg" entries = Some alg →
  dict_lookup "content" entries = Some content →
  py_or (py_not_contains "alg" (VDict entries)) (py_not_contains "content" (VDict entries)) = Ok false.
Proof. intros Ha Hc. unfold py_or, py_not_contains. simpl. by rewrite Ha, Hc. Qed.

(** C5: for a hash object with the fields [alg] and [content]: when [alg] is
    one of the twelve names of the table and [content] is a string whose
    number of hexadecimal digits differs from the table's length for that
    name, validation yields exactly one diagnostic, the invalid-content one
    carrying the path of the hash; when [alg] is not one of the twelve
    names, it yields exactly the invalid-algorithm diagnostic. *)
Theorem wrong_length_hash_one_error entries path alg content :
  dict_lookup "alg" entries = Some alg →
  dict_lookup "content" entries = Some content →
  (∀ name n c, alg = VStr name → content = VStr c → In (name, n) hash_lengths →
     hex_digit_length c ≠ n →
     validate_hash_object (VDict entries) path = Ok [InvalidHashContent path alg]) ∧
  (in_strs alg (map fst hash_lengths) = false →
     validate_hash_object (VDict entries) path = Ok [InvalidAlgorithm path alg]).
Proof.
  intros Ha Hc. split.
  - intros name n c -> -> Hin Hlen.
    destruct (patterns_table _ _ Hin) as [Hvalid Hpat].
    unfold validate_hash_object, returning_issues, bind, lift.
    rewrite (hash_fields_present _ _ _ Ha Hc). cbn [py_getitem].
    rewrite Ha, Hc, Hvalid. cbn [negb]. rewrite Hpat. cbn [re_match].
    destruct (re_items (hex_pattern n) (str_chars c)) eqn:Hm; [|reflexivity].
    apply hex_pattern_length in Hm. done.
  - intros Hout.
    unfold validate_hash_object, returning_issues, bind, lift.
    rewrite (hash_fields_present _ _ _ Ha Hc). cbn [py_getitem].
    rewrite Ha, Hc. change valid_algorithms with (map fst hash_lengths).
    rewrite Hout. reflexivity.
Qed.

(** C10: a hash object without [alg] or without [content] yields exactly
    the combined missing-fields diagnostic, whatever the field that is
    present holds; a hash object whose [alg] is outside the valid set yields
    exactly the invalid-algorithm diagnostic, whatever [content] holds; and
    no hash object yields more than one diagnostic. *)
Theorem hash_object_at_most_one_issue hash_obj path :
  (py_contains "alg" hash_obj = Ok false ∨ py_contains "content" hash_obj = Ok false →
     validate_hash_object hash_obj path = Ok [HashMissingFields path]) ∧
  (∀ alg, py_getitem hash_obj "alg" = Ok alg →
     py_contains "content" hash_obj = Ok true →
     in_strs alg valid_algorithms = false →
     validate_hash_object hash_obj path = Ok [InvalidAlgorithm path alg]) ∧
  (∀ diagnostics, validate_hash_object hash_obj path = Ok diagnostics →
     (length diagnostics ≤ 1)%nat).
Proof.
  unfold validate_hash_object, returning_issues, bind, lift, py_or, py_not_contains,
    result_bind, when, append, modify, skip, ret.
  split; [|split].
  - intros [Hm|Hm]; rewrite Hm; cbn [negb]; [reflexivity|].
    destruct (py_contains "alg" hash_obj) as [[]|] eqn:Ha; cbn [negb]; try reflexivity.
    destruct hash_obj; discriminate.
  - intros alg Halg Hc Hout. rewrite Hc.
    destruct (py_contains "alg" hash_obj) as [[]|] eqn:Ha; cbn [negb].
    + rewrite Halg. destruct (py_getitem hash_obj "content") eqn:Hg.
      * rewrite Hout. reflexivity.
      * destruct hash_obj; try discriminate. cbn in Hc, Hg.
        destruct (dict_lookup "content" entries); discriminate.
    + destruct hash_obj; try discriminate. cbn in Ha, Halg.
      destruct (dict_lookup "alg" entries); discriminate.
    + destruct hash_obj; discriminate.
  - intros diagnostics.
    repeat (case_match; simplify_eq; cbn [negb] in * ); try discriminate.
    all: intros Heq; injection Heq as <-; cbn; lia.
Qed.

(** C6: for a license choice whose [license], when present, is an object and
    whose [expression], when present, is a string, validation returns; with
    both fields it reports that both are set, with neither it reports that
    neither is set, and with exactly one of them it reports neither of the
    two. *)
Theorem license_choice_exactly_one entries path :
  (∀ l, dict_lookup "license" entries = Some l → is_dict l = true) →
  (∀ e, dict_lookup "expression" entries = Some e → is_string e = true) →
  ∃ diagnostics, validate_license_choice (VDict entries) path = Ok diagnostics ∧
    match dict_lookup "license" entries, dict_lookup "expression" entries with
    | Some _, Some _ => In (LicenseBoth path) diagnostics
    | None, None => In (LicenseNeither path) diagnostics
    | _, _ => ∀ p, ¬ In (LicenseBoth p) diagnostics ∧ ¬ In (LicenseNeither p) diagnostics
    end.
Proof.
  intros Hl He.
  unfold validate_license_choice, returning_issues, bind, lift, when, append, modify,
    skip, ret, py_contains at 1 2, py_getitem.
  destruct (dict_lookup "license" entries) as [l|] eqn:El;
    destruct (dict_lookup "expression" entries) as [e|] eqn:Ee;
    try (specialize (Hl _ eq_refl); destruct l; try discriminate Hl);
    try (specialize (He _ eq_refl); destruct e; try discriminate He);
    cbn [negb andb issues locals app py_contains py_or py_any_contains valid_operators
         py_not_contains result_bind];
    repeat (case_match; simplify_eq; cbn [negb andb issues locals app] in * );
    eexists; (split; [reflexivity|]); cbn; intuition discriminate.
Qed.

Lemma runs_append_Forall {L} (P : issue → Prop) E x :
  P x → runs (λ f : frame L, Forall P (issues f)) E (append x).
Proof.
  intros Hx. apply runs_append. intros f Hf. cbn.
  apply Forall_app. split; [done | by constructor].
Qed.

Lemma runs_extend_Forall {L} (P : issue → Prop) E call :
  emits P call → raises_only E call →
  runs (λ f : frame L, Forall P (issues f)) E (extend call).
Proof.
  intros Hcall He. apply runs_extend; [done|]. intros l f Hl Hf. cbn.
  apply Forall_app. split; [done | by apply Hcall].
Qed.

Lemma emits_True call : emits (λ _, True) call.
Proof. intros l _. by apply Forall_forall. Qed.

Create HintDb emits.
#[local] Hint Resolve emits_True : emits.

(** A walk that shows that a validator emits diagnostics in [P] only and
    raises exceptions in [E] only. *)
Ltac emits_step :=
  lazymatch goal with
  | |- runs _ _ (append _) => apply runs_append_Forall; first [reflexivity | exact I]
  | |- runs _ _ (extend _) =>
      apply runs_extend_Forall; [solve [eauto with emits] | solve [eauto with raises]]
  | |- _ => runs_step
  end.

Ltac emits_walk :=
  apply returning_issues_runs; repeat emits_step.

(** ** The helper validators *)

Section Properties.
Context {lib : PythonLib}.

Lemma fromisoformat_raises_raises x : raises_only not_exhausted (fromisoformat_raises x).
Proof.
  apply raises_only_result_bind; [apply py_replace_Z_raises|].
  intros; apply raises_only_Ok.
Qed.
Hint Resolve fromisoformat_raises_raises : raises.

Lemma validate_organizational_contact_emits contact path :
  emits (λ x, helper_issue x = true) (validate_organizational_contact contact path) ∧
  raises_only not_exhausted (validate_organizational_contact contact path).
Proof. emits_walk. Qed.
Hint Extern 1 (emits _ (validate_organizational_contact _ _)) => apply validate_organizational_contact_emits : emits.
Hint Extern 1 (raises_only _ (validate_organizational_contact _ _)) => apply validate_organizational_contact_emits : raises.

Lemma validate_organizational_entity_emits entity path :
  emits (λ x, helper_issue x = true) (validate_organizational_entity entity path) ∧
  raises_only not_exhausted (validate_organizational_entity entity path).
Proof. emits_walk. Qed.
Hint Extern 1 (emits _ (validate_organizational_entity _ _)) => apply validate_organizational_entity_emits : emits.
Hint Extern 1 (raises_only _ (validate_organizational_entity _ _)) => apply validate_organizational_entity_emits : raises.

Lemma validate_properties_array_emits properties path :
  emits (λ x, helper_issue x = true) (validate_properties_array properties path) ∧
  raises_only not_exhausted (validate_properties_array properties path).
Proof. emits_walk. Qed.
Hint Extern 1 (emits _ (validate_properties_array _ _)) => apply validate_properties_array_emits : emits.
Hint Extern 1 (raises_only _ (validate_properties_array _ _)) => apply validate_properties_array_emits : raises.

Lemma patterns_getitem_raises alg : raises_only not_exhausted (patterns_getitem alg).
Proof. unfold patterns_getitem. primitive_raises. Qed.
Hint Resolve patterns_getitem_raises : raises.

Lemma validate_hash_object_emits hash_obj path :
  emits (λ x, helper_issue x = true) (validate_hash_object hash_obj path) ∧
  raises_only not_exhausted (validate_hash_object hash_obj path).
Proof. emits_walk. Qed.
Hint Extern 1 (emits _ (validate_hash_object _ _)) => apply validate_hash_object_emits : emits.
Hint Extern 1 (raises_only _ (validate_hash_object _ _)) => apply validate_hash_object_emits : raises.

Lemma validate_external_reference_emits ref path :
  emits (λ x, helper_issue x = true) (validate_external_reference ref path) ∧
  raises_only not_exhausted (validate_external_reference ref path).
Proof. emits_walk. Qed.
Hint Extern 1 (emits _ (validate_external_reference _ _)) => apply validate_external_reference_emits : emits.
Hint Extern 1 (raises_only _ (validate_external_reference _ _)) => apply validate_external_reference_emits : raises.

Lemma validate_license_choice_emits license_choice path :
  emits (λ x, helper_issue x = true) (validate_license_choice license_choice path) ∧
  raises_only not_exhausted (validate_license_choice license_choice path).
Proof. emits_walk. Qed.
Hint Extern 1 (emits _ (validate_license_choice _ _)) => apply validate_license_choice_emits : emits.
Hint Extern 1 (raises_only _ (validate_license_choice _ _)) => apply validate_license_choice_emits : raises.

Lemma validate_pedigree_emits pedigree path :
  emits (λ x, helper_issue x = true) (validate_pedigree pedigree path) ∧
  raises_only not_exhausted (validate_pedigree pedigree path).
Proof. emits_walk. Qed.
Hint Extern 1 (emits _ (validate_pedigree _ _)) => apply validate_pedigree_emits : emits.
Hint Extern 1 (raises_only _ (validate_pedigree _ _)) => apply validate_pedigree_emits : raises.

Lemma validate_evidence_emits evidence path version :
  emits (λ x, helper_issue x = true) (validate_evidence evidence path version) ∧
  raises_only not_exhausted (validate_evidence evidence path version).
Proof. emits_walk. Qed.
Hint Extern 1 (emits _ (validate_evidence _ _ _)) => apply validate_evidence_emits : emits.
Hint Extern 1 (raises_only _ (validate_evidence _ _ _)) => apply validate_evidence_emits : raises.

Lemma validate_service_structure_emits service path :
  emits (λ x, helper_issue x = true) (validate_service_structure service path) ∧
  raises_only not_exhausted (validate_service_structure service path).
Proof. emits_walk. Qed.
Hint Extern 1 (emits _ (validate_service_structure _ _)) => apply validate_service_structure_emits : emits.
Hint Extern 1 (raises_only _ (validate_service_structure _ _)) => apply validate_service_structure_emits : raises.

(** *** The recursive validator *)

Lemma validate_component_structure_body_emits self component path version :
  (∀ nested q, emits (λ x, helper_issue x = true) (self nested q version)) →
  emits (λ x, helper_issue x = true) (validate_component_structure_body self component path version).
Proof.
  intros Hself.
  apply (returning_issues_runs _ any_exn). repeat emits_step.
Qed.

Lemma validate_component_structure_fuel_emits fuel component path version :
  emits (λ x, helper_issue x = true) (validate_component_structure_fuel fuel component path version).
Proof.
  revert component path. induction fuel as [|fuel IH]; intros component path.
  - by intros l.
  - cbn [validate_component_structure_fuel].
    by apply validate_component_structure_body_emits.
Qed.

Lemma validate_component_structure_emits component path version :
  emits (λ x, helper_issue x = true) (validate_component_structure component path version).
Proof. apply validate_component_structure_fuel_emits. Qed.
Hint Extern 1 (emits _ (validate_component_structure _ _ _)) =>
  apply validate_component_structure_emits : emits.

(** The values a component reaches are less deeply nested than itself. *)
Lemma vdepth_dict_lookup k entries v :
  dict_lookup k entries = Some v →
  (vdepth v ≤ foldr (λ e d, Nat.max (vdepth e.2) d) 0 entries)%nat.
Proof.
  induction entries as [|[k' v'] entries IH]; cbn; [done|].
  destruct (String.eqb k k'); [intros [= ->]; lia|].
  intros Hv. specialize (IH Hv). lia.
Qed.

Lemma vdepth_getitem x k v :
  py_getitem x k = Ok v → (vdepth v < vdepth x)%nat.
Proof.
  destruct x; try done. cbn [py_getitem].
  destruct (dict_lookup k entries) as [v'|] eqn:Hv; [|done].
  intros [= ->]. apply vdepth_dict_lookup in Hv. cbn [vdepth]. lia.
Qed.

Lemma vdepth_list_lookup (items : list value) j y :
  items !! j = Some y →
  (vdepth y ≤ foldr (λ x d, Nat.max (vdepth x) d) 0 items)%nat.
Proof.
  revert j. induction items as [|x items IH]; intros [|j]; cbn; try done.
  - intros [= ->]. lia.
  - intros Hy. specialize (IH _ Hy). lia.
Qed.

Lemma vdepth_iter x items j y :
  py_iter x = Ok items → items !! j = Some y → (vdepth y ≤ vdepth x)%nat.
Proof.
  destruct x; try done; cbn [py_iter]; intros [= <-] Hy.
  - apply list_lookup_fmap_Some in Hy as (c & -> & _). cbn. lia.
  - apply vdepth_list_lookup in Hy. cbn [vdepth]. lia.
  - apply list_lookup_fmap_Some in Hy as (e & -> & _). cbn. lia.
Qed.

Lemma vdepth_nested component components items j nested :
  py_getitem component "components" = Ok components →
  py_iter components = Ok items →
  items !! j = Some nested →
  (vdepth nested < vdepth component)%nat.
Proof.
  intros Hc Hi Hn. apply vdepth_getitem in Hc.
  pose proof (vdepth_iter _ _ _ _ Hi Hn). lia.
Qed.

Lemma validate_component_structure_body_raises self component path version :
  (∀ nested q, (vdepth nested < vdepth component)%nat →
     raises_only not_exhausted (self nested q version)) →
  raises_only not_exhausted
    (validate_component_structure_body self component path version).
Proof.
  intros Hself.
  apply (returning_issues_runs (λ _, True)). repeat emits_step.
  apply runs_extend_Forall; [apply emits_True|].
  apply Hself. by eapply vdepth_nested.
Qed.

Lemma validate_component_structure_fuel_raises fuel component path version :
  (vdepth component < fuel)%nat →
  raises_only not_exhausted
    (validate_component_structure_fuel fuel component path version).
Proof.
  revert component path. induction fuel as [|fuel IH]; intros component path Hd; [lia|].
  cbn [validate_component_structure_fuel].
  apply validate_component_structure_body_raises.
  intros nested q Hn. apply IH. lia.
Qed.

(** The budget of [validate_component_structure] never runs out. *)
Lemma validate_component_structure_not_exhausted component path version :
  validate_component_structure component path version ≠ Raise FuelExhausted.
Proof.
  intros Hr.
  by apply (validate_component_structure_fuel_raises (S (vdepth component))
              component path version (Nat.lt_succ_diag_r _) FuelExhausted).
Qed.

Lemma validate_component_structure_raises component path version :
  raises_only not_exhausted (validate_component_structure component path version).
Proof. apply validate_component_structure_fuel_raises. lia. Qed.
Hint Extern 1 (raises_only _ (validate_component_structure _ _ _)) =>
  apply validate_component_structure_raises : raises.

(** *** The budget does not show in the result *)

Lemma same_effect_bind {St A B} (m : M St A) (k1 k2 : A → M St B) :
  (∀ a, same_effect (k1 a) (k2 a)) → same_effect (bind m k1) (bind m k2).
Proof. intros Hk s. unfold bind. destruct (m s) as [[a|e] s1]; [apply Hk | done]. Qed.

Lemma same_effect_bind_lift {St A B} (r : result A) (k1 k2 : A → M St B) :
  (∀ a, r = Ok a → same_effect (k1 a) (k2 a)) →
  same_effect (bind (lift r) k1) (bind (lift r) k2).
Proof. intros Hk s. unfold bind, lift. destruct r as [a|e]; [by apply Hk | done]. Qed.

Lemma same_effect_when {St} (b : bool) (m1 m2 : M St unit) :
  (b = true → same_effect m1 m2) → same_effect (when b m1) (when b m2).
Proof. destruct b; [auto | by intros _ s]. Qed.

Lemma same_effect_for_from {St} (body1 body2 : nat → value → M St unit) items i :
  (∀ j x, items !! j = Some x → same_effect (body1 (i + j)%nat x) (body2 (i + j)%nat x)) →
  same_effect (for_from i items body1) (for_from i items body2).
Proof.
  revert i. induction items as [|x items IH]; intros i Hbody; [by intros s|].
  cbn [for_from]. intros s. unfold bind.
  pose proof (Hbody 0%nat x eq_refl s) as H0. rewrite Nat.add_0_r in H0. rewrite H0.
  destruct (body2 i x s) as [[[]|e] s1]; [|done].
  apply IH. intros j y Hj.
  replace (S i + j)%nat with (i + S j)%nat by lia. by apply Hbody.
Qed.

Lemma same_effect_for_enumerate {St} (body1 body2 : nat → value → M St unit) xs :
  (∀ items j x, py_iter xs = Ok items → items !! j = Some x →
     same_effect (body1 j x) (body2 j x)) →
  same_effect (for_enumerate xs body1) (for_enumerate xs body2).
Proof.
  intros Hbody. unfold for_enumerate. apply same_effect_bind_lift.
  intros items Hitems. apply same_effect_for_from. intros j x Hj. by eapply Hbody.
Qed.

Lemma validate_component_structure_body_ext self1 self2 component path version :
  (∀ nested q, (vdepth nested < vdepth component)%nat →
     self1 nested q version = self2 nested q version) →
  validate_component_structure_body self1 component path version =
  validate_component_structure_body self2 component path version.
Proof.
  intros Hself. unfold validate_component_structure_body, returning_issues.
  match goal with
  | |- match ?m1 _ with _ => _ end = match ?m2 _ with _ => _ end =>
      assert (same_effect m1 m2) as ->; [|done]
  end.
  do 15 (apply same_effect_bind; intros _).
  apply same_effect_bind_lift. intros has _.
  apply same_effect_when. intros _.
  apply same_effect_bind_lift. intros components Hc.
  apply same_effect_for_enumerate. intros items j nested Hi Hn.
  rewrite Hself; [done|]. by eapply vdepth_nested.
Qed.

Lemma validate_component_structure_fuel_enough fuel1 fuel2 component path version :
  (vdepth component < fuel1)%nat → (vdepth component < fuel2)%nat →
  validate_component_structure_fuel fuel1 component path version =
  validate_component_structure_fuel fuel2 component path version.
Proof.
  revert fuel2 component path.
  induction fuel1 as [|fuel1 IH]; intros [|fuel2] component path H1 H2; try lia.
  cbn [validate_component_structure_fuel].
  apply validate_component_structure_body_ext.
  intros nested q Hn. apply IH; lia.
Qed.

(** [validate_component_structure] satisfies the recursive equation of the
    source: its body, calling itself on the nested components. *)
Lemma validate_component_structure_unfold component path version :
  validate_component_structure component path version =
  validate_component_structure_body validate_component_structure component path version.
Proof.
  unfold validate_component_structure at 1.
  cbn [validate_component_structure_fuel].
  apply validate_component_structure_body_ext.
  intros nested q Hn. apply validate_component_structure_fuel_enough; lia.
Qed.

(** ** The top-level validator *)

Ltac unfold_stages :=
  unfold validation_body, document_level_validations, metadata_validation,
    components_validation, metadata_component_bom_ref, services_validation,
    dependencies_validation, compositions_validation, vulnerabilities_validation,
    external_references_validation, read_data.

Ltac top_step :=
  lazymatch goal with
  | |- runs _ _ (modify _) => apply runs_modify
  | |- runs _ _ (bom_refs_contains _) => unfold bom_refs_contains
  | |- runs _ _ (bom_refs_add _) => unfold bom_refs_add
  | |- _ => runs_step
  end.

(** The validator raises Python exceptions only: the budget of the
    recursive validator never runs out inside it. *)
Lemma validation_body_raises version :
  runs (λ _, True) not_exhausted (validation_body version).
Proof.
  unfold_stages.
  repeat lazymatch goal with
  | |- runs _ _ (extend _) => apply runs_extend; [solve [eauto with raises] | done]
  | |- _ => top_step
  end; done.
Qed.

Lemma validate_complete_cyclonedx_schema_not_exhausted document version :
  validate_complete_cyclonedx_schema document version ≠ Raise FuelExhausted.
Proof.
  unfold validate_complete_cyclonedx_schema, run_validation.
  destruct (validation_body_raises version (Frame [] (TopLocals document ∅)) I)
    as [_ Hraises].
  destruct (validation_body version _) as [[[]|e] f]; [done|].
  intros [= ->]. by apply (Hraises FuelExhausted).
Qed.

(** *** Completed runs *)

Lemma bind_Ok {St A B} (m : M St A) (k : A → M St B) s b s' :
  bind m k s = (Ok b, s') → ∃ a s1, m s = (Ok a, s1) ∧ k a s1 = (Ok b, s').
Proof.
  unfold bind. destruct (m s) as [[a|e] s1]; [|done]. intros Hk. by exists a, s1.
Qed.

Lemma bind_lift_Ok {St A B} (r : result A) (k : A → M St B) s b s' :
  bind (lift r) k s = (Ok b, s') → ∃ a, r = Ok a ∧ k a s = (Ok b, s').
Proof. unfold bind, lift. destruct r as [a|e]; [|done]. intros Hk. by exists a. Qed.

Lemma bind_gets_Ok {St A B} (f : St → A) (k : A → M St B) s r :
  bind (gets f) k s = r → k (f s) s = r.
Proof. done. Qed.

Lemma when_Ok {St} (b : bool) (m : M St unit) s s' :
  when b m s = (Ok (), s') → (b = true ∧ m s = (Ok (), s')) ∨ (b = false ∧ s' = s).
Proof. destruct b; cbn; [by left | intros [= <-]; by right]. Qed.

Lemma extend_Ok {L} (call : result (list issue)) (s s' : frame L) :
  extend call s = (Ok (), s') →
  ∃ l, call = Ok l ∧ s' = Frame (issues s ++ l) (locals s).
Proof.
  unfold extend. intros (l & Hl & Hm)%bind_lift_Ok.
  exists l. split; [done|]. by injection Hm as <-.
Qed.

Lemma for_from_app {St} (body : nat → value → M St unit) l1 l2 i :
  same_effect (for_from i (l1 ++ l2) body)
              (for_from i l1 body ;; for_from (i + length l1) l2 body).
Proof.
  revert i. induction l1 as [|x l1 IH]; intros i s; cbn [for_from app length].
  - rewrite Nat.add_0_r. done.
  - pose proof (IH (S i)) as IH'. unfold same_effect, bind in *.
    destruct (body i x s) as [[[]|e] s1]; [|done].
    rewrite IH'. by replace (i + S (length l1))%nat with (S i + length l1)%nat by lia.
Qed.

(** A completed loop went through each of its iterations: the ones before
    the [j]-th completed, then the [j]-th, then the ones after it. *)
Lemma for_from_Ok_lookup {St} (body : nat → value → M St unit) items i s s' j x :
  for_from i items body s = (Ok (), s') →
  items !! j = Some x →
  ∃ sj sj', for_from i (take j items) body s = (Ok (), sj) ∧
            body (i + j)%nat x sj = (Ok (), sj') ∧
            for_from (i + S j) (drop (S j) items) body sj' = (Ok (), s').
Proof.
  intros Hrun Hj.
  rewrite <- (take_drop_middle _ _ _ Hj) in Hrun.
  rewrite for_from_app in Hrun.
  apply bind_Ok in Hrun as ([] & sj & Hpre & Hrun).
  cbn [for_from] in Hrun. apply bind_Ok in Hrun as ([] & sj' & Hbody & Hrest).
  assert (length (take j items) = j) as Hlen.
  { rewrite length_take. apply lookup_lt_Some in Hj. lia. }
  rewrite Hlen in Hbody, Hrest.
  exists sj, sj'. split; [done|]. split; [done|].
  by replace (i + S j)%nat with (S (i + j)) by lia.
Qed.

Lemma runs_Ok {St A} (I : St → Prop) (m : M St A) s a s' :
  m s = (Ok a, s') → runs I any_exn m → I s → I s'.
Proof. intros Hrun Hm Hs. destruct (Hm s Hs) as [H _]. by rewrite Hrun in H. Qed.

(** *** The collection of identifiers *)

Lemma key_of_Some r k : key_of r = Some k ↔ py_hash r = Ok k.
Proof. unfold key_of. destruct (py_hash r); naive_solver. Qed.

Lemma ref_keys_cons x entities :
  ref_keys (x :: entities) =
  (if bom_ref_of x ≫= key_of is Some k then {[k]} else ∅) ∪ ref_keys entities.
Proof.
  unfold ref_keys. cbn [omap list_omap].
  destruct (bom_ref_of x ≫= key_of); [by rewrite list_to_set_cons|].
  by rewrite (left_id_L ∅ (∪)).
Qed.

Lemma bom_ref_of_contains x r :
  bom_ref_of x = Some r → py_contains "bom-ref" x = Ok true ∧ py_getitem x "bom-ref" = Ok r.
Proof.
  unfold bom_ref_of. destruct x; try done. cbn.
  destruct (dict_lookup "bom-ref" entries); [|done]. by intros [= ->].
Qed.

Lemma bom_ref_of_None x :
  bom_ref_of x = None → py_contains "bom-ref" x = Ok true → ∀ r, py_getitem x "bom-ref" ≠ Ok r.
Proof. unfold bom_ref_of. intros H _ r Hr. by rewrite Hr in H. Qed.

(** One iteration of a collecting loop that completes. *)
Lemma collecting_body_Ok validate duplicate i x s s' :
  collecting_body validate duplicate i x s = (Ok (), s') →
  ∃ l, validate i x = Ok l ∧
    match bom_ref_of x with
    | Some r => ∃ k, py_hash r = Ok k ∧
        s' = if bool_decide (k ∈ bom_refs (locals s))
             then Frame (issues s ++ l ++ [duplicate r]) (locals s)
             else Frame (issues s ++ l)
                        (TopLocals (data (locals s)) ({[k]} ∪ bom_refs (locals s)))
    | None => s' = Frame (issues s ++ l) (locals s)
    end.
Proof.
  unfold collecting_body.
  intros ([] & s1 & (l & Hl & ->)%extend_Ok & Hrest)%bind_Ok.
  exists l. split; [done|].
  apply bind_lift_Ok in Hrest as (has_ref & Hhas & Hrest).
  apply when_Ok in Hrest as [[-> Hrest]|[-> ->]].
  - apply bind_lift_Ok in Hrest as (r & Hr & Hrest).
    unfold bom_ref_of. rewrite Hr.
    unfold bom_refs_contains in Hrest.
    apply bind_Ok in Hrest as (seen & s2 & Hseen & Hrest).
    apply bind_lift_Ok in Hseen as (k & Hk & Hseen).
    injection Hseen as <- <-. exists k. split; [done|]. cbn [locals issues] in *.
    destruct (bool_decide (k ∈ bom_refs (locals s))).
    + injection Hrest as <-. cbn. by rewrite <- app_assoc.
    + unfold bom_refs_add in Hrest.
      apply bind_lift_Ok in Hrest as (k' & Hk' & Hrest).
      rewrite Hk in Hk'. injection Hk' as <-. by injection Hrest as <-.
  - destruct (bom_ref_of x) as [r|] eqn:Hr; [|done].
    apply bom_ref_of_contains in Hr as [Hc _]. by rewrite Hc in Hhas.
Qed.

Lemma collecting_loop_Ok validate duplicate items i s s' :
  for_from i items (collecting_body validate duplicate) s = (Ok (), s') →
  bom_refs (locals s') = ref_keys items ∪ bom_refs (locals s) ∧
  (∀ y, In y (issues s) → In y (issues s')) ∧
  (∀ j x r k, items !! j = Some x → bom_ref_of x = Some r → py_hash r = Ok k →
     k ∈ bom_refs (locals s) ∪ ref_keys (take j items) →
     In (duplicate r) (issues s')).
Proof.
  revert i s. induction items as [|x items IH]; intros i s Hrun.
  - injection Hrun as <-. split; [|split]; [|done|done].
    unfold ref_keys. cbn. by rewrite (left_id_L ∅ (∪)).
  - cbn [for_from] in Hrun.
    apply bind_Ok in Hrun as ([] & s1 & Hbody & Hrun).
    apply IH in Hrun as (Hrefs & Hmono & Hdup).
    apply collecting_body_Ok in Hbody as (l & _ & Hs1).
    rewrite ref_keys_cons.
    assert (bom_refs (locals s1) =
            (if bom_ref_of x ≫= key_of is Some k then {[k]} else ∅) ∪ bom_refs (locals s)
            ∧ (∀ y, In y (issues s) → In y (issues s1))
            ∧ (∀ r k, bom_ref_of x = Some r → py_hash r = Ok k →
                 k ∈ bom_refs (locals s) → In (duplicate r) (issues s1)))
      as (Hrefs1 & Hmono1 & Hdup1).
    { destruct (bom_ref_of x) as [r|] eqn:Hr; cbn.
      - destruct Hs1 as (k & Hk & ->). rewrite (proj2 (key_of_Some r k) Hk).
        case_bool_decide as Hin; cbn.
        + split; [set_solver|]. split.
          * intros y Hy. apply in_or_app. by left.
          * intros r' k' [= <-] Hk' _. rewrite !in_app_iff. right; right. by left.
        + split; [done|]. split.
          * intros y Hy. apply in_or_app. by left.
          * intros r' k' [= <-] Hk' Hin'. rewrite Hk in Hk'. by injection Hk' as <-.
      - subst s1. cbn. split; [set_solver|]. split; [|done].
        intros y Hy. apply in_or_app. by left. }
    split; [|split].
    + rewrite Hrefs, Hrefs1. set_solver.
    + auto.
    + intros [|j] x' r k Hj Hr Hk Hin.
      * injection Hj as <-. apply Hmono. apply (Hdup1 r k); [done..|].
        cbn in Hin. unfold ref_keys in Hin. cbn in Hin. set_solver.
      * cbn in Hj. apply (Hdup j x' r k); [done..|].
        rewrite Hrefs1. cbn [take] in Hin. rewrite ref_keys_cons in Hin. set_solver.
Qed.

(** *** What the parts of the body keep *)

Lemma grows_present y : stable (λ f, In y (issues f)).
Proof.
  split; [|by intros f k]. intros f l Hy. cbn. apply in_or_app. by left.
Qed.

Lemma grows_data d : stable (λ f, data (locals f) = d).
Proof. split; [by intros f l|by intros f k]. Qed.

Lemma grows_bom_refs B : grows (λ f, bom_refs (locals f) = B).
Proof. by intros f l. Qed.

Lemma stable_bom_ref k : stable (λ f, k ∈ bom_refs (locals f)).
Proof. split; [by intros f l|]. intros f k' Hk. cbn. set_solver. Qed.

Ltac grows_step Hgrows :=
  lazymatch goal with
  | |- runs _ _ (append _) => apply runs_append; intros; by apply Hgrows
  | |- runs _ _ (extend _) =>
      apply runs_extend; [solve [eauto with raises] | intros; by apply Hgrows]
  | |- _ => top_step
  end.

Lemma document_level_validations_grows I version :
  grows I → runs I any_exn (document_level_validations version).
Proof. intros HI. unfold_stages. repeat grows_step HI. Qed.

Lemma metadata_validation_grows I version :
  grows I → runs I any_exn (metadata_validation version).
Proof. intros HI. unfold_stages. repeat grows_step HI. Qed.

Lemma collecting_body_stable I validate duplicate i x :
  stable I → runs I any_exn (collecting_body validate duplicate i x).
Proof.
  intros [HI Hadd]. unfold collecting_body. repeat grows_step HI.
  intros f Hf. by apply Hadd.
Qed.

Lemma components_validation_stable I version :
  stable I → runs I any_exn (components_validation version).
Proof.
  intros [HI Hadd]. unfold_stages. repeat grows_step HI.
  intros f Hf. by apply Hadd.
Qed.

Lemma metadata_component_bom_ref_stable I :
  stable I → runs I any_exn metadata_component_bom_ref.
Proof.
  intros [HI Hadd]. unfold_stages. repeat grows_step HI.
  intros f Hf. by apply Hadd.
Qed.

Lemma services_validation_stable I :
  stable I → runs I any_exn services_validation.
Proof.
  intros [HI Hadd]. unfold_stages. repeat grows_step HI.
  intros f Hf. by apply Hadd.
Qed.

Lemma dependencies_validation_grows I :
  grows I → runs I any_exn dependencies_validation.
Proof. intros HI. unfold_stages. repeat grows_step HI. Qed.

Lemma compositions_validation_grows I :
  grows I → runs I any_exn compositions_validation.
Proof. intros HI. unfold_stages. repeat grows_step HI. Qed.

Lemma vulnerabilities_validation_grows I version :
  grows I → runs I any_exn (vulnerabilities_validation version).
Proof. intros HI. unfold_stages. repeat grows_step HI. Qed.

Lemma external_references_validation_grows I :
  grows I → runs I any_exn external_references_validation.
Proof. intros HI. unfold_stages. repeat grows_step HI. Qed.

(** *** The completed run, part by part *)

Lemma validate_Ok document version diagnostics :
  validate_complete_cyclonedx_schema document version = Ok diagnostics →
  ∃ f, run_validation document version = (Ok (), f) ∧ issues f = diagnostics.
Proof.
  unfold validate_complete_cyclonedx_schema.
  destruct (run_validation document version) as [[[]|e] f]; [|done].
  intros [= <-]. by exists f.
Qed.

Lemma py_contains_false_getitem k x :
  py_contains k x = Ok false → ∀ v, py_getitem x k ≠ Ok v.
Proof.
  destruct x; try done. cbn. by destruct (dict_lookup k entries).
Qed.

Lemma py_getitem_contains k x v :
  py_getitem x k = Ok v → py_contains k x = Ok true.
Proof.
  destruct x; try done. cbn. by destruct (dict_lookup k entries).
Qed.

Lemma items_of_absent container k :
  py_contains k container = Ok false → items_of container k = [].
Proof.
  intros Hc. unfold items_of.
  destruct (py_getitem container k) eqn:Hg; [|done].
  by destruct (py_contains_false_getitem _ _ Hc a).
Qed.

Lemma items_of_present container k xs items :
  py_getitem container k = Ok xs → py_iter xs = Ok items →
  items_of container k = items.
Proof. intros Hg Hi. unfold items_of. by rewrite Hg, Hi. Qed.

Lemma items_of_lookup container k j x :
  items_of container k !! j = Some x →
  ∃ xs, py_contains k container = Ok true ∧ py_getitem container k = Ok xs ∧
        py_iter xs = Ok (items_of container k).
Proof.
  unfold items_of. destruct (py_getitem container k) as [xs|] eqn:Hg; [|done].
  destruct (py_iter xs) as [items|] eqn:Hi; [|done].
  intros _. exists xs. split; [by eapply py_getitem_contains|]. by rewrite Hi.
Qed.

(** A guarded loop of the body, [if k in data: for i, x in
    enumerate(data[k]): body], runs [body] over [items_of data k]. *)
Lemma guarded_loop_Ok (container : value) k (body : nat → value → M top unit) s s' :
  (do has <~ py_contains k container;
   when has (do xs <~ py_getitem container k; for_enumerate xs body)) s = (Ok (), s') →
  for_from 0 (items_of container k) body s = (Ok (), s').
Proof.
  intros (has & Hhas & Hrun)%bind_lift_Ok.
  apply when_Ok in Hrun as [[-> Hrun]|[-> ->]].
  - apply bind_lift_Ok in Hrun as (xs & Hxs & Hrun).
    unfold for_enumerate in Hrun.
    apply bind_lift_Ok in Hrun as (items & Hitems & Hrun).
    by rewrite (items_of_present _ _ _ _ Hxs Hitems).
  - by rewrite (items_of_absent _ _ Hhas).
Qed.

Lemma components_validation_Ok version s s' :
  components_validation version s = (Ok (), s') →
  for_from 0 (items_of (data (locals s)) "components")
    (collecting_body
       (λ i c, validate_component_structure c (indexed "components" i) version)
       DuplicateBomRef) s = (Ok (), s').
Proof. intros Hrun. by apply guarded_loop_Ok. Qed.

Lemma services_validation_Ok s s' :
  services_validation s = (Ok (), s') →
  for_from 0 (items_of (data (locals s)) "services")
    (collecting_body
       (λ i c, validate_service_structure c (indexed "services" i))
       DuplicateServiceBomRef) s = (Ok (), s').
Proof. intros Hrun. by apply guarded_loop_Ok. Qed.

Lemma ref_keys_nil : ref_keys [] = ∅.
Proof. done. Qed.

Lemma ref_keys_singleton c :
  ref_keys [c] = if bom_ref_of c ≫= key_of is Some k then {[k]} else ∅.
Proof.
  rewrite ref_keys_cons, ref_keys_nil.
  destruct (bom_ref_of c ≫= key_of); by rewrite (right_id_L ∅ (∪)).
Qed.

Lemma metadata_component_bom_ref_Ok s s' :
  metadata_component_bom_ref s = (Ok (), s') →
  bom_refs (locals s') = ref_keys (metadata_component (data (locals s))) ∪ bom_refs (locals s) ∧
  issues s' = issues s.
Proof.
  unfold metadata_component_bom_ref, read_data.
  intros (has & Hhas & Hrun)%bind_lift_Ok.
  unfold metadata_component.
  unfold py_and, result_bind in Hhas.
  destruct (py_contains "metadata" (data (locals s))) as [[]|] eqn:Hm; try done.
  - destruct (py_getitem (data (locals s)) "metadata") as [metadata|] eqn:Hg; [|done].
    apply when_Ok in Hrun as [[-> Hrun]|[-> ->]].
    + apply bind_lift_Ok in Hrun as (metadata' & [= <-] & Hrun).
      apply bind_lift_Ok in Hrun as (c & Hc & Hrun). rewrite Hc.
      apply bind_lift_Ok in Hrun as (has_ref & Hhas_ref & Hrun).
      rewrite ref_keys_singleton.
      apply when_Ok in Hrun as [[-> Hrun]|[-> ->]].
      * apply bind_lift_Ok in Hrun as (r & Hr & Hrun).
        unfold bom_refs_add in Hrun.
        apply bind_lift_Ok in Hrun as (k & Hk & Hrun). injection Hrun as <-.
        unfold bom_ref_of. rewrite Hr. cbn. by rewrite (proj2 (key_of_Some r k) Hk).
      * destruct (bom_ref_of c) as [r|] eqn:Hr; cbn.
        -- apply bom_ref_of_contains in Hr as [Hr _]. by rewrite Hr in Hhas_ref.
        -- split; [set_solver | done].
    + destruct (py_getitem metadata "component") eqn:Hc.
      * apply py_getitem_contains in Hc. by rewrite Hc in Hhas.
      * rewrite ref_keys_nil. split; [set_solver | done].
  - injection Hhas as <-. apply when_Ok in Hrun as [[? _]|[_ ->]]; [done|].
    destruct (py_getitem (data (locals s)) "metadata") eqn:Hg.
    + apply py_getitem_contains in Hg. by rewrite Hg in Hm.
    + rewrite ref_keys_nil. split; [set_solver | done].
Qed.

(** The parts of a completed run, in order. *)
Lemma validation_body_Ok version s sf :
  validation_body version s = (Ok (), sf) →
  ∃ s1 s2 s3 s3' s4 s5 s6 s7,
    document_level_validations version s = (Ok (), s1) ∧
    metadata_validation version s1 = (Ok (), s2) ∧
    components_validation version s2 = (Ok (), s3) ∧
    metadata_component_bom_ref s3 = (Ok (), s3') ∧
    services_validation s3' = (Ok (), s4) ∧
    dependencies_validation s4 = (Ok (), s5) ∧
    compositions_validation s5 = (Ok (), s6) ∧
    vulnerabilities_validation version s6 = (Ok (), s7) ∧
    external_references_validation s7 = (Ok (), sf).
Proof.
  unfold validation_body.
  intros ([] & s1 & H1 & H)%bind_Ok. apply bind_Ok in H as ([] & s2 & H2 & H).
  apply bind_Ok in H as ([] & s3 & H3 & H). apply bind_Ok in H as ([] & s3' & H3' & H).
  apply bind_Ok in H as ([] & s4 & H4 & H). apply bind_Ok in H as ([] & s5 & H5 & H).
  apply bind_Ok in H as ([] & s6 & H6 & H). apply bind_Ok in H as ([] & s7 & H7 & H).
  by exists s1, s2, s3, s3', s4, s5, s6, s7.
Qed.


(** *** Diagnostics of the parts *)

Lemma emits_helper G call :
  (∀ x, specified x = false → G x) →
  emits (λ x, helper_issue x = true) call → emits G call.
Proof.
  intros HG Hcall l Hl. specialize (Hcall l Hl).
  eapply Forall_impl; [done|]. intros x Hx. apply HG. by destruct x.
Qed.

Ltac justified_step HG :=
  lazymatch goal with
  | |- runs _ _ (append _) =>
      apply runs_append_Forall; first [by apply HG | done]
  | |- runs _ _ (extend _) =>
      apply runs_extend_Forall;
      [apply (emits_helper _ _ HG); solve [eauto with emits] | solve [eauto with raises]]
  | |- _ => top_step
  end.

Section Justified.
Context (G : issue → Prop) (HG : ∀ x, specified x = false → G x).

Lemma document_level_validations_justified version :
  (∀ v, G (MissingSchema v)) → (∀ v, G (IncorrectSchema v)) →
  (∀ v, G (SchemaNotAllowed v)) →
  runs (λ f, Forall G (issues f)) any_exn (document_level_validations version).
Proof. intros Hm Hi Hn. unfold_stages. repeat justified_step HG. Qed.

Lemma metadata_validation_justified version :
  G InvalidTimestamp →
  runs (λ f, Forall G (issues f)) any_exn (metadata_validation version).
Proof. intros Hts. unfold_stages. repeat justified_step HG. Qed.

Lemma components_validation_justified version :
  (∀ r, G (DuplicateBomRef r)) →
  runs (λ f, Forall G (issues f)) any_exn (components_validation version).
Proof. intros Hdup. unfold_stages. repeat justified_step HG; by intros. Qed.

Lemma metadata_component_bom_ref_justified :
  runs (λ f, Forall G (issues f)) any_exn metadata_component_bom_ref.
Proof. unfold_stages. repeat justified_step HG; by intros. Qed.

Lemma services_validation_justified :
  (∀ r, G (DuplicateServiceBomRef r)) →
  runs (λ f, Forall G (issues f)) any_exn services_validation.
Proof. intros Hdup. unfold_stages. repeat justified_step HG; by intros. Qed.

Lemma dependencies_validation_justified :
  (∀ i r, G (DependencyRefNotFound i r)) →
  (∀ i j r, G (DependsOnNotFound i j r)) →
  runs (λ f, Forall G (issues f)) any_exn dependencies_validation.
Proof. intros H1 H2. unfold_stages. repeat justified_step HG. Qed.

Lemma compositions_validation_justified :
  runs (λ f, Forall G (issues f)) any_exn compositions_validation.
Proof. unfold_stages. repeat justified_step HG. Qed.

Lemma vulnerabilities_validation_justified version :
  runs (λ f, Forall G (issues f)) any_exn (vulnerabilities_validation version).
Proof. unfold_stages. repeat justified_step HG. Qed.

Lemma external_references_validation_justified :
  runs (λ f, Forall G (issues f)) any_exn external_references_validation.
Proof. unfold_stages. repeat justified_step HG. Qed.

End Justified.

(** *** The dependency checks *)

Lemma runs_bind_contains {A} (I : top → Prop) E B x (k : bool → M top A) :
  (∀ f, I f → bom_refs (locals f) = B) →
  raises_only E (py_hash x) →
  (∀ key, py_hash x = Ok key → runs I E (k (bool_decide (key ∈ B)))) →
  runs I E (bind (bom_refs_contains x) k).
Proof.
  intros HB Hx Hk f Hf. unfold bom_refs_contains, bind, lift, gets.
  destruct (py_hash x) as [key|e] eqn:Hkey.
  - rewrite (HB f Hf). by apply Hk.
  - split; [done|]. intros e' [= <-]. by apply Hx.
Qed.

Lemma runs_append_justified B E x :
  undeclared_in B x →
  runs (λ f, bom_refs (locals f) = B ∧ Forall (undeclared_in B) (issues f)) E (append x).
Proof.
  intros Hx. apply runs_append. intros f [HB Hf]. split; [done|]. cbn.
  apply Forall_app. split; [done | by constructor].
Qed.

Lemma not_found_undeclared (B : gset hkey) r key :
  py_hash r = Ok key → negb (bool_decide (key ∈ B)) = true →
  ∀ k, py_hash r = Ok k → k ∉ B.
Proof.
  intros Hkey Hneg k Hk. rewrite Hkey in Hk. injection Hk as <-.
  apply negb_true_iff, bool_decide_eq_false in Hneg. done.
Qed.

(** No dependency diagnostic is produced for a reference that is in
    [bom_refs]. *)
Lemma dependencies_validation_sound B :
  runs (λ f, bom_refs (locals f) = B ∧ Forall (undeclared_in B) (issues f))
       any_exn dependencies_validation.
Proof.
  unfold_stages.
  repeat lazymatch goal with
  | |- runs _ _ (bind (bom_refs_contains _) _) =>
      apply (runs_bind_contains _ _ B);
      [by intros f [? _] | solve [eauto with raises] | intros ? ?]
  | |- runs _ _ (append _) => apply runs_append_justified
  | |- _ => top_step
  end; try done; cbn; by eapply not_found_undeclared.
Qed.

Lemma bind_contains_Ok {A} x (k : bool → M top A) s a s' :
  bind (bom_refs_contains x) k s = (Ok a, s') →
  ∃ key, py_hash x = Ok key ∧
         k (bool_decide (key ∈ bom_refs (locals s))) s = (Ok a, s').
Proof.
  unfold bom_refs_contains, bind, lift, gets.
  destruct (py_hash x) as [key|e]; [|done]. intros Hk. by exists key.
Qed.

Lemma append_present {L} x (s : frame L) : In x (issues (append x s).2).
Proof. cbn. apply in_or_app. right. by left. Qed.

(** Every reference of a dependency that is not in [bom_refs] gets its
    diagnostic. *)
Lemma dependencies_validation_complete s s' i dep :
  dependencies_validation s = (Ok (), s') →
  items_of (data (locals s)) "dependencies" !! i = Some dep →
  (∀ r, py_getitem dep "ref" = Ok r →
     ∃ k, py_hash r = Ok k ∧
       (k ∉ bom_refs (locals s) → In (DependencyRefNotFound i r) (issues s'))) ∧
  (∀ j r, items_of dep "dependsOn" !! j = Some r →
     ∃ k, py_hash r = Ok k ∧
       (k ∉ bom_refs (locals s) → In (DependsOnNotFound i j r) (issues s'))).
Proof.
  unfold dependencies_validation, read_data. intros Hrun Hi.
  apply guarded_loop_Ok in Hrun.
  match type of Hrun with for_from _ _ ?b _ = _ => set (body := b) in * end.
  assert (∀ I j x, grows I → runs I any_exn (body j x)) as Hgrows.
  { intros I j x HI. subst body. cbn beta. repeat grows_step HI. }
  destruct (for_from_Ok_lookup _ _ _ _ _ _ _ Hrun Hi) as (sj & sj' & Hpre & Hbody & Hsuf).
  assert (bom_refs (locals sj) = bom_refs (locals s)) as HB.
  { apply (runs_Ok (λ f, bom_refs (locals f) = bom_refs (locals s)) _ _ _ _ Hpre); [|done].
    apply runs_for_from. intros. apply Hgrows, grows_bom_refs. }
  assert (∀ y, In y (issues sj') → In y (issues s')) as Hkeep.
  { intros y Hy. apply (runs_Ok (λ f, In y (issues f)) _ _ _ _ Hsuf); [|done].
    apply runs_for_from. intros. apply Hgrows, grows_present. }
  subst body. cbn beta in Hbody. clear Hgrows Hpre Hsuf Hrun.
  apply bind_Ok in Hbody as ([] & sa & Href & Hdeps).
  split.
  - intros r Hr.
    apply bind_lift_Ok in Href as (no_ref & Hno & Href).
    unfold py_not_contains in Hno. rewrite (py_getitem_contains _ _ _ Hr) in Hno.
    injection Hno as <-. cbn [negb] in Href.
    apply bind_lift_Ok in Href as (r' & Hr' & Href).
    rewrite Hr in Hr'. injection Hr' as <-.
    apply bind_contains_Ok in Href as (k & Hk & Href).
    exists k. split; [done|]. intros Hnot. rewrite <- HB in Hnot.
    rewrite bool_decide_eq_false_2 in Href by done. cbn [negb when] in Href.
    apply Hkeep.
    apply (runs_Ok (λ f, In (DependencyRefNotFound i r) (issues f)) _ _ _ _ Hdeps).
    { repeat grows_step (proj1 (grows_present (DependencyRefNotFound i r))). }
    replace sa with (append (DependencyRefNotFound (0 + i) r) sj).2 by by rewrite Href.
    apply append_present.
  - intros j r Hj.
    assert (bom_refs (locals sa) = bom_refs (locals s)) as HBa.
    { rewrite <- HB.
      apply (runs_Ok (λ f, bom_refs (locals f) = bom_refs (locals sj)) _ _ _ _ Href); [|done].
      repeat grows_step (grows_bom_refs (bom_refs (locals sj))). }
    apply guarded_loop_Ok in Hdeps.
    match type of Hdeps with for_from _ _ ?b _ = _ => set (inner := b) in * end.
    assert (∀ I j x, grows I → runs I any_exn (inner j x)) as Hgrows.
    { intros I j' x HI. subst inner. cbn beta. repeat grows_step HI. }
    destruct (for_from_Ok_lookup _ _ _ _ _ _ _ Hdeps Hj) as (tj & tj' & Hpre & Hbody & Hsuf).
    assert (bom_refs (locals tj) = bom_refs (locals s)) as HBt.
    { rewrite <- HBa.
      apply (runs_Ok (λ f, bom_refs (locals f) = bom_refs (locals sa)) _ _ _ _ Hpre); [|done].
      apply runs_for_from. intros. apply Hgrows, grows_bom_refs. }
    subst inner. cbn beta in Hbody.
    apply bind_contains_Ok in Hbody as (k & Hk & Hbody).
    exists k. split; [done|]. intros Hnot. rewrite <- HBt in Hnot.
    rewrite bool_decide_eq_false_2 in Hbody by done. cbn [negb when] in Hbody.
    apply Hkeep.
    apply (runs_Ok (λ f, In (DependsOnNotFound i j r) (issues f)) _ _ _ _ Hsuf).
    { apply runs_for_from. intros. apply Hgrows, grows_present. }
    replace tj' with (append (DependsOnNotFound (0 + i) (0 + j) r) tj).2 by by rewrite Hbody.
    apply append_present.
Qed.

(** *** The whole run *)

Lemma elem_of_ref_keys entities x k :
  x ∈ entities → bom_ref_of x ≫= key_of = Some k → k ∈ ref_keys entities.
Proof.
  intros Hx Hk. unfold ref_keys. apply elem_of_list_to_set, list_elem_of_omap.
  by exists x.
Qed.

(** The states between the parts of a completed run: the document stays in
    [data], [bom_refs] is empty until the components are visited, and
    [issues] only grows. *)
Lemma validate_parts document version diagnostics :
  validate_complete_cyclonedx_schema document version = Ok diagnostics →
  ∃ s1 s2 s3 s3' s4 s5 s6 s7 sf,
    (document_level_validations version (initial document) = (Ok (), s1) ∧
     metadata_validation version s1 = (Ok (), s2) ∧
     components_validation version s2 = (Ok (), s3) ∧
     metadata_component_bom_ref s3 = (Ok (), s3') ∧
     services_validation s3' = (Ok (), s4) ∧
     dependencies_validation s4 = (Ok (), s5) ∧
     compositions_validation s5 = (Ok (), s6) ∧
     vulnerabilities_validation version s6 = (Ok (), s7) ∧
     external_references_validation s7 = (Ok (), sf)) ∧
    issues sf = diagnostics ∧
    (data (locals s1) = document ∧ data (locals s2) = document ∧
     data (locals s3) = document ∧ data (locals s3') = document ∧
     data (locals s4) = document) ∧
    bom_refs (locals s2) = ∅ ∧
    (∀ y, (In y (issues s1) → In y (issues s2)) ∧ (In y (issues s2) → In y (issues s3)) ∧
          (In y (issues s3) → In y (issues s4)) ∧ (In y (issues s4) → In y (issues s5)) ∧
          (In y (issues s5) → In y diagnostics)).
Proof.
  intros (f & Hrun & Hf)%validate_Ok.
  apply validation_body_Ok in Hrun
    as (s1 & s2 & s3 & s3' & s4 & s5 & s6 & s7 & H1 & H2 & H3 & H3' & H4 & H5 & H6 & H7 & H8).
  exists s1, s2, s3, s3', s4, s5, s6, s7, f.
  split; [done|]. split; [done|].
  assert (∀ I, stable I →
            (I (initial document) → I s1) ∧ (I s1 → I s2) ∧ (I s2 → I s3) ∧
            (I s3 → I s3') ∧ (I s3' → I s4)) as Hstable.
  { intros I HI. pose proof (proj1 HI) as Hg.
    split; [apply (runs_Ok _ _ _ _ _ H1); by apply document_level_validations_grows|].
    split; [apply (runs_Ok _ _ _ _ _ H2); by apply metadata_validation_grows|].
    split; [apply (runs_Ok _ _ _ _ _ H3); by apply components_validation_stable|].
    split; [apply (runs_Ok _ _ _ _ _ H3'); by apply metadata_component_bom_ref_stable|].
    apply (runs_Ok _ _ _ _ _ H4); by apply services_validation_stable. }
  assert (∀ I, grows I → (I s4 → I s5) ∧ (I s5 → I f)) as Hgrows.
  { intros I HI.
    split; [apply (runs_Ok _ _ _ _ _ H5); by apply dependencies_validation_grows|].
    intros Hs.
    apply (runs_Ok _ _ _ _ _ H8); [by apply external_references_validation_grows|].
    apply (runs_Ok _ _ _ _ _ H7); [by apply vulnerabilities_validation_grows|].
    apply (runs_Ok _ _ _ _ _ H6); [by apply compositions_validation_grows|done]. }
  split; [|split].
  - destruct (Hstable _ (grows_data document)) as (Ha & Hb & Hc & Hd & He).
    pose proof (Ha eq_refl). naive_solver.
  - pose proof (runs_Ok _ _ _ _ _ H1
                  (document_level_validations_grows _ version (grows_bom_refs ∅)) eq_refl) as HB1.
    apply (runs_Ok _ _ _ _ _ H2 (metadata_validation_grows _ version (grows_bom_refs ∅)) HB1).
  - intros y. destruct (Hstable _ (grows_present y)) as (Ha & Hb & Hc & Hd & He).
    destruct (Hgrows _ (proj1 (grows_present y))) as (Hf5 & Hff). subst diagnostics.
    naive_solver.
Qed.

(** When the dependencies are checked, [bom_refs] holds the identifiers of
    the top-level components, of the primary component and of the
    services. *)
Lemma collected_refs version document s2 s3 s3' s4 :
  components_validation version s2 = (Ok (), s3) →
  metadata_component_bom_ref s3 = (Ok (), s3') →
  services_validation s3' = (Ok (), s4) →
  data (locals s2) = document → data (locals s3) = document →
  data (locals s3') = document → bom_refs (locals s2) = ∅ →
  bom_refs (locals s3') =
    ref_keys (items_of document "components") ∪ ref_keys (metadata_component document) ∧
  bom_refs (locals s4) = declared_refs document.
Proof.
  intros H3 H3' H4 Hd2 Hd3 Hd3' HB2.
  apply components_validation_Ok, collecting_loop_Ok in H3 as (HB3 & _).
  apply metadata_component_bom_ref_Ok in H3' as (HB3' & _).
  apply services_validation_Ok, collecting_loop_Ok in H4 as (HB4 & _).
  rewrite Hd2, HB2 in HB3. rewrite Hd3, HB3 in HB3'. rewrite Hd3', HB3' in HB4.
  unfold declared_refs. split; [rewrite HB3' | rewrite HB4]; set_solver.
Qed.

Lemma ref_keys_lookup entities k :
  k ∈ ref_keys entities →
  ∃ i x, entities !! i = Some x ∧ bom_ref_of x ≫= key_of = Some k.
Proof.
  unfold ref_keys. rewrite elem_of_list_to_set, list_elem_of_omap.
  intros (x & Hx & Hk). apply list_elem_of_lookup in Hx as [i Hi]. by exists i, x.
Qed.

(** A collecting loop reports a duplicate only for an entity whose
    identifier is in [bom_refs] when the entity is visited: it was there
    before the loop or an earlier entity of the loop declared it. *)
Lemma collecting_loop_sound validate duplicate (G : issue → Prop) items i s s' :
  for_from i items (collecting_body validate duplicate) s = (Ok (), s') →
  Forall G (issues s) →
  (∀ j x l, items !! j = Some x → validate (i + j)%nat x = Ok l → Forall G l) →
  (∀ j x r k, items !! j = Some x → bom_ref_of x = Some r → py_hash r = Ok k →
     k ∈ bom_refs (locals s) ∪ ref_keys (take j items) → G (duplicate r)) →
  Forall G (issues s').
Proof.
  revert i s. induction items as [|x items IH]; intros i s Hrun Hs Hval Hdup.
  - by injection Hrun as <-.
  - cbn [for_from] in Hrun.
    apply bind_Ok in Hrun as ([] & s1 & Hbody & Hrun).
    apply collecting_body_Ok in Hbody as (l & Hl & Hs1).
    pose proof (Hval 0%nat x l eq_refl) as Hl0. rewrite Nat.add_0_r in Hl0.
    specialize (Hl0 Hl).
    assert (Forall G (issues s1) ∧
            bom_refs (locals s1) ⊆
              (if bom_ref_of x ≫= key_of is Some k then {[k]} else ∅) ∪ bom_refs (locals s))
      as [Hs1G Hs1B].
    { destruct (bom_ref_of x) as [r|] eqn:Hr; cbn.
      - destruct Hs1 as (k & Hk & ->). rewrite (proj2 (key_of_Some r k) Hk).
        case_bool_decide as Hin; cbn.
        + split; [|set_solver]. rewrite !Forall_app. repeat split; [done..|].
          constructor; [|done]. apply (Hdup 0%nat x r k); [done..|]. set_solver.
        + split; [|set_solver]. by apply Forall_app.
      - subst s1. cbn. split; [|set_solver]. by apply Forall_app. }
    apply (IH (S i) s1 Hrun Hs1G).
    + intros j y l' Hj. replace (S i + j)%nat with (i + S j)%nat by lia. by apply Hval.
    + intros j y r k Hj Hr Hk Hin. apply (Hdup (S j) y r k); [done..|].
      cbn [take]. rewrite ref_keys_cons. set_solver.
Qed.


(** C2, amended: on a completed validation, the [ref] and every [dependsOn]
    entry of every dependency is hashable, and it gets a graph-integrity
    diagnostic exactly when it is not the bom-ref of a top-level component,
    of the metadata primary component or of a service, wherever in the
    document that entity stands.  (A bom-ref declared only by a nested
    component does not count as declared.) *)
Theorem dependency_references_checked document version diagnostics :
  validate_complete_cyclonedx_schema document version = Ok diagnostics →
  ∀ i dep, items_of document "dependencies" !! i = Some dep →
    (∀ r, py_getitem dep "ref" = Ok r →
       ∃ k, py_hash r = Ok k ∧
         (In (DependencyRefNotFound i r) diagnostics ↔ k ∉ declared_refs document)) ∧
    (∀ j r, items_of dep "dependsOn" !! j = Some r →
       ∃ k, py_hash r = Ok k ∧
         (In (DependsOnNotFound i j r) diagnostics ↔ k ∉ declared_refs document)).
Proof.
  intros (s1 & s2 & s3 & s3' & s4 & s5 & s6 & s7 & sf & Hruns & Hsf & Hdata & HB2 & Hkeep)%validate_parts
    i dep Hi.
  destruct Hruns as (H1 & H2 & H3 & H3' & H4 & H5 & H6 & H7 & H8).
  destruct Hdata as (_ & Hd2 & Hd3 & Hd3' & Hd4).
  destruct (collected_refs _ _ _ _ _ _ H3 H3' H4 Hd2 Hd3 Hd3' HB2) as [_ HB4].
  set (B := declared_refs document) in *.
  assert (∀ x, specified x = false → undeclared_in B x) as HG by (by intros []).
  assert (Forall (undeclared_in B) diagnostics) as Hsound.
  { subst diagnostics.
    apply (runs_Ok _ _ _ _ _ H8 (external_references_validation_justified _ HG)).
    apply (runs_Ok _ _ _ _ _ H7 (vulnerabilities_validation_justified _ HG version)).
    apply (runs_Ok _ _ _ _ _ H6 (compositions_validation_justified _ HG)).
    apply (runs_Ok (λ f, bom_refs (locals f) = B ∧ Forall (undeclared_in B) (issues f))
             _ _ _ _ H5 (dependencies_validation_sound B)).
    split; [done|].
    apply (runs_Ok _ _ _ _ _ H4 (services_validation_justified _ HG (λ _, I))).
    apply (runs_Ok _ _ _ _ _ H3' (metadata_component_bom_ref_justified _)).
    apply (runs_Ok _ _ _ _ _ H3 (components_validation_justified _ HG version (λ _, I))).
    apply (runs_Ok _ _ _ _ _ H2 (metadata_validation_justified _ HG version I)).
    apply (runs_Ok _ _ _ _ _ H1 (document_level_validations_justified _ HG version (λ _, I) (λ _, I) (λ _, I))).
    constructor. }
  rewrite <- Hd4 in Hi.
  destruct (dependencies_validation_complete _ _ _ _ H5 Hi) as [Href Hdep].
  rewrite HB4 in Href, Hdep.
  split.
  - intros r Hr. destruct (Href r Hr) as (k & Hk & Hcomplete).
    exists k. split; [done|]. split.
    + intros Hin. rewrite Forall_forall in Hsound.
      by apply (Hsound _ (proj2 (list_elem_of_In _ _) Hin) k).
    + intros Hnot. by apply Hkeep, Hcomplete.
  - intros j r Hj. destruct (Hdep j r Hj) as (k & Hk & Hcomplete).
    exists k. split; [done|]. split.
    + intros Hin. rewrite Forall_forall in Hsound.
      by apply (Hsound _ (proj2 (list_elem_of_In _ _) Hin) k).
    + intros Hnot. by apply Hkeep, Hcomplete.
Qed.

(** *** The version and the timestamp *)

Lemma runs_append_kept {L} (J : frame L → Prop) G E x :
  (∀ f l, J f → J (Frame (issues f ++ l) (locals f))) → G x →
  runs (λ f, J f ∧ Forall G (issues f)) E (append x).
Proof.
  intros HJ Hx. apply runs_append. intros f [Hf HG]. split; [by apply HJ|]. cbn.
  apply Forall_app. split; [done | by constructor].
Qed.

Lemma py_not_contains_true k x :
  py_not_contains k x = Ok true → py_contains k x = Ok false.
Proof.
  unfold py_not_contains. destruct (py_contains k x) as [[]|]; cbn; congruence.
Qed.

Lemma py_not_contains_false k x :
  py_not_contains k x = Ok false → py_contains k x = Ok true.
Proof.
  unfold py_not_contains. destruct (py_contains k x) as [[]|]; cbn; congruence.
Qed.

(** The diagnostics about [$schema] are produced only as the comparison of
    the version with 1.4 tells. *)
Lemma document_level_validations_schema document version :
  runs (λ f, data (locals f) = document ∧
             Forall (schema_rule document version) (issues f))
       any_exn (document_level_validations version).
Proof.
  assert (∀ x, specified x = false → schema_rule document version x) as HG
    by (by intros []).
  unfold_stages.
  apply runs_bind_gets. intros s [<- _].
  repeat lazymatch goal with
  | |- runs _ _ (append _) =>
      apply runs_append_kept; [by intros | first [by apply HG | idtac]]
  | |- _ => top_step
  end.
  - split; [done|]. split; [done|]. by apply py_not_contains_true.
  - split; [done|]. split; [done|]. eexists. split; [eassumption|].
    by apply negb_true_iff.
  - split; [done|]. split; [done|]. congruence.
Qed.

(** C3, amended: the validator refuses no version and selects its rules by
    comparing the version string it is given.  For every version string,
    recognized or not, the minimal document that declares it validates with
    no diagnostic.  On a completed validation with any version, the
    missing-schema diagnostic is present exactly when the version is at
    least 1.4 in string order and the document has no [$schema], the
    incorrect-schema diagnostic exactly when the version is at least 1.4 and
    [$schema] is not the schema address of that very version, and the
    schema-not-allowed diagnostic exactly when the version is not at least
    1.4 and the document has a [$schema]. *)
Theorem version_rules_by_comparison document version diagnostics :
  validate_complete_cyclonedx_schema (minimal_document version) version = Ok [] ∧
  (validate_complete_cyclonedx_schema document version = Ok diagnostics →
   (∀ v, In (MissingSchema v) diagnostics ↔
      v = version ∧ String.leb "1.4" version = true ∧
      py_contains "$schema" document = Ok false) ∧
   (∀ v, In (IncorrectSchema v) diagnostics ↔
      v = version ∧ String.leb "1.4" version = true ∧
      ∃ schema, py_getitem document "$schema" = Ok schema ∧
                is_str (schema_uri version) schema = false) ∧
   (∀ v, In (SchemaNotAllowed v) diagnostics ↔
      v = version ∧ String.leb "1.4" version = false ∧
      py_contains "$schema" document = Ok true)).
Proof.
  split.
  { unfold validate_complete_cyclonedx_schema, run_validation, minimal_document.
    unfold_stages. unfold bind, lift, gets.
    destruct (String.leb "1.4" version) eqn:Hv; cbn; rewrite ?Hv; cbn;
      rewrite ?String.eqb_refl; reflexivity. }
  intros (s1 & s2 & s3 & s3' & s4 & s5 & s6 & s7 & sf & Hruns & Hsf & Hdata & HB2 & Hkeep)%validate_parts.
  destruct Hruns as (H1 & H2 & H3 & H3' & H4 & H5 & H6 & H7 & H8).
  set (G := schema_rule document version).
  assert (∀ x, specified x = false → G x) as HG by (by intros []).
  assert (Forall G diagnostics) as Hsound.
  { subst diagnostics.
    apply (runs_Ok _ _ _ _ _ H8 (external_references_validation_justified _ HG)).
    apply (runs_Ok _ _ _ _ _ H7 (vulnerabilities_validation_justified _ HG version)).
    apply (runs_Ok _ _ _ _ _ H6 (compositions_validation_justified _ HG)).
    apply (runs_Ok _ _ _ _ _ H5
             (dependencies_validation_justified _ HG (λ _ _, I) (λ _ _ _, I))).
    apply (runs_Ok _ _ _ _ _ H4 (services_validation_justified _ HG (λ _, I))).
    apply (runs_Ok _ _ _ _ _ H3' (metadata_component_bom_ref_justified _)).
    apply (runs_Ok _ _ _ _ _ H3 (components_validation_justified _ HG version (λ _, I))).
    apply (runs_Ok _ _ _ _ _ H2 (metadata_validation_justified _ HG version I)).
    apply (runs_Ok _ _ _ _ _ H1 (document_level_validations_schema document version)).
    split; [done | constructor]. }
  rewrite Forall_forall in Hsound.
  assert (∀ y, In y (issues s1) → In y diagnostics) as Hkept.
  { intros y. destruct (Hkeep y). naive_solver. }
  unfold document_level_validations, read_data in H1.
  apply bind_gets_Ok in H1. cbn [initial locals data] in H1.
  apply bind_Ok in H1 as ([] & sa & _ & H1).
  apply bind_Ok in H1 as ([] & sb & _ & H1).
  apply bind_Ok in H1 as ([] & sc & Hschema & Hserial).
  assert (∀ y, In y (issues sc) → In y (issues s1)) as Hlast.
  { intros y. apply (runs_Ok (λ f, In y (issues f)) _ _ _ _ Hserial).
    repeat grows_step (proj1 (grows_present y)). }
  split; [|split]; intros v;
    (split; [intros Hin; apply (Hsound _ (proj2 (list_elem_of_In _ _) Hin))|]).
  - intros (-> & Hv & Hc). rewrite Hv in Hschema. apply Hkept, Hlast.
    apply bind_lift_Ok in Hschema as (no_schema & Hno & Hschema).
    unfold py_not_contains in Hno. rewrite Hc in Hno. injection Hno as <-.
    replace sc with (append (MissingSchema version) sb).2 by by rewrite Hschema.
    apply append_present.
  - intros (-> & Hv & schema & Hg & Hne). rewrite Hv in Hschema. apply Hkept, Hlast.
    apply bind_lift_Ok in Hschema as (no_schema & Hno & Hschema).
    unfold py_not_contains in Hno. rewrite (py_getitem_contains _ _ _ Hg) in Hno.
    injection Hno as <-. rewrite Hg in Hschema.
    apply bind_lift_Ok in Hschema as (schema' & [= <-] & Hschema).
    rewrite Hne in Hschema. cbn [negb when] in Hschema.
    replace sc with (append (IncorrectSchema version) sb).2 by by rewrite Hschema.
    apply append_present.
  - intros (-> & Hv & Hc). rewrite Hv in Hschema. apply Hkept, Hlast.
    apply bind_lift_Ok in Hschema as (has & Hhas & Hschema).
    rewrite Hc in Hhas. injection Hhas as <-. cbn [when] in Hschema.
    replace sc with (append (SchemaNotAllowed version) sb).2 by by rewrite Hschema.
    apply append_present.
Qed.

Lemma runs_extend_kept {L} (J : frame L → Prop) G E call :
  (∀ f l, J f → J (Frame (issues f ++ l) (locals f))) →
  emits G call → raises_only E call →
  runs (λ f, J f ∧ Forall G (issues f)) E (extend call).
Proof.
  intros HJ Hcall He. apply runs_extend; [done|]. intros l f Hl [Hf HG].
  split; [by apply HJ|]. cbn. apply Forall_app. split; [done | by apply Hcall].
Qed.

(** The timestamp diagnostic is produced only when [fromisoformat] rejects
    the text of [metadata["timestamp"]]. *)
Lemma metadata_validation_timestamp document version metadata ts :
  py_get document "metadata" (VDict []) = Ok metadata →
  py_getitem metadata "timestamp" = Ok (VStr ts) →
  let G := timestamp_rejected (fromisoformat_ok (str_replace_char "Z" "+00:00" ts)) in
  runs (λ f, data (locals f) = document ∧ Forall G (issues f)) any_exn
       (metadata_validation version).
Proof.
  intros Hmd Hts G.
  assert (∀ x, specified x = false → G x) as HG by (by intros []).
  unfold_stages.
  apply runs_bind_gets. intros s [-> _].
  apply runs_bind_lift; [solve [eauto with raises]|]. intros metadata' Hmd'.
  rewrite Hmd in Hmd'. injection Hmd' as <-.
  repeat lazymatch goal with
  | |- runs _ _ (append _) =>
      apply runs_append_kept; [by intros | first [by apply HG | idtac]]
  | |- runs _ _ (extend _) =>
      apply runs_extend_kept;
      [by intros | apply (emits_helper _ _ HG); solve [eauto with emits]
      | solve [eauto with raises]]
  | |- _ => top_step
  end.
  match goal with
  | H1 : py_getitem metadata "timestamp" = Ok ?t,
    H2 : fromisoformat_raises ?t = Ok ?b, H3 : ?b = true |- _ =>
      rewrite Hts in H1; injection H1 as <-; subst b; cbn in H2;
      injection H2 as H2; by apply negb_true_iff in H2
  end.
Qed.

(** C7, amended: the timestamp check accepts a string exactly when
    [datetime.fromisoformat] parses it once every [Z] is replaced by
    [+00:00]; no time zone designator is asked for.  On a completed
    validation of a document whose metadata timestamp is the string [ts],
    the invalid-timestamp diagnostic is present exactly when that parse
    fails. *)
Theorem timestamp_check_is_fromisoformat document version metadata ts diagnostics :
  validate_complete_cyclonedx_schema document version = Ok diagnostics →
  py_get document "metadata" (VDict []) = Ok metadata →
  py_getitem metadata "timestamp" = Ok (VStr ts) →
  (In InvalidTimestamp diagnostics ↔
   fromisoformat_ok (str_replace_char "Z" "+00:00" ts) = false).
Proof.
  intros (s1 & s2 & s3 & s3' & s4 & s5 & s6 & s7 & sf & Hruns & Hsf & Hdata & HB2 & Hkeep)%validate_parts
    Hmd Hts.
  destruct Hruns as (H1 & H2 & H3 & H3' & H4 & H5 & H6 & H7 & H8).
  destruct Hdata as (Hd1 & _).
  set (G := timestamp_rejected (fromisoformat_ok (str_replace_char "Z" "+00:00" ts))).
  assert (∀ x, specified x = false → G x) as HG by (by intros []).
  split.
  - intros Hin.
    assert (Forall G diagnostics) as Hsound.
    { subst diagnostics.
      apply (runs_Ok _ _ _ _ _ H8 (external_references_validation_justified _ HG)).
      apply (runs_Ok _ _ _ _ _ H7 (vulnerabilities_validation_justified _ HG version)).
      apply (runs_Ok _ _ _ _ _ H6 (compositions_validation_justified _ HG)).
      apply (runs_Ok _ _ _ _ _ H5
               (dependencies_validation_justified _ HG (λ _ _, I) (λ _ _ _, I))).
      apply (runs_Ok _ _ _ _ _ H4 (services_validation_justified _ HG (λ _, I))).
      apply (runs_Ok _ _ _ _ _ H3' (metadata_component_bom_ref_justified _)).
      apply (runs_Ok _ _ _ _ _ H3 (components_validation_justified _ HG version (λ _, I))).
      apply (runs_Ok _ _ _ _ _ H2 (metadata_validation_timestamp _ version _ _ Hmd Hts)).
      split; [done|].
      apply (runs_Ok _ _ _ _ _ H1 (document_level_validations_justified _ HG version (λ _, I) (λ _, I) (λ _, I))).
      constructor. }
    rewrite Forall_forall in Hsound.
    apply (Hsound _ (proj2 (list_elem_of_In _ _) Hin)).
  - intros Hrej.
    assert (In InvalidTimestamp (issues s2)) as Hin.
    { unfold metadata_validation, read_data in H2.
      apply bind_gets_Ok in H2. rewrite Hd1 in H2.
      apply bind_lift_Ok in H2 as (metadata' & Hmd' & H2).
      rewrite Hmd in Hmd'. injection Hmd' as <-.
      apply bind_Ok in H2 as ([] & sa & Hstamp & Hrest).
      apply (runs_Ok (λ f, In InvalidTimestamp (issues f)) _ _ _ _ Hrest).
      { repeat grows_step (proj1 (grows_present InvalidTimestamp)). }
      rewrite (py_getitem_contains _ _ _ Hts) in Hstamp.
      apply bind_lift_Ok in Hstamp as (has & [= <-] & Hstamp). cbn [when] in Hstamp.
      rewrite Hts in Hstamp.
      apply bind_lift_Ok in Hstamp as (t & [= <-] & Hstamp).
      cbn [fromisoformat_raises py_replace_Z result_bind] in Hstamp. rewrite Hrej in Hstamp.
      apply bind_lift_Ok in Hstamp as (invalid & [= <-] & Hstamp). cbn [when] in Hstamp.
      replace sa with (append InvalidTimestamp s1).2 by by rewrite Hstamp.
      apply append_present. }
    destruct (Hkeep InvalidTimestamp). naive_solver.
Qed.

(** *** Two documents *)

(** C4, amended: validating the scenario document as a 1.3 document yields
    exactly two diagnostics: the metadata component and the component
    [components[0]], the one whose bom-ref is lib1, each lack the [version]
    field that 1.3 requires. *)
Theorem scenario_1_3_diagnostics :
  validate_complete_cyclonedx_schema scenario_1_3 "1.3" =
  Ok [MissingVersion13 "metadata.component"; MissingVersion13 "components[0]"].
Proof. vm_compute. reflexivity. Qed.

(** C8 fails on the code: a metadata timestamp that is not a string makes
    the validator raise [AttributeError], which the handler for
    [ValueError] does not catch; a [purl] that is not a string raises
    [AttributeError] too, and a tool entry that is not a container raises
    [TypeError]. *)
Theorem bad_shapes_raise :
  validate_complete_cyclonedx_schema (with_timestamp (VInt 5)) "1.3" =
    Raise AttributeError ∧
  validate_complete_cyclonedx_schema (with_purl (VInt 5)) "1.3" =
    Raise AttributeError ∧
  validate_complete_cyclonedx_schema (with_tool (VInt 5)) "1.3" =
    Raise TypeError.
Proof. repeat split; vm_compute; reflexivity. Qed.

(** ** Further properties of the validators *)

(** *** The patterns *)

Lemma at_end_spec s : at_end s = true ↔ s = [] ∨ s = ["010"%char].
Proof.
  destruct s as [|c [|d s]]; cbn; [naive_solver| |naive_solver].
  rewrite Ascii.eqb_eq. naive_solver.
Qed.

(** A class repeated [n] times matches the first [n] characters. *)
Lemma re_items_exactly cls n rest s :
  re_items ((cls, Exactly n) :: rest) s = true ↔
  ∃ a b, s = a ++ b ∧ length a = n ∧ forallb cls a = true ∧ re_items rest b = true.
Proof.
  cbn [re_items]. rewrite !andb_true_iff, Nat.leb_le. split.
  - intros [[Hn Ha] Hb]. exists (take n s), (drop n s).
    rewrite take_drop, length_take. repeat split; [lia|done|done].
  - intros (a & b & -> & <- & Ha & Hb).
    rewrite take_app_length, drop_app_length, length_app. repeat split; [lia|done|done].
Qed.

(** A class repeated once or more matches some non-empty prefix. *)
Lemma re_items_plus cls rest s :
  re_items ((cls, OneOrMore) :: rest) s = true ↔
  ∃ a b, s = a ++ b ∧ a ≠ [] ∧ forallb cls a = true ∧ re_items rest b = true.
Proof.
  cbn [re_items]. rewrite existsb_exists. split.
  - intros (k & Hk & [Ha Hb]%andb_true_iff). apply in_seq in Hk.
    exists (take k s), (drop k s). rewrite take_drop. repeat split; [|done..].
    intros Hnil. apply (f_equal length) in Hnil. rewrite length_take in Hnil.
    cbn in Hnil. lia.
  - intros (a & b & -> & Hne & Ha & Hb). exists (length a).
    rewrite take_app_length, drop_app_length, Ha, Hb. split; [|done].
    apply in_seq. rewrite length_app. destruct a; [done|cbn; lia].
Qed.

Lemma re_items_lit c rest s :
  re_items (lit c :: rest) s = true ↔ ∃ b, s = c :: b ∧ re_items rest b = true.
Proof.
  unfold lit. rewrite re_items_exactly. split.
  - intros (a & b & -> & Hlen & Ha & Hb). destruct a as [|d [|e a]]; try done.
    cbn in Ha. rewrite andb_true_r in Ha. apply Ascii.eqb_eq in Ha as ->. by exists b.
  - intros (b & -> & Hb). exists [c], b. cbn. by rewrite Ascii.eqb_refl.
Qed.

(** X1: for a hash object whose [alg] is one of the twelve names and whose
    [content] is a string, validation returns no diagnostic or exactly the
    invalid-content one, and it returns none exactly when the content is
    the table's number of hexadecimal digits, alone or followed by one
    newline (the [$] of the patterns matches before a final newline). *)
Theorem hash_content_accepted entries path name n c :
  dict_lookup "alg" entries = Some (VStr name) →
  dict_lookup "content" entries = Some (VStr c) →
  In (name, n) hash_lengths →
  (validate_hash_object (VDict entries) path = Ok [] ∨
   validate_hash_object (VDict entries) path = Ok [InvalidHashContent path (VStr name)]) ∧
  (validate_hash_object (VDict entries) path = Ok [] ↔
   ∃ digits, length digits = n ∧ forallb is_hex digits = true ∧
     (str_chars c = digits ∨ str_chars c = digits ++ ["010"%char])).
Proof.
  intros Ha Hc Hin. destruct (patterns_table _ _ Hin) as [Hvalid Hpat].
  assert (validate_hash_object (VDict entries) path =
          Ok (if re_items (hex_pattern n) (str_chars c) then []
              else [InvalidHashContent path (VStr name)])) as ->.
  { unfold validate_hash_object, returning_issues, bind, lift.
    rewrite (hash_fields_present _ _ _ Ha Hc). cbn [py_getitem].
    rewrite Ha, Hc, Hvalid. cbn [negb]. rewrite Hpat. cbn [re_match].
    by destruct (re_items (hex_pattern n) (str_chars c)). }
  split; [destruct (re_items _ _); auto|].
  assert (re_items (hex_pattern n) (str_chars c) = true ↔
          ∃ digits, length digits = n ∧ forallb is_hex digits = true ∧
            (str_chars c = digits ∨ str_chars c = digits ++ ["010"%char])) as <-.
  { unfold hex_pattern. rewrite re_items_exactly. cbn [re_items]. split.
    - intros (a & b & -> & Hlen & Hhex & [->| ->]%at_end_spec);
        exists a; rewrite ?app_nil_r; auto.
    - intros (digits & Hlen & Hhex & [->| ->]);
        [exists digits, [] | exists digits, ["010"%char]]; by rewrite ?app_nil_r. }
  destruct (re_items _ _); naive_solver.
Qed.

(** X2: a contact without [email] gets no diagnostic; a contact whose
    [email] is a string gets none or exactly the invalid-email one, and
    none exactly when the string is a local part, an at sign, a domain, a
    dot and a last part, the three parts being non-empty and free of at
    signs. *)
Theorem email_shape entries path :
  (dict_lookup "email" entries = None →
     validate_organizational_contact (VDict entries) path = Ok []) ∧
  (∀ s, dict_lookup "email" entries = Some (VStr s) →
     (validate_organizational_contact (VDict entries) path = Ok [] ∨
      validate_organizational_contact (VDict entries) path = Ok [InvalidEmail path]) ∧
     (validate_organizational_contact (VDict entries) path = Ok [] ↔
      ∃ local domain tld,
        str_chars s = local ++ "@"%char :: domain ++ "."%char :: tld ∧
        local ≠ [] ∧ domain ≠ [] ∧ tld ≠ [] ∧
        ("@"%char ∉ local) ∧ ("@"%char ∉ domain) ∧ ("@"%char ∉ tld))).
Proof.
  split.
  - intros He. unfold validate_organizational_contact, returning_issues, bind, lift.
    cbn [py_contains]. by rewrite He.
  - intros s He.
    assert (validate_organizational_contact (VDict entries) path =
            Ok (if re_items email_pattern (str_chars s) then [] else [InvalidEmail path]))
      as ->.
    { unfold validate_organizational_contact, returning_issues, bind, lift.
      cbn [py_contains py_getitem]. rewrite He. cbn [when re_match].
      by destruct (re_items email_pattern (str_chars s)). }
    split; [destruct (re_items _ _); auto|].
    assert (∀ l, forallb not_at l = true ↔ "@"%char ∉ l) as Hnot.
    { intros l. unfold not_at. induction l as [|x l IH]; cbn; [set_solver|].
      rewrite andb_true_iff, IH, negb_true_iff, Ascii.eqb_neq, not_elem_of_cons.
      naive_solver. }
    assert (re_items email_pattern (str_chars s) = true ↔
      ∃ local domain tld,
        str_chars s = local ++ "@"%char :: domain ++ "."%char :: tld ∧
        local ≠ [] ∧ domain ≠ [] ∧ tld ≠ [] ∧
        ("@"%char ∉ local) ∧ ("@"%char ∉ domain) ∧ ("@"%char ∉ tld)) as <-.
    { unfold email_pattern. rewrite re_items_plus. split.
      - intros (a & b & -> & Ha & Hca & (b1 & -> & (d & b2 & -> & Hd & Hcd &
                 (b3 & -> & (t & b4 & -> & Ht & Hct & Hend)%re_items_plus)%re_items_lit
               )%re_items_plus)%re_items_lit).
        cbn [re_items] in Hend. apply at_end_spec in Hend.
        exists a, d, (t ++ b4). repeat split; try done.
        + by destruct t.
        + by apply Hnot.
        + by apply Hnot.
        + apply Hnot. rewrite forallb_app, Hct. by destruct Hend as [->| ->].
      - intros (a & d & t & -> & Ha & Hd & Ht & Hca & Hcd & Hct).
        exists a, ("@"%char :: d ++ "."%char :: t). repeat split; [done|by apply Hnot|].
        apply re_items_lit. eexists; split; [done|].
        apply re_items_plus. exists d, ("."%char :: t). repeat split; [done|by apply Hnot|].
        apply re_items_lit. eexists; split; [done|].
        apply re_items_plus. exists t, []. rewrite app_nil_r.
        repeat split; [done|by apply Hnot]. }
    destruct (re_items _ _); naive_solver.
Qed.

(** *** Paths *)

Lemma str_chars_app a b : str_chars (a +:+ b) = str_chars a ++ str_chars b.
Proof.
  induction a as [|c a IH]; [done|].
  change (str_chars (String c (a +:+ b)) = c :: str_chars a ++ str_chars b).
  cbn. by rewrite IH.
Qed.

Lemma str_chars_inj a b : str_chars a = str_chars b → a = b.
Proof.
  revert b. induction a as [|c a IH]; intros [|d b]; cbn; try done.
  intros [= -> H]. by rewrite (IH _ H).
Qed.

Lemma string_app_assoc a b c : (a +:+ b) +:+ c = a +:+ (b +:+ c).
Proof. apply str_chars_inj. by rewrite !str_chars_app, app_assoc. Qed.

(** The index can be read back from an indexed path. *)
Lemma indexed_inj prefix i j : indexed prefix i = indexed prefix j → i = j.
Proof.
  unfold indexed. intros H. do 2 apply String.app_inj in H.
  apply (f_equal str_chars) in H. rewrite !str_chars_app in H.
  apply app_inv_tail, str_chars_inj in H. by apply pretty_nat_inj in H.
Qed.

(** *** Loops that only report *)

(** A loop whose iterations each complete and add their own diagnostics
    adds them all, in the order of the items. *)
Lemma for_from_collect {L} (body : nat → value → M (frame L) unit) (out : nat → value → list issue) items i s :
  (∀ j x s, items !! j = Some x →
     body (i + j)%nat x s = (Ok (), Frame (issues s ++ out (i + j)%nat x) (locals s))) →
  for_from i items body s =
    (Ok (), Frame (issues s ++ concat (imap (λ j x, out (i + j)%nat x) items)) (locals s)).
Proof.
  revert i s. induction items as [|x items IH]; intros i s Hbody.
  - cbn. rewrite app_nil_r. by destruct s.
  - cbn [for_from]. unfold bind.
    pose proof (Hbody 0%nat x s eq_refl) as H0. rewrite Nat.add_0_r in H0. rewrite H0.
    rewrite IH.
    + cbn [issues locals]. rewrite imap_cons. cbn [concat].
      rewrite Nat.add_0_r, <- app_assoc.
      assert (imap (λ j y, out (S i + j)%nat y) items =
              imap ((λ j y, out (i + j)%nat y) ∘ S) items) as ->; [|done].
      apply imap_ext. intros j y _. cbn. f_equal. lia.
    + intros j y s' Hj. replace (S i + j)%nat with (i + S j)%nat by lia. by apply Hbody.
Qed.

Lemma In_collected {A} (out : nat → A → list issue) (items : list A) y :
  In y (concat (imap out items)) ↔ ∃ j x, items !! j = Some x ∧ In y (out j x).
Proof.
  rewrite in_concat. split.
  - intros (l & Hl & Hy). apply list_elem_of_In, elem_of_lookup_imap in Hl as (j & x & -> & Hj).
    by exists j, x.
  - intros (j & x & Hj & Hy). exists (out j x). split; [|done].
    apply list_elem_of_In. by apply elem_of_lookup_imap_2.
Qed.

(** X3: on a list of property objects, validation returns; it reports a
    missing name at index [i] exactly when the property at [i] has no
    [name], a missing value at [i] exactly when it has no [value], and
    nothing else. *)
Theorem properties_missing_fields props path :
  Forall (λ p, is_dict p = true) props →
  ∃ diagnostics, validate_properties_array (VList props) path = Ok diagnostics ∧
    (∀ i, In (PropertyMissingName (indexed path i)) diagnostics ↔
          ∃ p, props !! i = Some p ∧ py_contains "name" p = Ok false) ∧
    (∀ i, In (PropertyMissingValue (indexed path i)) diagnostics ↔
          ∃ p, props !! i = Some p ∧ py_contains "value" p = Ok false) ∧
    (∀ x, In x diagnostics →
          ∃ i, (i < length props)%nat ∧
               (x = PropertyMissingName (indexed path i) ∨
                x = PropertyMissingValue (indexed path i))).
Proof.
  intros Hdicts.
  set (out := λ (i : nat) (p : value),
    (if py_contains "name" p is Ok false then [PropertyMissingName (indexed path i)] else []) ++
    (if py_contains "value" p is Ok false then [PropertyMissingValue (indexed path i)] else [])).
  exists (concat (imap out props)). split; [|split; [|split]].
  - unfold validate_properties_array, returning_issues, for_enumerate, bind at 1, lift.
    cbn [py_iter].
    rewrite (for_from_collect _ out); [done|].
    intros j p s Hj. rewrite Forall_forall in Hdicts.
    specialize (Hdicts p (proj2 (list_elem_of_lookup _ _) (ex_intro _ j Hj))).
    destruct p as [| | | | |entries]; try discriminate Hdicts.
    subst out. unfold bind, lift, py_not_contains, append, modify, skip, ret. cbn.
    destruct s as [l u].
    destruct (dict_lookup "name" entries), (dict_lookup "value" entries); cbn;
      by rewrite ?app_nil_r, <- ?app_assoc.
  - intros i. rewrite In_collected. subst out. split.
    + intros (j & p & Hj & [Hin|Hin]%in_app_iff).
      * destruct (py_contains "name" p) as [[]|] eqn:Hp; cbn in Hin; try done.
        destruct Hin as [[= ->%indexed_inj]|[]]. by exists p.
      * destruct (py_contains "value" p) as [[]|]; cbn in Hin; try done.
        by destruct Hin as [|[]].
    + intros (p & Hp & Hc). exists i, p. split; [done|]. rewrite Hc.
      apply in_or_app. left. by left.
  - intros i. rewrite In_collected. subst out. split.
    + intros (j & p & Hj & [Hin|Hin]%in_app_iff).
      * destruct (py_contains "name" p) as [[]|]; cbn in Hin; try done.
        by destruct Hin as [|[]].
      * destruct (py_contains "value" p) as [[]|] eqn:Hp; cbn in Hin; try done.
        destruct Hin as [[= ->%indexed_inj]|[]]. by exists p.
    + intros (p & Hp & Hc). exists i, p. split; [done|]. rewrite Hc.
      apply in_or_app. right. by left.
  - intros x (j & p & Hj & Hin)%In_collected. exists j.
    split; [by eapply lookup_lt_Some|]. subst out.
    apply in_app_iff in Hin as [Hin|Hin].
    + destruct (py_contains "name" p) as [[]|]; cbn in Hin; naive_solver.
    + destruct (py_contains "value" p) as [[]|]; cbn in Hin; naive_solver.
Qed.

(** *** Where a diagnostic points *)

Lemma prefix_spec a b : String.prefix a b = true ↔ ∃ c, b = a +:+ c.
Proof.
  revert b. induction a as [|x a IH]; intros b.
  - destruct b; cbn; (split; [intros _; by eexists | done]).
  - destruct b as [|y b]; cbn.
    + split; [done | by intros [c Hc]].
    + destruct (ascii_dec x y) as [->|Hne].
      * rewrite IH. split; intros [c Hc]; exists c.
        -- by rewrite Hc.
        -- change (String y b = String y (a +:+ c)) in Hc. by injection Hc.
      * split; [done|]. intros [c Hc].
        change (String y b = String x (a +:+ c)) in Hc. by injection Hc as -> _.
Qed.

Lemma prefix_refl a : String.prefix a a = true.
Proof. induction a as [|x a IH]; cbn; [done|]. by destruct (ascii_dec x x). Qed.

Lemma prefix_trans a b c :
  String.prefix a b = true → String.prefix b c = true → String.prefix a c = true.
Proof.
  rewrite !prefix_spec. intros [x ->] [y ->]. exists (x +:+ y).
  by rewrite string_app_assoc.
Qed.

Lemma located_below p q x :
  String.prefix p q = true → located q x = true → located p x = true.
Proof.
  unfold located. destruct (issue_path x) as [r|]; [|done].
  intros Hpq Hqr. by eapply prefix_trans.
Qed.

Lemma emits_located_below p q call :
  emits (λ x, located q x = true) call → String.prefix p q = true →
  emits (λ x, located p x = true) call.
Proof.
  intros Hcall Hpq l Hl. eapply Forall_impl; [by apply Hcall|].
  intros x. by apply located_below.
Qed.

Ltac solve_prefix :=
  first [ apply prefix_refl
        | apply prefix_spec; unfold indexed; rewrite ?string_app_assoc;
          eexists; reflexivity ].

Create HintDb located.

Ltac located_step :=
  lazymatch goal with
  | |- runs _ _ (append _) =>
      apply runs_append_Forall; unfold located; cbn [issue_path]; solve_prefix
  | |- runs _ _ (extend _) =>
      apply runs_extend_Forall;
      [ eapply emits_located_below; [solve [eauto with located] | solve_prefix]
      | solve [eauto with raises] ]
  | |- _ => runs_step
  end.

Ltac located_walk :=
  apply (returning_issues_runs _ any_exn); repeat located_step.

Lemma validate_organizational_contact_located contact path :
  emits (λ x, located path x = true) (validate_organizational_contact contact path).
Proof. located_walk. Qed.
Hint Resolve validate_organizational_contact_located : located.

Lemma validate_organizational_entity_located entity path :
  emits (λ x, located path x = true) (validate_organizational_entity entity path).
Proof. located_walk. Qed.
Hint Resolve validate_organizational_entity_located : located.

Lemma validate_properties_array_located properties path :
  emits (λ x, located path x = true) (validate_properties_array properties path).
Proof. located_walk. Qed.
Hint Resolve validate_properties_array_located : located.

Lemma validate_hash_object_located hash_obj path :
  emits (λ x, located path x = true) (validate_hash_object hash_obj path).
Proof. located_walk. Qed.
Hint Resolve validate_hash_object_located : located.

Lemma validate_external_reference_located ref path :
  emits (λ x, located path x = true) (validate_external_reference ref path).
Proof. located_walk. Qed.
Hint Resolve validate_external_reference_located : located.

Lemma validate_license_choice_located license_choice path :
  emits (λ x, located path x = true) (validate_license_choice license_choice path).
Proof. located_walk. Qed.
Hint Resolve validate_license_choice_located : located.

Lemma validate_pedigree_located pedigree path :
  emits (λ x, located path x = true) (validate_pedigree pedigree path).
Proof. located_walk. Qed.
Hint Resolve validate_pedigree_located : located.

Lemma validate_evidence_located evidence path version :
  emits (λ x, located path x = true) (validate_evidence evidence path version).
Proof. located_walk. Qed.
Hint Resolve validate_evidence_located : located.

Lemma validate_service_structure_located service path :
  emits (λ x, located path x = true) (validate_service_structure service path).
Proof. located_walk. Qed.
Hint Resolve validate_service_structure_located : located.

Lemma validate_component_structure_body_located self component path version :
  (∀ nested q, emits (λ x, located q x = true) (self nested q version)) →
  emits (λ x, located path x = true)
        (validate_component_structure_body self component path version).
Proof. intros Hself. located_walk. Qed.

Lemma validate_component_structure_fuel_located fuel component path version :
  emits (λ x, located path x = true)
        (validate_component_structure_fuel fuel component path version).
Proof.
  revert component path. induction fuel as [|fuel IH]; intros component path.
  - by intros l.
  - cbn [validate_component_structure_fuel].
    by apply validate_component_structure_body_located.
Qed.

(** X4: every diagnostic that the validation of a component returns
    carries a path that starts with the path the component was validated
    under, at every depth of nesting and through every helper. *)
Theorem component_diagnostics_located component path version diagnostics :
  validate_component_structure component path version = Ok diagnostics →
  Forall (λ x, located path x = true) diagnostics.
Proof. apply validate_component_structure_fuel_located. Qed.

Lemma string_length_app a b :
  String.length (a +:+ b) = (String.length a + String.length b)%nat.
Proof.
  induction a as [|c a IH]; [done|].
  change (S (String.length (a +:+ b)) = S (String.length a + String.length b)).
  by rewrite IH.
Qed.

Lemma prefix_length a b :
  String.prefix a b = true → (String.length a ≤ String.length b)%nat.
Proof. intros [c ->]%prefix_spec. rewrite string_length_app. lia. Qed.

(** A diagnostic located below a longer path does not carry [path]. *)
Lemma located_elsewhere path q x :
  located q x = true → (String.length path < String.length q)%nat →
  issue_path x ≠ Some path.
Proof.
  unfold located. destruct (issue_path x) as [p|]; [|done].
  intros Hq%prefix_length Hlen [= ->]. lia.
Qed.

Lemma emits_elsewhere path q (P : issue → Prop) call :
  emits (λ x, located q x = true) call →
  (String.length path < String.length q)%nat →
  (∀ x, issue_path x ≠ Some path → P x) →
  emits P call.
Proof.
  intros Hcall Hlen HP l Hl. eapply Forall_impl; [by apply Hcall|].
  intros x Hx. apply HP. exact (located_elsewhere _ _ _ Hx Hlen).
Qed.

Lemma validate_component_structure_located component path version :
  emits (λ x, located path x = true)
        (validate_component_structure component path version).
Proof. apply validate_component_structure_fuel_located. Qed.
Hint Resolve validate_component_structure_located : located.

Ltac solve_longer :=
  unfold indexed; rewrite ?string_length_app; cbn [String.length]; lia.

Ltac own_step Helse :=
  lazymatch goal with
  | |- runs _ _ (append _) => apply runs_append_Forall; first [exact I | idtac]
  | |- runs _ _ (extend _) =>
      apply runs_extend_Forall;
      [ eapply emits_elsewhere; [solve [eauto with located] | | exact Helse];
        solve_longer
      | solve [eauto with raises] ]
  | |- _ => runs_step
  end.

(** Diagnostics already reported stay reported. *)
Ltac kept_step :=
  lazymatch goal with
  | |- runs _ _ (append _) => apply runs_append; intros; cbn; apply in_or_app; by left
  | |- runs _ _ (extend _) =>
      apply runs_extend;
      [solve [eauto with raises] | intros; cbn; apply in_or_app; by left]
  | |- _ => runs_step
  end.

(** X5: on a completed validation of a component under [path], the
    missing-type diagnostic at [path] is present exactly when the component
    has no [type], the missing-name diagnostic at [path] exactly when it
    has no [name], and the missing-version diagnostic at [path] exactly
    when the version is 1.3 and the component has no [version]: what the
    nested components and the helpers report lies strictly below
    [path]. *)
Theorem component_required_fields component path version diagnostics :
  validate_component_structure component path version = Ok diagnostics →
  (In (MissingType path) diagnostics ↔ py_contains "type" component = Ok false) ∧
  (In (MissingName path) diagnostics ↔ py_contains "name" component = Ok false) ∧
  (In (MissingVersion13 path) diagnostics ↔
     version = "1.3" ∧ py_contains "version" component = Ok false).
Proof.
  rewrite validate_component_structure_unfold. intros Hrun.
  set (P := λ x : issue,
    match x with
    | MissingType p => p = path → py_contains "type" component = Ok false
    | MissingName p => p = path → py_contains "name" component = Ok false
    | MissingVersion13 p =>
        p = path → version = "1.3" ∧ py_contains "version" component = Ok false
    | _ => True
    end).
  assert (∀ x, issue_path x ≠ Some path → P x) as Helse.
  { intros [] Hx; unfold P; try exact I; intros ->; by destruct Hx. }
  assert (Forall P diagnostics) as Hsound.
  { revert diagnostics Hrun.
    apply (returning_issues_runs P any_exn). repeat own_step Helse.
    - intros _. by apply py_not_contains_true.
    - intros _. subst. by apply py_not_contains_true.
    - intros _. subst.
      match goal with
      | H : py_and (Ok (String.eqb version "1.3")) _ = Ok _ |- _ =>
          unfold py_and in H; cbn in H;
          destruct (String.eqb version "1.3") eqn:Hv; [|congruence];
          apply String.eqb_eq in Hv; subst; split; [done|];
          by apply py_not_contains_true
      end. }
  rewrite Forall_forall in Hsound.
  unfold validate_component_structure_body in Hrun.
  apply returning_issues_Ok in Hrun as (f & Hbody & <-).
  apply bind_Ok in Hbody as ([] & s1 & H1 & Hbody).
  apply bind_Ok in Hbody as ([] & s2 & H2 & Hbody).
  apply bind_Ok in Hbody as ([] & s3 & H3 & Hrest).
  assert (∀ y, In y (issues s3) → In y (issues f)) as K3.
  { intros y. apply (runs_Ok (λ f, In y (issues f)) _ _ _ _ Hrest). repeat kept_step. }
  assert (∀ y, In y (issues s2) → In y (issues s3)) as K2.
  { intros y. apply (runs_Ok (λ f, In y (issues f)) _ _ _ _ H3). repeat kept_step. }
  assert (∀ y, In y (issues s1) → In y (issues s2)) as K1.
  { intros y. apply (runs_Ok (λ f, In y (issues f)) _ _ _ _ H2). repeat kept_step. }
  split; [|split];
    (split; [intros Hin; by apply (Hsound _ (proj2 (list_elem_of_In _ _) Hin))|]).
  - intros Hc. apply K3, K2, K1.
    apply bind_lift_Ok in H1 as (no_type & Hno & H1).
    unfold py_not_contains in Hno. rewrite Hc in Hno. injection Hno as <-.
    replace s1 with (append (MissingType path) (Frame [] ())).2 by by rewrite H1.
    apply append_present.
  - intros Hc. apply K3, K2.
    apply bind_lift_Ok in H2 as (no_name & Hno & H2).
    unfold py_not_contains in Hno. rewrite Hc in Hno. injection Hno as <-.
    cbn [when] in H2.
    replace s2 with (append (MissingName path) s1).2 by by rewrite H2.
    apply append_present.
  - intros [-> Hc]. apply K3.
    apply bind_lift_Ok in H3 as (no_version & Hno & H3).
    unfold py_and, py_not_contains in Hno. rewrite Hc in Hno. injection Hno as <-.
    cbn [when] in H3.
    replace s3 with (append (MissingVersion13 path) s2).2 by by rewrite H3.
    apply append_present.
Qed.

End Properties.

(** ** The store

    The validator creates objects and changes the ones it created; the
    objects that were in the store when it was called stay as they were. *)

Section StoreProperties.
Context {lib : PythonLib}.
Import Store.

Lemma kept_refl h : kept h h.
Proof. by intros a o. Qed.

Lemma kept_fresh h0 h : kept h0 h → h0 !! length h = None.
Proof.
  intros Hk. destruct (h0 !! length h) as [o|] eqn:Ho; [|done].
  apply Hk in Ho. apply lookup_lt_Some in Ho. lia.
Qed.

Lemma kept_alloc h0 h o : kept h0 h → kept h0 (h ++ [o]).
Proof. intros Hk a o' Ha. apply lookup_app_l_Some. by apply Hk. Qed.

Lemma kept_write h0 h a o : h0 !! a = None → kept h0 h → kept h0 (<[a:=o]> h).
Proof.
  intros Ha Hk b o' Hb. rewrite list_lookup_insert_ne; [by apply Hk|].
  intros ->. by rewrite Ha in Hb.
Qed.

Section Kept.
Context (h0 : store).

Lemma runs_reads {A} (f : store → result A) : runs (kept h0) any_exn (reads f).
Proof. intros h Hh. split; [done | by intros e]. Qed.

Lemma runs_alloc {B} o (k : nat → M store B) :
  (∀ a, h0 !! a = None → runs (kept h0) any_exn (k a)) →
  runs (kept h0) any_exn (bind (alloc o) k).
Proof.
  intros Hk h Hh. unfold bind, alloc.
  apply (Hk (length h) (kept_fresh _ _ Hh)). by apply kept_alloc.
Qed.

Lemma runs_py_get_new x k default : runs (kept h0) any_exn (py_get_new x k default).
Proof.
  intros h Hh. unfold py_get_new.
  split; [|by intros e].
  destruct x; try done. destruct (h !! a) as [[]|]; try done. cbn. by apply kept_alloc.
Qed.

Lemma runs_store_append issues x :
  h0 !! issues = None → runs (kept h0) any_exn (append issues x).
Proof.
  intros Hi h Hh. unfold append. split; [|by intros e].
  destruct (h !! issues) as [[]|]; try done. cbn. by apply kept_write.
Qed.

Lemma runs_store_extend issues call :
  h0 !! issues = None → runs (kept h0) any_exn call →
  runs (kept h0) any_exn (extend issues call).
Proof.
  intros Hi Hcall. unfold extend. apply runs_bind; [done|]. intros returned h Hh.
  split; [|by intros e].
  destruct (h !! returned) as [[]|]; try done.
  destruct (h !! issues) as [[]|]; try done. cbn. by apply kept_write.
Qed.

Lemma runs_bom_refs_add bom_refs x :
  h0 !! bom_refs = None → runs (kept h0) any_exn (bom_refs_add bom_refs x).
Proof.
  intros Hb. unfold bom_refs_add. apply runs_bind_lift; [apply raises_only_any|].
  intros k _ h Hh. split; [|by intros e].
  destruct (h !! bom_refs) as [[]|]; try done. cbn. by apply kept_write.
Qed.

Lemma runs_store_for_from (body : nat → ref_value → M store unit) items i :
  (∀ j x, runs (kept h0) any_exn (body j x)) →
  runs (kept h0) any_exn (Store.for_from i items body).
Proof.
  intros Hbody. revert i. induction items as [|x items IH]; intros i; [apply runs_skip|].
  cbn [Store.for_from]. apply runs_bind; [apply Hbody|]. intros _. apply IH.
Qed.

Lemma runs_store_for_enumerate xs (body : nat → ref_value → M store unit) :
  (∀ j x, runs (kept h0) any_exn (body j x)) →
  runs (kept h0) any_exn (Store.for_enumerate xs body).
Proof.
  intros Hbody. unfold Store.for_enumerate. apply runs_bind; [apply runs_reads|].
  intros items. by apply runs_store_for_from.
Qed.

Lemma runs_py_any_contains ops x : runs (kept h0) any_exn (Store.py_any_contains ops x).
Proof.
  induction ops as [|op ops IH]; cbn; [apply runs_ret|].
  apply runs_bind; [apply runs_reads|]. intros []; [apply runs_ret | done].
Qed.

Lemma runs_py_all_contains keys x : runs (kept h0) any_exn (Store.py_all_contains keys x).
Proof.
  induction keys as [|k keys IH]; cbn; [apply runs_ret|].
  apply runs_bind; [apply runs_reads|]. intros []; [done | apply runs_ret].
Qed.

End Kept.

Create HintDb kept.

(** One step through a statement over the store. *)
Ltac store_step :=
  lazymatch goal with
  | |- runs _ _ (bind (alloc _) _) => apply runs_alloc; intros ? ?
  | |- runs _ _ (Store.append _ _) => apply runs_store_append; assumption
  | |- runs _ _ (Store.extend _ _) =>
      apply runs_store_extend; [assumption | solve [eauto with kept]]
  | |- runs _ _ (bom_refs_add _ _) => apply runs_bom_refs_add; assumption
  | |- runs _ _ (bom_refs_contains _ _) => unfold bom_refs_contains
  | |- runs _ _ (reads _) => apply runs_reads
  | |- runs _ _ (py_get_new _ _ _) => apply runs_py_get_new
  | |- runs _ _ (Store.py_contains _ _) => apply runs_reads
  | |- runs _ _ (Store.py_not_contains _ _) => unfold Store.py_not_contains
  | |- runs _ _ (Store.py_getitem _ _) => apply runs_reads
  | |- runs _ _ (Store.py_get _ _ _) => apply runs_reads
  | |- runs _ _ (Store.py_iter _) => apply runs_reads
  | |- runs _ _ (Store.is_dict _) => apply runs_reads
  | |- runs _ _ (Store.is_list _) => apply runs_reads
  | |- runs _ _ (shown _) => apply runs_reads
  | |- runs _ _ (Store.py_or _ _) => unfold Store.py_or
  | |- runs _ _ (Store.py_and _ _) => unfold Store.py_and
  | |- runs _ _ (Store.py_any_contains _ _) => apply runs_py_any_contains
  | |- runs _ _ (Store.py_all_contains _ _) => apply runs_py_all_contains
  | |- runs _ _ (Store.for_enumerate _ _) => apply runs_store_for_enumerate; intros ? ?
  | |- _ => runs_step
  end.

Lemma validate_organizational_contact_kept h0 contact path :
  runs (kept h0) any_exn (Store.validate_organizational_contact contact path).
Proof. unfold Store.validate_organizational_contact. repeat store_step. Qed.
Hint Resolve validate_organizational_contact_kept : kept.

Lemma validate_organizational_entity_kept h0 entity path :
  runs (kept h0) any_exn (Store.validate_organizational_entity entity path).
Proof. unfold Store.validate_organizational_entity. repeat store_step. Qed.
Hint Resolve validate_organizational_entity_kept : kept.

Lemma validate_properties_array_kept h0 properties path :
  runs (kept h0) any_exn (Store.validate_properties_array properties path).
Proof. unfold Store.validate_properties_array. repeat store_step. Qed.
Hint Resolve validate_properties_array_kept : kept.

Lemma validate_hash_object_kept h0 hash_obj path :
  runs (kept h0) any_exn (Store.validate_hash_object hash_obj path).
Proof. unfold Store.validate_hash_object. repeat store_step. Qed.
Hint Resolve validate_hash_object_kept : kept.

Lemma validate_external_reference_kept h0 ref path :
  runs (kept h0) any_exn (Store.validate_external_reference ref path).
Proof. unfold Store.validate_external_reference. repeat store_step. Qed.
Hint Resolve validate_external_reference_kept : kept.

Lemma validate_license_choice_kept h0 license_choice path :
  runs (kept h0) any_exn (Store.validate_license_choice license_choice path).
Proof. unfold Store.validate_license_choice. repeat store_step. Qed.
Hint Resolve validate_license_choice_kept : kept.

Lemma validate_pedigree_kept h0 pedigree path :
  runs (kept h0) any_exn (Store.validate_pedigree pedigree path).
Proof. unfold Store.validate_pedigree. repeat store_step. Qed.
Hint Resolve validate_pedigree_kept : kept.

Lemma validate_evidence_kept h0 evidence path version :
  runs (kept h0) any_exn (Store.validate_evidence evidence path version).
Proof. unfold Store.validate_evidence. repeat store_step. Qed.
Hint Resolve validate_evidence_kept : kept.

Lemma validate_service_structure_kept h0 service path :
  runs (kept h0) any_exn (Store.validate_service_structure service path).
Proof. unfold Store.validate_service_structure. repeat store_step. Qed.
Hint Resolve validate_service_structure_kept : kept.

Lemma validate_component_structure_body_kept h0 self component path version :
  (∀ nested q, runs (kept h0) any_exn (self nested q version)) →
  runs (kept h0) any_exn
       (Store.validate_component_structure_body self component path version).
Proof.
  intros Hself. unfold Store.validate_component_structure_body. repeat store_step.
Qed.

Lemma validate_component_structure_fuel_kept h0 fuel component path version :
  runs (kept h0) any_exn
       (Store.validate_component_structure_fuel fuel component path version).
Proof.
  revert component path. induction fuel as [|fuel IH]; intros component path.
  - cbn. apply runs_lift, raises_only_any.
  - cbn [Store.validate_component_structure_fuel].
    by apply validate_component_structure_body_kept.
Qed.

Lemma validate_component_structure_kept h0 component path version :
  runs (kept h0) any_exn (Store.validate_component_structure component path version).
Proof.
  intros h Hh. unfold Store.validate_component_structure.
  by apply validate_component_structure_fuel_kept.
Qed.
Hint Resolve validate_component_structure_kept : kept.

Lemma validate_complete_cyclonedx_schema_kept h0 data version :
  runs (kept h0) any_exn (Store.validate_complete_cyclonedx_schema data version).
Proof.
  unfold Store.validate_complete_cyclonedx_schema,
    Store.document_level_validations, Store.metadata_validation,
    Store.components_validation, Store.metadata_component_bom_ref,
    Store.services_validation, Store.dependencies_validation,
    Store.compositions_validation, Store.vulnerabilities_validation,
    Store.external_references_validation.
  repeat store_step.
Qed.

(** *** A loaded document *)

Lemma kept_trans h0 h1 h2 : kept h0 h1 → kept h1 h2 → kept h0 h2.
Proof. intros H1 H2 a o Ha. by apply H2, H1. Qed.

Lemma kept_length h0 h : kept h0 h → (length h0 ≤ length h)%nat.
Proof.
  intros Hk. destruct (decide (length h0 = 0)%nat) as [->|Hne]; [lia|].
  destruct (lookup_lt_is_Some_2 h0 (pred (length h0))) as [o Ho]; [lia|].
  apply Hk, lookup_lt_Some in Ho. lia.
Qed.

(** What [load] leaves in the store reads back as the value it was given,
    in that store and in every store that keeps its objects. *)
Definition reads_back (h1 : store) (t : value) (r : ref_value) : Prop :=
  (vdepth t ≤ length h1)%nat ∧
  ∀ h n, kept h1 h → (vdepth t ≤ n)%nat → tree_fuel n h r = t.

Lemma reads_back_kept h1 h2 t r : kept h1 h2 → reads_back h1 t r → reads_back h2 t r.
Proof.
  intros Hk [Hd Ht]. split; [apply kept_length in Hk; lia|].
  intros h n Hh Hn. apply Ht; [by eapply kept_trans | done].
Qed.

Lemma for_all_load {A B} (f : A → M store B) (R : store → A → B → Prop) items h0 rs h1 :
  (∀ h h' x r, R h x r → kept h h' → R h' x r) →
  (∀ x h r h', x ∈ items → f x h = (Ok r, h') → kept h h' ∧ R h' x r) →
  for_all f items h0 = (Ok rs, h1) →
  kept h0 h1 ∧ Forall2 (R h1) items rs.
Proof.
  intros Hmono. revert h0 rs. induction items as [|x items IH]; intros h0 rs Hf Hrun.
  - injection Hrun as <- <-. split; [apply kept_refl | constructor].
  - cbn [for_all] in Hrun.
    apply bind_Ok in Hrun as (r & ha & Hx & Hrun).
    apply bind_Ok in Hrun as (rs' & hb & Hrest & Hrun). injection Hrun as <- <-.
    apply Hf in Hx as [Hka Hr]; [|by left].
    apply IH in Hrest as [Hkb Hrs]; [|intros; apply Hf; [by right | done]].
    split; [by eapply kept_trans|]. constructor; [by eapply Hmono | done].
Qed.

Lemma load_reads_back d t h0 r h1 :
  (vdepth t ≤ d)%nat → load t h0 = (Ok r, h1) → kept h0 h1 ∧ reads_back h1 t r.
Proof.
  revert t h0 r h1. induction d as [|d IH]; intros t h0 r h1 Hd Hrun.
  - destruct t; cbn in Hd; try lia; injection Hrun as <- <-;
      (split; [apply kept_refl | split; [cbn; lia | by intros h []]]).
  - destruct t as [| | | |items|entries];
      try (injection Hrun as <- <-;
           split; [apply kept_refl | split; [cbn; lia | by intros h []]]).
    + cbn [load] in Hrun. cbn [vdepth] in Hd.
      apply bind_Ok in Hrun as (loaded & hm & Hitems & Hrun).
      unfold bind, alloc in Hrun. injection Hrun as <- <-.
      apply (for_all_load _ (λ h x r, reads_back h x r)) in Hitems as [Hk Hall].
      2: { intros h h' x r Hr Hkk. by eapply reads_back_kept. }
      2: { intros x h r h' Hx Hl. apply (IH _ _ _ _) in Hl; [done|].
           apply list_elem_of_lookup in Hx as [j Hj].
           apply vdepth_list_lookup in Hj. lia. }
      split; [by apply kept_alloc|]. split.
      * cbn [vdepth]. rewrite length_app. cbn.
        assert (foldr (λ x d, Nat.max (vdepth x) d) 0 items ≤ length hm)%nat; [|lia].
        clear -Hall. induction Hall as [|x r' items' rs' [Hx _] _ IHall]; cbn; lia.
      * intros h n Hh Hn. cbn [vdepth] in Hn. destruct n as [|n]; [lia|].
        cbn [tree_fuel].
        rewrite (Hh (length hm) (OList loaded)) by (by rewrite lookup_app_r, Nat.sub_diag).
        f_equal.
        assert (kept hm h) as Hhm by (eapply kept_trans; [apply kept_alloc, kept_refl | done]).
        assert (foldr (λ x d, Nat.max (vdepth x) d) 0 items ≤ n)%nat as Hmax by lia.
        clear -Hall Hhm Hmax.
        induction Hall as [|x r' items' rs' [_ Hx] _ IHall]; cbn in *; [done|].
        rewrite Hx by (done || lia). f_equal. apply IHall. lia.
    + cbn [load] in Hrun. cbn [vdepth] in Hd.
      apply bind_Ok in Hrun as (loaded & hm & Hitems & Hrun).
      unfold bind, alloc in Hrun. injection Hrun as <- <-.
      apply (for_all_load _ (λ h (e : string * value) (p : string * ref_value),
                               p.1 = e.1 ∧ reads_back h e.2 p.2))
        in Hitems as [Hk Hall].
      2: { intros h h' x r [Hr1 Hr] Hkk. split; [done|]. by eapply reads_back_kept. }
      2: { intros e h p h' He Hl.
           apply bind_Ok in Hl as (r & hx & Hl & Hret). injection Hret as <- <-.
           apply (IH _ _ _ _) in Hl; [naive_solver|].
           apply list_elem_of_lookup in He as [j Hj].
           assert (vdepth e.2 ≤ foldr (λ e d, Nat.max (vdepth e.2) d) 0 entries)%nat;
             [|lia].
           clear -Hj. revert j Hj.
           induction entries as [|e' entries IHe]; intros [|j] Hj; cbn in *; try done.
           - injection Hj as ->. lia.
           - specialize (IHe _ Hj). lia. }
      split; [by apply kept_alloc|]. split.
      * cbn [vdepth]. rewrite length_app. cbn.
        assert (foldr (λ e d, Nat.max (vdepth e.2) d) 0 entries ≤ length hm)%nat; [|lia].
        clear -Hall. induction Hall as [|x r' items' rs' [_ [Hx _]] _ IHall]; cbn; lia.
      * intros h n Hh Hn. cbn [vdepth] in Hn. destruct n as [|n]; [lia|].
        cbn [tree_fuel].
        rewrite (Hh (length hm) (ODict loaded)) by (by rewrite lookup_app_r, Nat.sub_diag).
        f_equal.
        assert (kept hm h) as Hhm by (eapply kept_trans; [apply kept_alloc, kept_refl | done]).
        assert (foldr (λ e d, Nat.max (vdepth e.2) d) 0 entries ≤ n)%nat as Hmax by lia.
        clear -Hall Hhm Hmax.
        induction Hall as [|[k x] [k' r'] items' rs' [Hk [_ Hx]] _ IHall]; cbn in *; [done|].
        subst k'. rewrite Hx by (done || lia). f_equal. apply IHall. lia.
Qed.


End StoreProperties.

(** ** The properties on the documents above

    The standard-library functions are those of [Reference.lib]. *)

(** A document in which nothing is wrong gets no diagnostic. *)
Example sample_1_6_passes :
  validate_complete_cyclonedx_schema (lib := Reference.lib) sample_1_6 "1.6" = Ok [].
Proof. vm_compute. reflexivity. Qed.

(** The same document, validated as 1.3, breaks the rules of 1.3. *)
Example sample_1_6_as_1_3 :
  validate_complete_cyclonedx_schema (lib := Reference.lib) sample_1_6 "1.3" =
  Ok [SchemaNotAllowed "1.3";
      ToolsNotArray "1.3";
      MissingVersion13 "metadata.component";
      LifecyclesNotAvailable "1.3";
      MissingVersion13 "components[0]";
      EvidenceNotAvailable "components[0]" "1.3";
      MissingVersion13 "components[0].components[0]";
      VulnerabilitiesNotAvailable "1.3"].
Proof. vm_compute. reflexivity. Qed.



(** C2 does not hold as stated: the dependency of [nested_reference] names
    the bom-ref that the nested component [nested_child] declares, and
    validation reports it as not found. *)
Lemma nested_reference_reported :
  items_of nested_reference "components" = [parent_of_child] ∧
  items_of parent_of_child "components" = [nested_child] ∧
  bom_ref_of nested_child = Some (VStr "child") ∧
  validate_complete_cyclonedx_schema (lib := Reference.lib) nested_reference "1.6" =
    Ok [DependsOnNotFound 0 0 (VStr "child")].
Proof. repeat split; vm_compute; reflexivity. Qed.

Lemma dependency_references_checked_witness :
  validate_complete_cyclonedx_schema (lib := Reference.lib) forward_reference "1.6" =
    Ok [DependsOnNotFound 0 1 (VStr "missing")] ∧
  ∃ k, py_hash (VStr "api") = Ok k ∧
    (In (DependsOnNotFound 0 0 (VStr "api")) [DependsOnNotFound 0 1 (VStr "missing")] ↔
     k ∉ declared_refs forward_reference).
Proof.
  assert (validate_complete_cyclonedx_schema (lib := Reference.lib)
            forward_reference "1.6" = Ok [DependsOnNotFound 0 1 (VStr "missing")]) as Hrun
    by (vm_compute; reflexivity).
  split; [exact Hrun|].
  apply (proj2 (dependency_references_checked (lib := Reference.lib) _ _ _ Hrun
                  0%nat forward_dependency eq_refl) 0%nat (VStr "api")).
  reflexivity.
Defined.

(** C3 does not hold as stated: 1.7 is not a recognized version, and the
    document that declares it, validated as 1.7, gets no diagnostic at
    all. *)
Lemma unsupported_version_accepted :
  ¬ In "1.7" supported_versions ∧
  validate_complete_cyclonedx_schema (lib := Reference.lib) unsupported_version "1.7" = Ok [].
Proof.
  split; [|vm_compute; reflexivity].
  unfold supported_versions. cbn. intuition discriminate.
Qed.

Lemma version_rules_by_comparison_witness :
  validate_complete_cyclonedx_schema (lib := Reference.lib) scenario_1_3 "1.7" =
    Ok [MissingSchema "1.7"] ∧
  (In (MissingSchema "1.7") [MissingSchema "1.7"] ↔
   "1.7" = "1.7" ∧ String.leb "1.4" "1.7" = true ∧
   py_contains "$schema" scenario_1_3 = Ok false).
Proof.
  assert (validate_complete_cyclonedx_schema (lib := Reference.lib)
            scenario_1_3 "1.7" = Ok [MissingSchema "1.7"]) as Hrun
    by (vm_compute; reflexivity).
  split; [exact Hrun|].
  apply (proj1 (proj2 (version_rules_by_comparison (lib := Reference.lib) _ _ _) Hrun)).
Defined.

(** C4 does not hold as stated: the scenario document does not yield exactly
    one diagnostic. *)
Lemma scenario_1_3_not_one_error :
  ¬ ∃ x, validate_complete_cyclonedx_schema (lib := Reference.lib) scenario_1_3 "1.3" = Ok [x].
Proof. intros [x Hx]. vm_compute in Hx. discriminate. Qed.

Lemma wrong_length_hash_one_error_witness :
  validate_hash_object (VDict [("alg", VStr "MD5"); ("content", VStr "abc")])
    "components[0].hashes[0]" =
  Ok [InvalidHashContent "components[0].hashes[0]" (VStr "MD5")].
Proof.
  apply (proj1 (wrong_length_hash_one_error
                  [("alg", VStr "MD5"); ("content", VStr "abc")]
                  "components[0].hashes[0]" (VStr "MD5") (VStr "abc") eq_refl eq_refl)
           "MD5" 32%nat "abc" eq_refl eq_refl).
  - left. reflexivity.
  - vm_compute. lia.
Defined.

Lemma license_choice_exactly_one_witness :
  ∃ diagnostics,
    validate_license_choice
      (VDict [("license", VDict [("id", VStr "MIT")]); ("expression", VStr "MIT")])
      "components[0].licenses[0]" = Ok diagnostics ∧
    In (LicenseBoth "components[0].licenses[0]") diagnostics.
Proof.
  apply (license_choice_exactly_one
           [("license", VDict [("id", VStr "MIT")]); ("expression", VStr "MIT")]
           "components[0].licenses[0]").
  - intros l Hl. vm_compute in Hl. injection Hl as <-. reflexivity.
  - intros e He. vm_compute in He. injection He as <-. reflexivity.
Defined.

(** C7 does not hold as stated: [naive_timestamp] has no [Z], no [+] and,
    after the date, no [-], and validation accepts it. *)
Lemma naive_timestamp_accepted :
  str_contains "Z" naive_timestamp = false ∧
  str_contains "+" naive_timestamp = false ∧
  String.substring 10 9 naive_timestamp = naive_time_part ∧
  str_contains "-" naive_time_part = false ∧
  validate_complete_cyclonedx_schema (lib := Reference.lib)
    (with_timestamp (VStr naive_timestamp)) "1.3" = Ok [].
Proof. repeat split; vm_compute; reflexivity. Qed.

Lemma timestamp_check_is_fromisoformat_witness :
  validate_complete_cyclonedx_schema (lib := Reference.lib)
    (with_timestamp (VStr "yesterday")) "1.3" = Ok [InvalidTimestamp] ∧
  (In InvalidTimestamp [InvalidTimestamp] ↔
   Reference.fromisoformat (str_replace_char "Z" "+00:00" "yesterday") = false).
Proof.
  assert (validate_complete_cyclonedx_schema (lib := Reference.lib)
            (with_timestamp (VStr "yesterday")) "1.3" = Ok [InvalidTimestamp]) as Hrun
    by (vm_compute; reflexivity).
  split; [exact Hrun|].
  apply (timestamp_check_is_fromisoformat (lib := Reference.lib) _ _
           (VDict [("timestamp", VStr "yesterday")]) _ _ Hrun); reflexivity.
Defined.

Lemma hash_object_at_most_one_issue_witness :
  validate_hash_object (VDict [("alg", VStr "MD5")]) "components[0].hashes[0]" =
  Ok [HashMissingFields "components[0].hashes[0]"].
Proof.
  apply (proj1 (hash_object_at_most_one_issue (VDict [("alg", VStr "MD5")])
                  "components[0].hashes[0]")).
  right. reflexivity.
Defined.

(** ** The validator over the store, on the documents above *)

(** Over the store, the validator reports what it reports on the tree. *)
Example loaded_sample_1_6_passes :
  Store.validate_loaded (lib := Reference.lib) sample_1_6 "1.6" = Ok [].
Proof. vm_compute. reflexivity. Qed.

Example loaded_sample_1_6_as_1_3 :
  Store.validate_loaded (lib := Reference.lib) sample_1_6 "1.3" =
  validate_complete_cyclonedx_schema (lib := Reference.lib) sample_1_6 "1.3".
Proof. vm_compute. reflexivity. Qed.

Example loaded_documents_agree :
  Forall (λ d, Store.validate_loaded (lib := Reference.lib) d.1 d.2 =
               validate_complete_cyclonedx_schema (lib := Reference.lib) d.1 d.2)
    [(scenario_1_3, "1.3"); (nested_duplicates, "1.6"); (nested_reference, "1.6");
     (top_level_duplicates, "1.6"); (forward_reference, "1.6");
     (unsupported_version, "1.7"); (with_timestamp (VInt 5), "1.3");
     (with_purl (VInt 5), "1.3"); (with_tool (VInt 5), "1.3");
     (with_timestamp (VStr naive_timestamp), "1.3")].
Proof. repeat constructor; vm_compute; reflexivity. Qed.


(** ** Further properties, on concrete inputs *)

Lemma hash_content_accepted_witness :
  validate_hash_object
    (VDict [("alg", VStr "SHA-256"); ("content", VStr sha256_of_sample)])
    "components[0].hashes[0]" = Ok [].
Proof.
  apply (proj2 (hash_content_accepted
                  [("alg", VStr "SHA-256"); ("content", VStr sha256_of_sample)]
                  "components[0].hashes[0]" "SHA-256" 64 sha256_of_sample
                  eq_refl eq_refl ltac:(right; right; left; reflexivity))).
  exists (str_chars sha256_of_sample). repeat split; [reflexivity..|by left].
Defined.

Lemma email_shape_witness :
  validate_organizational_contact (VDict [("email", VStr "nobody")]) "metadata.authors[0]" =
    Ok [] ∨
  validate_organizational_contact (VDict [("email", VStr "nobody")]) "metadata.authors[0]" =
    Ok [InvalidEmail "metadata.authors[0]"].
Proof.
  apply (proj2 (email_shape [("email", VStr "nobody")] "metadata.authors[0]")
           "nobody" eq_refl).
Defined.

Lemma properties_missing_fields_witness :
  ∃ diagnostics,
    validate_properties_array
      (VList [VDict [("name", VStr "a"); ("value", VStr "b")]; VDict [("name", VStr "c")]])
      "metadata.properties" = Ok diagnostics ∧
    (In (PropertyMissingValue (indexed "metadata.properties" 1)) diagnostics ↔
     ∃ p, [VDict [("name", VStr "a"); ("value", VStr "b")]; VDict [("name", VStr "c")]] !! 1%nat
            = Some p ∧
          py_contains "value" p = Ok false).
Proof.
  destruct (properties_missing_fields
              [VDict [("name", VStr "a"); ("value", VStr "b")]; VDict [("name", VStr "c")]]
              "metadata.properties") as (diagnostics & Hrun & _ & Hvalue & _).
  { repeat constructor. }
  exists diagnostics. split; [exact Hrun | apply Hvalue].
Defined.

Lemma component_diagnostics_located_witness :
  Forall (λ x, located "components[0]" x = true)
    [MissingVersion13 "components[0]";
     EvidenceNotAvailable "components[0]" "1.3";
     MissingVersion13 "components[0].components[0]"].
Proof.
  apply (component_diagnostics_located (lib := Reference.lib)
           (VDict [("type", VStr "library"); ("name", VStr "a");
                   ("evidence", VDict []);
                   ("components", VList [VDict [("type", VStr "file"); ("name", VStr "f")]])])
           "components[0]" "1.3").
  vm_compute. reflexivity.
Defined.

Lemma component_required_fields_witness :
  In (MissingName "components[0]")
     [MissingName "components[0]"; MissingVersion13 "components[0]"] ↔
  py_contains "name" (VDict [("type", VStr "library")]) = Ok false.
Proof.
  apply (component_required_fields (lib := Reference.lib)
           (VDict [("type", VStr "library")]) "components[0]" "1.3").
  vm_compute. reflexivity.
Defined.
